(** * The gpspoint text format of Viking: reader, writer and escaping codec

    A shallow embedding of [gpspoint.c]: the escaping codec ([slashdup],
    [deslashndup]), the line tokenizer and field dispatcher
    ([gpspoint_process_tag], [gpspoint_process_key_and_value]), the record
    assembler of [a_gpspoint_read_file] and the writer
    ([a_gpspoint_write_file]), followed by the properties of the format.

    Conventions.
    - A C string is the list of the bytes that precede its terminating NUL;
      a pointer into a string is the suffix that starts there, and reading
      one position past the end yields the terminator.
    - [guint16] and [guint] values are integers of [Z] with the wrap-around
      written out ([u16], [u32]).
    - A [gchar *] that may be [NULL] is an [option]. *)

From Stdlib Require Import String Ascii ZArith List Bool Lia.
Import ListNotations.
Local Open Scope string_scope.
Local Open Scope list_scope.
Local Open Scope Z_scope.

(** ** Characters and C strings *)

Definition NUL : ascii := "000"%char.
Definition LF : ascii := "010"%char.
Definition CR : ascii := "013"%char.
Definition SP : ascii := " "%char.
Definition DQ : ascii := "034"%char.
Definition BSL : ascii := "\"%char.
Definition EQS : ascii := "="%char.
Definition HASH : ascii := "#"%char.

Abbreviation cstr := (list ascii) (only parsing).
Abbreviation gstr := (option (list ascii)) (only parsing).

(** A string literal as a C string. *)
Definition lit (s : string) : cstr := list_ascii_of_string s.

(** [str[i]]: the terminator is read at and past the end. *)
Definition str_at (str : cstr) (i : Z) : ascii := nth (Z.to_nat i) str NUL.

Definition u16 (z : Z) : Z := z mod 65536.
Definition u32 (z : Z) : Z := z mod 4294967296.

(** ** Escaping codec *)

Definition needs_bs (c : ascii) : bool := Ascii.eqb c BSL || Ascii.eqb c DQ.
Definition is_eol (c : ascii) : bool := Ascii.eqb c LF || Ascii.eqb c CR.

(** First loop of [slashdup]: the number of characters to protect. *)
Fixpoint need_bs_count (str : cstr) : nat :=
  match str with
  | [] => O
  | c :: str' => ((if needs_bs c then 1 else 0) + need_bs_count str')%nat
  end.

(** Second loop of [slashdup]: [rv[j++] = '\\'] before a backslash or a
    quote, then [rv[j] = str[i]], overwritten by a blank for LF and CR. *)
Fixpoint slashdup_fill (str : cstr) : cstr :=
  match str with
  | [] => []
  | c :: str' =>
      (if needs_bs c then [BSL] else [])
        ++ (if is_eol c then SP else c) :: slashdup_fill str'
  end.

Definition slashdup (str : cstr) : cstr := slashdup_fill str.

(** First loop of [deslashndup], on [guint16] counters:
    [for (i = 0, bs_count = 0; i < len; i++) if (str[i] == '\\') { bs_count++; i++; }].
    The result is [None] when the fuel runs out. *)
Fixpoint bs_scan (fuel : nat) (str : cstr) (len i bs_count : Z) : option (Z * Z) :=
  match fuel with
  | O => None
  | S fuel' =>
      if i <? len then
        if Ascii.eqb (str_at str i) BSL
        then bs_scan fuel' str len (u16 (u16 (i + 1) + 1)) (u16 (bs_count + 1))
        else bs_scan fuel' str len (u16 (i + 1)) bs_count
      else Some (i, bs_count)
  end.

(** Second loop of [deslashndup]:
    [for (i = 0, j = 0; i < len && j < new_len; i++)], which drops a
    backslash that is not itself escaped and copies everything else.  Both
    counters stay below [len <= 65535], so their increments never wrap.
    Returns the bytes written to [rv] and the final [j]. *)
Fixpoint deslash_copy (fuel : nat) (str : cstr) (len new_len i j : Z)
         (backslash : bool) : cstr * Z :=
  match fuel with
  | O => ([], j)
  | S fuel' =>
      if (i <? len) && (j <? new_len) then
        if Ascii.eqb (str_at str i) BSL && negb backslash
        then deslash_copy fuel' str len new_len (i + 1) j true
        else
          let '(rv, j') := deslash_copy fuel' str len new_len (i + 1) (j + 1) false in
          (str_at str i :: rv, j')
      else ([], j)
  end.

(** [deslashndup (str, len)], [len] being received as a [guint16].
    - [Some None]: the function returns [NULL] ([len < 1]);
    - [Some (Some s)]: the function returns the string [s];
    - [None]: no defined result.  Either the counting loop never ends (its
      [guint16] index wraps past a backslash at position 65534), or fewer
      than [new_len] bytes of the fresh buffer were written, so that the
      returned string holds indeterminate bytes. *)
Definition deslashndup (str : cstr) (len0 : Z) : option gstr :=
  let len := u16 len0 in
  if len <? 1 then Some None
  else
    match bs_scan (S (Z.to_nat len)) str len 0 0 with
    | None => None
    | Some (i, bs_count) =>
        let bs_count :=
          if Ascii.eqb (str_at str (i - 1)) BSL
             && ((len =? 1) || negb (Ascii.eqb (str_at str (i - 2)) BSL))
          then u16 (bs_count - 1) else bs_count in
        let new_len := u16 (len - bs_count) in
        let '(rv, j) := deslash_copy (Z.to_nat len) str len new_len 0 0 false in
        if j =? new_len then Some (Some rv) else None
    end.

Definition len_of (s : cstr) : Z := Z.of_nat (length s).


(** ** The C library functions the reader calls ("C" locale) *)

Definition isspace (c : ascii) : bool :=
  let n := nat_of_ascii c in
  Nat.eqb n 32 || (Nat.leb 9 n && Nat.leb n 13).

Definition isdigit (c : ascii) : bool :=
  let n := nat_of_ascii c in Nat.leb 48 n && Nat.leb n 57.

Definition tolower (c : ascii) : ascii :=
  let n := nat_of_ascii c in
  if Nat.leb 65 n && Nat.leb n 90 then ascii_of_nat (n + 32) else c.

(** [strncasecmp (s1, s2, n) == 0] *)
Fixpoint strncasecmp_eq (s1 s2 : cstr) (n : nat) : bool :=
  match n with
  | O => true
  | S n' =>
      let c1 := hd NUL s1 in
      let c2 := hd NUL s2 in
      if Ascii.eqb (tolower c1) (tolower c2)
      then if Ascii.eqb c1 NUL then true else strncasecmp_eq (tl s1) (tl s2) n'
      else false
  end.

(** [strncmp (s1, s2, n) == 0] *)
Fixpoint strncmp_eq (s1 s2 : cstr) (n : nat) : bool :=
  match n with
  | O => true
  | S n' =>
      let c1 := hd NUL s1 in
      let c2 := hd NUL s2 in
      if Ascii.eqb c1 c2
      then if Ascii.eqb c1 NUL then true else strncmp_eq (tl s1) (tl s2) n'
      else false
  end.

(** The bytes of a buffer seen as a C string: what precedes the first NUL. *)
Fixpoint c_str (buf : list ascii) : cstr :=
  match buf with
  | [] => []
  | c :: buf' => if Ascii.eqb c NUL then [] else c :: c_str buf'
  end.

Definition strlen (s : cstr) : Z := len_of (c_str s).

(** [g_strndup (str, n)]: at most [n] bytes of the string. *)
Definition g_strndup (str : cstr) (n : Z) : cstr := firstn (Z.to_nat n) (c_str str).

Definition s32 (z : Z) : Z := (z + 2147483648) mod 4294967296 - 2147483648.
Definition LONG_MAX : Z := 9223372036854775807.
Definition LONG_MIN : Z := -9223372036854775808.

Definition digit_val (c : ascii) : Z := Z.of_nat (nat_of_ascii c) - 48.

Fixpoint skip_space (s : cstr) : cstr :=
  match s with
  | c :: s' => if isspace c then skip_space s' else s
  | [] => []
  end.

Fixpoint digits_val (s : cstr) (acc : Z) : Z :=
  match s with
  | c :: s' => if isdigit c then digits_val s' (acc * 10 + digit_val c) else acc
  | [] => acc
  end.

(** [atoi] is [(int) strtol (s, NULL, 10)]: blanks, an optional sign, the
    digits; [strtol] saturates at the range of [long] (LP64) and the cast
    keeps the low 32 bits. *)
Definition atoi (s : cstr) : Z :=
  let s := skip_space s in
  let v :=
    match s with
    | c :: s' =>
        if Ascii.eqb c "-"%char then - digits_val s' 0
        else if Ascii.eqb c "+"%char then digits_val s' 0
        else digits_val s 0
    | [] => 0
    end in
  s32 (Z.max LONG_MIN (Z.min LONG_MAX v)).

(** The digits that [printf] writes for a non-negative integer. *)
Fixpoint fmt_digits (fuel : nat) (n : Z) : cstr :=
  match fuel with
  | O => []
  | S fuel' =>
      if n <? 10 then [ascii_of_nat (Z.to_nat (48 + n))]
      else fmt_digits fuel' (n / 10) ++ [ascii_of_nat (Z.to_nat (48 + n mod 10))]
  end.

Definition fmt_unsigned (n : Z) : cstr := fmt_digits (S (Z.to_nat (Z.log2 n))) n.

(** [printf ("%d", z)] for [z] in the range of [int]. *)
Definition fmt_d (z : Z) : cstr :=
  if z <? 0 then "-"%char :: fmt_unsigned (- z) else fmt_unsigned z.

Definition hex_digit (n : Z) : ascii :=
  if n <? 10 then ascii_of_nat (Z.to_nat (48 + n)) else ascii_of_nat (Z.to_nat (87 + n)).

(** [printf ("%.2x", v)] for [0 <= v < 256]. *)
Definition fmt_02x (v : Z) : cstr := [hex_digit (v / 16); hex_digit (v mod 16)].

(** [fgets (line_buffer, n + 1, f)] on the bytes left in the file: at most
    [n] bytes, up to and including the first line feed. *)
Fixpoint fgets_read (n : nat) (f : list ascii) : list ascii * list ascii :=
  match n, f with
  | O, _ => ([], f)
  | _, [] => ([], [])
  | S n', c :: f' =>
      if Ascii.eqb c LF then ([c], f')
      else let '(l, r) := fgets_read n' f' in (c :: l, r)
  end.

Definition VIKING_LINE_SIZE : nat := 4096.

(** [None] is the [NULL] of [fgets] at the end of the file. *)
Definition fgets (f : list ascii) : option (list ascii * list ascii) :=
  match f with
  | [] => None
  | _ => Some (fgets_read (VIKING_LINE_SIZE - 1) f)
  end.

(** ** Collaborators

    Code of the application that [gpspoint.c] calls and that lies outside
    it: the floating-point conversions, the coordinate converter, the path
    resolver, the colour parser and the constructors and setters of the
    entities.  They are the fields of two classes; the model is generic in
    them. *)

Record LatLon {D : Type} : Type := { lat : D; lon : D }.
Arguments LatLon D : clear implicits.

Record GdkColor : Type := { red : Z; green : Z; blue : Z }.

Class Collaborators : Type := {
  gdouble : Type;
  NAN : gdouble;
  dbl_zero : gdouble;
  isnan : gdouble -> bool;
  (** [g_ascii_strtod (value, NULL)], [value] pointing into the line *)
  g_ascii_strtod : cstr -> gdouble;
  a_coords_dtostr_buffer : gdouble -> cstr;
  (** [util_formatd ("%.2f", d)] *)
  util_formatd_2f : gdouble -> cstr;
  VikCoord : Type;
  VikCoordMode : Type;
  vik_coord_load_from_latlon : VikCoordMode -> LatLon gdouble -> VikCoord;
  vik_coord_to_latlon : VikCoord -> LatLon gdouble;
  (** [gdk_color_parse]: [None] when it returns [FALSE] *)
  gdk_color_parse : cstr -> option GdkColor;
  (** [util_make_absolute_filename (filename, dirpath)], [NULL] included *)
  util_make_absolute_filename : cstr -> gstr -> gstr;
  (** [a_vik_get_file_ref_format () == VIK_FILE_REF_FORMAT_RELATIVE] *)
  file_ref_format_relative : bool;
  file_GetRelativeFilename : cstr -> cstr -> gstr;
  g_utf8_strdown : cstr -> cstr
}.

(** [struct _VikWaypoint] of [vikwaypoint.h] ([symbol_pixbuf], a reference
    used for display only, is left out). *)
Record VikWaypoint {C : Collaborators} : Type := {
  wp_coord : VikCoord;
  wp_visible : bool;
  wp_timestamp : gdouble;
  wp_altitude : gdouble;
  wp_course : gdouble;
  wp_speed : gdouble;
  wp_magvar : gdouble;
  wp_geoidheight : gdouble;
  wp_hide_name : bool;
  wp_name : gstr;
  wp_comment : gstr;
  wp_description : gstr;
  wp_source : gstr;
  wp_url : gstr;
  wp_url_name : gstr;
  wp_type : gstr;
  wp_fix_mode : Z;
  wp_nsats : Z;
  wp_hdop : gdouble;
  wp_vdop : gdouble;
  wp_pdop : gdouble;
  wp_ageofdgpsdata : gdouble;
  wp_dgpsid : Z;
  wp_image : gstr;
  wp_image_direction : gdouble;
  wp_image_direction_ref : Z;
  wp_image_width : Z;
  wp_image_height : Z;
  wp_symbol : gstr;
  wp_extensions : gstr
}.

(** The fields of a [VikTrackpoint] that [gpspoint.c] reads and writes. *)
Record VikTrackpoint {C : Collaborators} : Type := {
  tp_coord : VikCoord;
  tp_newsegment : bool;
  tp_timestamp : gdouble;
  tp_altitude : gdouble;
  tp_name : gstr;
  tp_speed : gdouble;
  tp_course : gdouble;
  tp_nsats : Z;
  tp_fix_mode : Z;
  tp_hdop : gdouble;
  tp_vdop : gdouble;
  tp_pdop : gdouble
}.

(** The fields of a [VikTrack] that [gpspoint.c] reads and writes. *)
Record VikTrack {C : Collaborators} : Type := {
  trk_trackpoints : list VikTrackpoint;
  trk_visible : bool;
  trk_is_route : bool;
  trk_name : gstr;
  trk_comment : gstr;
  trk_description : gstr;
  trk_source : gstr;
  trk_number : Z;
  trk_type : gstr;
  trk_color : GdkColor;
  trk_has_color : bool;
  trk_draw_name_mode : Z;
  trk_max_number_dist_labels : Z
}.

Class EntityOps {C : Collaborators} : Type := {
  vik_waypoint_new : VikWaypoint;
  vik_waypoint_set_comment : VikWaypoint -> cstr -> VikWaypoint;
  vik_waypoint_set_description : VikWaypoint -> cstr -> VikWaypoint;
  vik_waypoint_set_source : VikWaypoint -> cstr -> VikWaypoint;
  vik_waypoint_set_url : VikWaypoint -> cstr -> VikWaypoint;
  vik_waypoint_set_url_name : VikWaypoint -> cstr -> VikWaypoint;
  vik_waypoint_set_type : VikWaypoint -> cstr -> VikWaypoint;
  vik_waypoint_set_image : VikWaypoint -> cstr -> VikWaypoint;
  vik_waypoint_set_symbol : VikWaypoint -> cstr -> VikWaypoint;
  vik_track_new : VikTrack;
  vik_track_set_comment : VikTrack -> cstr -> VikTrack;
  vik_track_set_description : VikTrack -> cstr -> VikTrack;
  vik_track_set_source : VikTrack -> cstr -> VikTrack;
  vik_track_set_type : VikTrack -> cstr -> VikTrack;
  vik_trackpoint_new : VikTrackpoint;
  vik_trackpoint_set_name : VikTrackpoint -> gstr -> VikTrackpoint
}.

(** ** Field assignments

    [set_wp_altitude v wp] is [wp] after [wp->altitude = v], and so on for
    every field of the three structures. *)

Definition set_wp_coord {C : Collaborators} (v : _) (x : VikWaypoint) : VikWaypoint :=
  Build_VikWaypoint _ v (wp_visible x) (wp_timestamp x) (wp_altitude x) (wp_course x)
    (wp_speed x) (wp_magvar x) (wp_geoidheight x) (wp_hide_name x) (wp_name x)
    (wp_comment x) (wp_description x) (wp_source x) (wp_url x) (wp_url_name x) (wp_type
    x) (wp_fix_mode x) (wp_nsats x) (wp_hdop x) (wp_vdop x) (wp_pdop x)
    (wp_ageofdgpsdata x) (wp_dgpsid x) (wp_image x) (wp_image_direction x)
    (wp_image_direction_ref x) (wp_image_width x) (wp_image_height x) (wp_symbol x)
    (wp_extensions x).

Definition set_wp_visible {C : Collaborators} (v : _) (x : VikWaypoint) : VikWaypoint :=
  Build_VikWaypoint _ (wp_coord x) v (wp_timestamp x) (wp_altitude x) (wp_course x)
    (wp_speed x) (wp_magvar x) (wp_geoidheight x) (wp_hide_name x) (wp_name x)
    (wp_comment x) (wp_description x) (wp_source x) (wp_url x) (wp_url_name x) (wp_type
    x) (wp_fix_mode x) (wp_nsats x) (wp_hdop x) (wp_vdop x) (wp_pdop x)
    (wp_ageofdgpsdata x) (wp_dgpsid x) (wp_image x) (wp_image_direction x)
    (wp_image_direction_ref x) (wp_image_width x) (wp_image_height x) (wp_symbol x)
    (wp_extensions x).

Definition set_wp_timestamp {C : Collaborators} (v : _) (x : VikWaypoint) : VikWaypoint :=
  Build_VikWaypoint _ (wp_coord x) (wp_visible x) v (wp_altitude x) (wp_course x)
    (wp_speed x) (wp_magvar x) (wp_geoidheight x) (wp_hide_name x) (wp_name x)
    (wp_comment x) (wp_description x) (wp_source x) (wp_url x) (wp_url_name x) (wp_type
    x) (wp_fix_mode x) (wp_nsats x) (wp_hdop x) (wp_vdop x) (wp_pdop x)
    (wp_ageofdgpsdata x) (wp_dgpsid x) (wp_image x) (wp_image_direction x)
    (wp_image_direction_ref x) (wp_image_width x) (wp_image_height x) (wp_symbol x)
    (wp_extensions x).

Definition set_wp_altitude {C : Collaborators} (v : _) (x : VikWaypoint) : VikWaypoint :=
  Build_VikWaypoint _ (wp_coord x) (wp_visible x) (wp_timestamp x) v (wp_course x)
    (wp_speed x) (wp_magvar x) (wp_geoidheight x) (wp_hide_name x) (wp_name x)
    (wp_comment x) (wp_description x) (wp_source x) (wp_url x) (wp_url_name x) (wp_type
    x) (wp_fix_mode x) (wp_nsats x) (wp_hdop x) (wp_vdop x) (wp_pdop x)
    (wp_ageofdgpsdata x) (wp_dgpsid x) (wp_image x) (wp_image_direction x)
    (wp_image_direction_ref x) (wp_image_width x) (wp_image_height x) (wp_symbol x)
    (wp_extensions x).

Definition set_wp_course {C : Collaborators} (v : _) (x : VikWaypoint) : VikWaypoint :=
  Build_VikWaypoint _ (wp_coord x) (wp_visible x) (wp_timestamp x) (wp_altitude x) v
    (wp_speed x) (wp_magvar x) (wp_geoidheight x) (wp_hide_name x) (wp_name x)
    (wp_comment x) (wp_description x) (wp_source x) (wp_url x) (wp_url_name x) (wp_type
    x) (wp_fix_mode x) (wp_nsats x) (wp_hdop x) (wp_vdop x) (wp_pdop x)
    (wp_ageofdgpsdata x) (wp_dgpsid x) (wp_image x) (wp_image_direction x)
    (wp_image_direction_ref x) (wp_image_width x) (wp_image_height x) (wp_symbol x)
    (wp_extensions x).

Definition set_wp_speed {C : Collaborators} (v : _) (x : VikWaypoint) : VikWaypoint :=
  Build_VikWaypoint _ (wp_coord x) (wp_visible x) (wp_timestamp x) (wp_altitude x)
    (wp_course x) v (wp_magvar x) (wp_geoidheight x) (wp_hide_name x) (wp_name x)
    (wp_comment x) (wp_description x) (wp_source x) (wp_url x) (wp_url_name x) (wp_type
    x) (wp_fix_mode x) (wp_nsats x) (wp_hdop x) (wp_vdop x) (wp_pdop x)
    (wp_ageofdgpsdata x) (wp_dgpsid x) (wp_image x) (wp_image_direction x)
    (wp_image_direction_ref x) (wp_image_width x) (wp_image_height x) (wp_symbol x)
    (wp_extensions x).

Definition set_wp_magvar {C : Collaborators} (v : _) (x : VikWaypoint) : VikWaypoint :=
  Build_VikWaypoint _ (wp_coord x) (wp_visible x) (wp_timestamp x) (wp_altitude x)
    (wp_course x) (wp_speed x) v (wp_geoidheight x) (wp_hide_name x) (wp_name x)
    (wp_comment x) (wp_description x) (wp_source x) (wp_url x) (wp_url_name x) (wp_type
    x) (wp_fix_mode x) (wp_nsats x) (wp_hdop x) (wp_vdop x) (wp_pdop x)
    (wp_ageofdgpsdata x) (wp_dgpsid x) (wp_image x) (wp_image_direction x)
    (wp_image_direction_ref x) (wp_image_width x) (wp_image_height x) (wp_symbol x)
    (wp_extensions x).

Definition set_wp_geoidheight {C : Collaborators} (v : _) (x : VikWaypoint) : VikWaypoint :=
  Build_VikWaypoint _ (wp_coord x) (wp_visible x) (wp_timestamp x) (wp_altitude x)
    (wp_course x) (wp_speed x) (wp_magvar x) v (wp_hide_name x) (wp_name x) (wp_comment
    x) (wp_description x) (wp_source x) (wp_url x) (wp_url_name x) (wp_type x)
    (wp_fix_mode x) (wp_nsats x) (wp_hdop x) (wp_vdop x) (wp_pdop x) (wp_ageofdgpsdata
    x) (wp_dgpsid x) (wp_image x) (wp_image_direction x) (wp_image_direction_ref x)
    (wp_image_width x) (wp_image_height x) (wp_symbol x) (wp_extensions x).

Definition set_wp_hide_name {C : Collaborators} (v : _) (x : VikWaypoint) : VikWaypoint :=
  Build_VikWaypoint _ (wp_coord x) (wp_visible x) (wp_timestamp x) (wp_altitude x)
    (wp_course x) (wp_speed x) (wp_magvar x) (wp_geoidheight x) v (wp_name x)
    (wp_comment x) (wp_description x) (wp_source x) (wp_url x) (wp_url_name x) (wp_type
    x) (wp_fix_mode x) (wp_nsats x) (wp_hdop x) (wp_vdop x) (wp_pdop x)
    (wp_ageofdgpsdata x) (wp_dgpsid x) (wp_image x) (wp_image_direction x)
    (wp_image_direction_ref x) (wp_image_width x) (wp_image_height x) (wp_symbol x)
    (wp_extensions x).

Definition set_wp_name {C : Collaborators} (v : _) (x : VikWaypoint) : VikWaypoint :=
  Build_VikWaypoint _ (wp_coord x) (wp_visible x) (wp_timestamp x) (wp_altitude x)
    (wp_course x) (wp_speed x) (wp_magvar x) (wp_geoidheight x) (wp_hide_name x) v
    (wp_comment x) (wp_description x) (wp_source x) (wp_url x) (wp_url_name x) (wp_type
    x) (wp_fix_mode x) (wp_nsats x) (wp_hdop x) (wp_vdop x) (wp_pdop x)
    (wp_ageofdgpsdata x) (wp_dgpsid x) (wp_image x) (wp_image_direction x)
    (wp_image_direction_ref x) (wp_image_width x) (wp_image_height x) (wp_symbol x)
    (wp_extensions x).

Definition set_wp_comment {C : Collaborators} (v : _) (x : VikWaypoint) : VikWaypoint :=
  Build_VikWaypoint _ (wp_coord x) (wp_visible x) (wp_timestamp x) (wp_altitude x)
    (wp_course x) (wp_speed x) (wp_magvar x) (wp_geoidheight x) (wp_hide_name x)
    (wp_name x) v (wp_description x) (wp_source x) (wp_url x) (wp_url_name x) (wp_type
    x) (wp_fix_mode x) (wp_nsats x) (wp_hdop x) (wp_vdop x) (wp_pdop x)
    (wp_ageofdgpsdata x) (wp_dgpsid x) (wp_image x) (wp_image_direction x)
    (wp_image_direction_ref x) (wp_image_width x) (wp_image_height x) (wp_symbol x)
    (wp_extensions x).

Definition set_wp_description {C : Collaborators} (v : _) (x : VikWaypoint) : VikWaypoint :=
  Build_VikWaypoint _ (wp_coord x) (wp_visible x) (wp_timestamp x) (wp_altitude x)
    (wp_course x) (wp_speed x) (wp_magvar x) (wp_geoidheight x) (wp_hide_name x)
    (wp_name x) (wp_comment x) v (wp_source x) (wp_url x) (wp_url_name x) (wp_type x)
    (wp_fix_mode x) (wp_nsats x) (wp_hdop x) (wp_vdop x) (wp_pdop x) (wp_ageofdgpsdata
    x) (wp_dgpsid x) (wp_image x) (wp_image_direction x) (wp_image_direction_ref x)
    (wp_image_width x) (wp_image_height x) (wp_symbol x) (wp_extensions x).

Definition set_wp_source {C : Collaborators} (v : _) (x : VikWaypoint) : VikWaypoint :=
  Build_VikWaypoint _ (wp_coord x) (wp_visible x) (wp_timestamp x) (wp_altitude x)
    (wp_course x) (wp_speed x) (wp_magvar x) (wp_geoidheight x) (wp_hide_name x)
    (wp_name x) (wp_comment x) (wp_description x) v (wp_url x) (wp_url_name x) (wp_type
    x) (wp_fix_mode x) (wp_nsats x) (wp_hdop x) (wp_vdop x) (wp_pdop x)
    (wp_ageofdgpsdata x) (wp_dgpsid x) (wp_image x) (wp_image_direction x)
    (wp_image_direction_ref x) (wp_image_width x) (wp_image_height x) (wp_symbol x)
    (wp_extensions x).

Definition set_wp_url {C : Collaborators} (v : _) (x : VikWaypoint) : VikWaypoint :=
  Build_VikWaypoint _ (wp_coord x) (wp_visible x) (wp_timestamp x) (wp_altitude x)
    (wp_course x) (wp_speed x) (wp_magvar x) (wp_geoidheight x) (wp_hide_name x)
    (wp_name x) (wp_comment x) (wp_description x) (wp_source x) v (wp_url_name x)
    (wp_type x) (wp_fix_mode x) (wp_nsats x) (wp_hdop x) (wp_vdop x) (wp_pdop x)
    (wp_ageofdgpsdata x) (wp_dgpsid x) (wp_image x) (wp_image_direction x)
    (wp_image_direction_ref x) (wp_image_width x) (wp_image_height x) (wp_symbol x)
    (wp_extensions x).

Definition set_wp_url_name {C : Collaborators} (v : _) (x : VikWaypoint) : VikWaypoint :=
  Build_VikWaypoint _ (wp_coord x) (wp_visible x) (wp_timestamp x) (wp_altitude x)
    (wp_course x) (wp_speed x) (wp_magvar x) (wp_geoidheight x) (wp_hide_name x)
    (wp_name x) (wp_comment x) (wp_description x) (wp_source x) (wp_url x) v (wp_type x)
    (wp_fix_mode x) (wp_nsats x) (wp_hdop x) (wp_vdop x) (wp_pdop x) (wp_ageofdgpsdata
    x) (wp_dgpsid x) (wp_image x) (wp_image_direction x) (wp_image_direction_ref x)
    (wp_image_width x) (wp_image_height x) (wp_symbol x) (wp_extensions x).

Definition set_wp_type {C : Collaborators} (v : _) (x : VikWaypoint) : VikWaypoint :=
  Build_VikWaypoint _ (wp_coord x) (wp_visible x) (wp_timestamp x) (wp_altitude x)
    (wp_course x) (wp_speed x) (wp_magvar x) (wp_geoidheight x) (wp_hide_name x)
    (wp_name x) (wp_comment x) (wp_description x) (wp_source x) (wp_url x) (wp_url_name
    x) v (wp_fix_mode x) (wp_nsats x) (wp_hdop x) (wp_vdop x) (wp_pdop x)
    (wp_ageofdgpsdata x) (wp_dgpsid x) (wp_image x) (wp_image_direction x)
    (wp_image_direction_ref x) (wp_image_width x) (wp_image_height x) (wp_symbol x)
    (wp_extensions x).

Definition set_wp_fix_mode {C : Collaborators} (v : _) (x : VikWaypoint) : VikWaypoint :=
  Build_VikWaypoint _ (wp_coord x) (wp_visible x) (wp_timestamp x) (wp_altitude x)
    (wp_course x) (wp_speed x) (wp_magvar x) (wp_geoidheight x) (wp_hide_name x)
    (wp_name x) (wp_comment x) (wp_description x) (wp_source x) (wp_url x) (wp_url_name
    x) (wp_type x) v (wp_nsats x) (wp_hdop x) (wp_vdop x) (wp_pdop x) (wp_ageofdgpsdata
    x) (wp_dgpsid x) (wp_image x) (wp_image_direction x) (wp_image_direction_ref x)
    (wp_image_width x) (wp_image_height x) (wp_symbol x) (wp_extensions x).

Definition set_wp_nsats {C : Collaborators} (v : _) (x : VikWaypoint) : VikWaypoint :=
  Build_VikWaypoint _ (wp_coord x) (wp_visible x) (wp_timestamp x) (wp_altitude x)
    (wp_course x) (wp_speed x) (wp_magvar x) (wp_geoidheight x) (wp_hide_name x)
    (wp_name x) (wp_comment x) (wp_description x) (wp_source x) (wp_url x) (wp_url_name
    x) (wp_type x) (wp_fix_mode x) v (wp_hdop x) (wp_vdop x) (wp_pdop x)
    (wp_ageofdgpsdata x) (wp_dgpsid x) (wp_image x) (wp_image_direction x)
    (wp_image_direction_ref x) (wp_image_width x) (wp_image_height x) (wp_symbol x)
    (wp_extensions x).

Definition set_wp_hdop {C : Collaborators} (v : _) (x : VikWaypoint) : VikWaypoint :=
  Build_VikWaypoint _ (wp_coord x) (wp_visible x) (wp_timestamp x) (wp_altitude x)
    (wp_course x) (wp_speed x) (wp_magvar x) (wp_geoidheight x) (wp_hide_name x)
    (wp_name x) (wp_comment x) (wp_description x) (wp_source x) (wp_url x) (wp_url_name
    x) (wp_type x) (wp_fix_mode x) (wp_nsats x) v (wp_vdop x) (wp_pdop x)
    (wp_ageofdgpsdata x) (wp_dgpsid x) (wp_image x) (wp_image_direction x)
    (wp_image_direction_ref x) (wp_image_width x) (wp_image_height x) (wp_symbol x)
    (wp_extensions x).

Definition set_wp_vdop {C : Collaborators} (v : _) (x : VikWaypoint) : VikWaypoint :=
  Build_VikWaypoint _ (wp_coord x) (wp_visible x) (wp_timestamp x) (wp_altitude x)
    (wp_course x) (wp_speed x) (wp_magvar x) (wp_geoidheight x) (wp_hide_name x)
    (wp_name x) (wp_comment x) (wp_description x) (wp_source x) (wp_url x) (wp_url_name
    x) (wp_type x) (wp_fix_mode x) (wp_nsats x) (wp_hdop x) v (wp_pdop x)
    (wp_ageofdgpsdata x) (wp_dgpsid x) (wp_image x) (wp_image_direction x)
    (wp_image_direction_ref x) (wp_image_width x) (wp_image_height x) (wp_symbol x)
    (wp_extensions x).

Definition set_wp_pdop {C : Collaborators} (v : _) (x : VikWaypoint) : VikWaypoint :=
  Build_VikWaypoint _ (wp_coord x) (wp_visible x) (wp_timestamp x) (wp_altitude x)
    (wp_course x) (wp_speed x) (wp_magvar x) (wp_geoidheight x) (wp_hide_name x)
    (wp_name x) (wp_comment x) (wp_description x) (wp_source x) (wp_url x) (wp_url_name
    x) (wp_type x) (wp_fix_mode x) (wp_nsats x) (wp_hdop x) (wp_vdop x) v
    (wp_ageofdgpsdata x) (wp_dgpsid x) (wp_image x) (wp_image_direction x)
    (wp_image_direction_ref x) (wp_image_width x) (wp_image_height x) (wp_symbol x)
    (wp_extensions x).

Definition set_wp_ageofdgpsdata {C : Collaborators} (v : _) (x : VikWaypoint) : VikWaypoint :=
  Build_VikWaypoint _ (wp_coord x) (wp_visible x) (wp_timestamp x) (wp_altitude x)
    (wp_course x) (wp_speed x) (wp_magvar x) (wp_geoidheight x) (wp_hide_name x)
    (wp_name x) (wp_comment x) (wp_description x) (wp_source x) (wp_url x) (wp_url_name
    x) (wp_type x) (wp_fix_mode x) (wp_nsats x) (wp_hdop x) (wp_vdop x) (wp_pdop x) v
    (wp_dgpsid x) (wp_image x) (wp_image_direction x) (wp_image_direction_ref x)
    (wp_image_width x) (wp_image_height x) (wp_symbol x) (wp_extensions x).

Definition set_wp_dgpsid {C : Collaborators} (v : _) (x : VikWaypoint) : VikWaypoint :=
  Build_VikWaypoint _ (wp_coord x) (wp_visible x) (wp_timestamp x) (wp_altitude x)
    (wp_course x) (wp_speed x) (wp_magvar x) (wp_geoidheight x) (wp_hide_name x)
    (wp_name x) (wp_comment x) (wp_description x) (wp_source x) (wp_url x) (wp_url_name
    x) (wp_type x) (wp_fix_mode x) (wp_nsats x) (wp_hdop x) (wp_vdop x) (wp_pdop x)
    (wp_ageofdgpsdata x) v (wp_image x) (wp_image_direction x) (wp_image_direction_ref
    x) (wp_image_width x) (wp_image_height x) (wp_symbol x) (wp_extensions x).

Definition set_wp_image {C : Collaborators} (v : _) (x : VikWaypoint) : VikWaypoint :=
  Build_VikWaypoint _ (wp_coord x) (wp_visible x) (wp_timestamp x) (wp_altitude x)
    (wp_course x) (wp_speed x) (wp_magvar x) (wp_geoidheight x) (wp_hide_name x)
    (wp_name x) (wp_comment x) (wp_description x) (wp_source x) (wp_url x) (wp_url_name
    x) (wp_type x) (wp_fix_mode x) (wp_nsats x) (wp_hdop x) (wp_vdop x) (wp_pdop x)
    (wp_ageofdgpsdata x) (wp_dgpsid x) v (wp_image_direction x) (wp_image_direction_ref
    x) (wp_image_width x) (wp_image_height x) (wp_symbol x) (wp_extensions x).

Definition set_wp_image_direction {C : Collaborators} (v : _) (x : VikWaypoint) : VikWaypoint :=
  Build_VikWaypoint _ (wp_coord x) (wp_visible x) (wp_timestamp x) (wp_altitude x)
    (wp_course x) (wp_speed x) (wp_magvar x) (wp_geoidheight x) (wp_hide_name x)
    (wp_name x) (wp_comment x) (wp_description x) (wp_source x) (wp_url x) (wp_url_name
    x) (wp_type x) (wp_fix_mode x) (wp_nsats x) (wp_hdop x) (wp_vdop x) (wp_pdop x)
    (wp_ageofdgpsdata x) (wp_dgpsid x) (wp_image x) v (wp_image_direction_ref x)
    (wp_image_width x) (wp_image_height x) (wp_symbol x) (wp_extensions x).

Definition set_wp_image_direction_ref {C : Collaborators} (v : _) (x : VikWaypoint) : VikWaypoint :=
  Build_VikWaypoint _ (wp_coord x) (wp_visible x) (wp_timestamp x) (wp_altitude x)
    (wp_course x) (wp_speed x) (wp_magvar x) (wp_geoidheight x) (wp_hide_name x)
    (wp_name x) (wp_comment x) (wp_description x) (wp_source x) (wp_url x) (wp_url_name
    x) (wp_type x) (wp_fix_mode x) (wp_nsats x) (wp_hdop x) (wp_vdop x) (wp_pdop x)
    (wp_ageofdgpsdata x) (wp_dgpsid x) (wp_image x) (wp_image_direction x) v
    (wp_image_width x) (wp_image_height x) (wp_symbol x) (wp_extensions x).

Definition set_wp_image_width {C : Collaborators} (v : _) (x : VikWaypoint) : VikWaypoint :=
  Build_VikWaypoint _ (wp_coord x) (wp_visible x) (wp_timestamp x) (wp_altitude x)
    (wp_course x) (wp_speed x) (wp_magvar x) (wp_geoidheight x) (wp_hide_name x)
    (wp_name x) (wp_comment x) (wp_description x) (wp_source x) (wp_url x) (wp_url_name
    x) (wp_type x) (wp_fix_mode x) (wp_nsats x) (wp_hdop x) (wp_vdop x) (wp_pdop x)
    (wp_ageofdgpsdata x) (wp_dgpsid x) (wp_image x) (wp_image_direction x)
    (wp_image_direction_ref x) v (wp_image_height x) (wp_symbol x) (wp_extensions x).

Definition set_wp_image_height {C : Collaborators} (v : _) (x : VikWaypoint) : VikWaypoint :=
  Build_VikWaypoint _ (wp_coord x) (wp_visible x) (wp_timestamp x) (wp_altitude x)
    (wp_course x) (wp_speed x) (wp_magvar x) (wp_geoidheight x) (wp_hide_name x)
    (wp_name x) (wp_comment x) (wp_description x) (wp_source x) (wp_url x) (wp_url_name
    x) (wp_type x) (wp_fix_mode x) (wp_nsats x) (wp_hdop x) (wp_vdop x) (wp_pdop x)
    (wp_ageofdgpsdata x) (wp_dgpsid x) (wp_image x) (wp_image_direction x)
    (wp_image_direction_ref x) (wp_image_width x) v (wp_symbol x) (wp_extensions x).

Definition set_wp_symbol {C : Collaborators} (v : _) (x : VikWaypoint) : VikWaypoint :=
  Build_VikWaypoint _ (wp_coord x) (wp_visible x) (wp_timestamp x) (wp_altitude x)
    (wp_course x) (wp_speed x) (wp_magvar x) (wp_geoidheight x) (wp_hide_name x)
    (wp_name x) (wp_comment x) (wp_description x) (wp_source x) (wp_url x) (wp_url_name
    x) (wp_type x) (wp_fix_mode x) (wp_nsats x) (wp_hdop x) (wp_vdop x) (wp_pdop x)
    (wp_ageofdgpsdata x) (wp_dgpsid x) (wp_image x) (wp_image_direction x)
    (wp_image_direction_ref x) (wp_image_width x) (wp_image_height x) v (wp_extensions
    x).

Definition set_wp_extensions {C : Collaborators} (v : _) (x : VikWaypoint) : VikWaypoint :=
  Build_VikWaypoint _ (wp_coord x) (wp_visible x) (wp_timestamp x) (wp_altitude x)
    (wp_course x) (wp_speed x) (wp_magvar x) (wp_geoidheight x) (wp_hide_name x)
    (wp_name x) (wp_comment x) (wp_description x) (wp_source x) (wp_url x) (wp_url_name
    x) (wp_type x) (wp_fix_mode x) (wp_nsats x) (wp_hdop x) (wp_vdop x) (wp_pdop x)
    (wp_ageofdgpsdata x) (wp_dgpsid x) (wp_image x) (wp_image_direction x)
    (wp_image_direction_ref x) (wp_image_width x) (wp_image_height x) (wp_symbol x) v.

Definition set_tp_coord {C : Collaborators} (v : _) (x : VikTrackpoint) : VikTrackpoint :=
  Build_VikTrackpoint _ v (tp_newsegment x) (tp_timestamp x) (tp_altitude x) (tp_name x)
    (tp_speed x) (tp_course x) (tp_nsats x) (tp_fix_mode x) (tp_hdop x) (tp_vdop x)
    (tp_pdop x).

Definition set_tp_newsegment {C : Collaborators} (v : _) (x : VikTrackpoint) : VikTrackpoint :=
  Build_VikTrackpoint _ (tp_coord x) v (tp_timestamp x) (tp_altitude x) (tp_name x)
    (tp_speed x) (tp_course x) (tp_nsats x) (tp_fix_mode x) (tp_hdop x) (tp_vdop x)
    (tp_pdop x).

Definition set_tp_timestamp {C : Collaborators} (v : _) (x : VikTrackpoint) : VikTrackpoint :=
  Build_VikTrackpoint _ (tp_coord x) (tp_newsegment x) v (tp_altitude x) (tp_name x)
    (tp_speed x) (tp_course x) (tp_nsats x) (tp_fix_mode x) (tp_hdop x) (tp_vdop x)
    (tp_pdop x).

Definition set_tp_altitude {C : Collaborators} (v : _) (x : VikTrackpoint) : VikTrackpoint :=
  Build_VikTrackpoint _ (tp_coord x) (tp_newsegment x) (tp_timestamp x) v (tp_name x)
    (tp_speed x) (tp_course x) (tp_nsats x) (tp_fix_mode x) (tp_hdop x) (tp_vdop x)
    (tp_pdop x).

Definition set_tp_name {C : Collaborators} (v : _) (x : VikTrackpoint) : VikTrackpoint :=
  Build_VikTrackpoint _ (tp_coord x) (tp_newsegment x) (tp_timestamp x) (tp_altitude x)
    v (tp_speed x) (tp_course x) (tp_nsats x) (tp_fix_mode x) (tp_hdop x) (tp_vdop x)
    (tp_pdop x).

Definition set_tp_speed {C : Collaborators} (v : _) (x : VikTrackpoint) : VikTrackpoint :=
  Build_VikTrackpoint _ (tp_coord x) (tp_newsegment x) (tp_timestamp x) (tp_altitude x)
    (tp_name x) v (tp_course x) (tp_nsats x) (tp_fix_mode x) (tp_hdop x) (tp_vdop x)
    (tp_pdop x).

Definition set_tp_course {C : Collaborators} (v : _) (x : VikTrackpoint) : VikTrackpoint :=
  Build_VikTrackpoint _ (tp_coord x) (tp_newsegment x) (tp_timestamp x) (tp_altitude x)
    (tp_name x) (tp_speed x) v (tp_nsats x) (tp_fix_mode x) (tp_hdop x) (tp_vdop x)
    (tp_pdop x).

Definition set_tp_nsats {C : Collaborators} (v : _) (x : VikTrackpoint) : VikTrackpoint :=
  Build_VikTrackpoint _ (tp_coord x) (tp_newsegment x) (tp_timestamp x) (tp_altitude x)
    (tp_name x) (tp_speed x) (tp_course x) v (tp_fix_mode x) (tp_hdop x) (tp_vdop x)
    (tp_pdop x).

Definition set_tp_fix_mode {C : Collaborators} (v : _) (x : VikTrackpoint) : VikTrackpoint :=
  Build_VikTrackpoint _ (tp_coord x) (tp_newsegment x) (tp_timestamp x) (tp_altitude x)
    (tp_name x) (tp_speed x) (tp_course x) (tp_nsats x) v (tp_hdop x) (tp_vdop x)
    (tp_pdop x).

Definition set_tp_hdop {C : Collaborators} (v : _) (x : VikTrackpoint) : VikTrackpoint :=
  Build_VikTrackpoint _ (tp_coord x) (tp_newsegment x) (tp_timestamp x) (tp_altitude x)
    (tp_name x) (tp_speed x) (tp_course x) (tp_nsats x) (tp_fix_mode x) v (tp_vdop x)
    (tp_pdop x).

Definition set_tp_vdop {C : Collaborators} (v : _) (x : VikTrackpoint) : VikTrackpoint :=
  Build_VikTrackpoint _ (tp_coord x) (tp_newsegment x) (tp_timestamp x) (tp_altitude x)
    (tp_name x) (tp_speed x) (tp_course x) (tp_nsats x) (tp_fix_mode x) (tp_hdop x) v
    (tp_pdop x).

Definition set_tp_pdop {C : Collaborators} (v : _) (x : VikTrackpoint) : VikTrackpoint :=
  Build_VikTrackpoint _ (tp_coord x) (tp_newsegment x) (tp_timestamp x) (tp_altitude x)
    (tp_name x) (tp_speed x) (tp_course x) (tp_nsats x) (tp_fix_mode x) (tp_hdop x)
    (tp_vdop x) v.

Definition set_trk_trackpoints {C : Collaborators} (v : _) (x : VikTrack) : VikTrack :=
  Build_VikTrack _ v (trk_visible x) (trk_is_route x) (trk_name x) (trk_comment x)
    (trk_description x) (trk_source x) (trk_number x) (trk_type x) (trk_color x)
    (trk_has_color x) (trk_draw_name_mode x) (trk_max_number_dist_labels x).

Definition set_trk_visible {C : Collaborators} (v : _) (x : VikTrack) : VikTrack :=
  Build_VikTrack _ (trk_trackpoints x) v (trk_is_route x) (trk_name x) (trk_comment x)
    (trk_description x) (trk_source x) (trk_number x) (trk_type x) (trk_color x)
    (trk_has_color x) (trk_draw_name_mode x) (trk_max_number_dist_labels x).

Definition set_trk_is_route {C : Collaborators} (v : _) (x : VikTrack) : VikTrack :=
  Build_VikTrack _ (trk_trackpoints x) (trk_visible x) v (trk_name x) (trk_comment x)
    (trk_description x) (trk_source x) (trk_number x) (trk_type x) (trk_color x)
    (trk_has_color x) (trk_draw_name_mode x) (trk_max_number_dist_labels x).

Definition set_trk_name {C : Collaborators} (v : _) (x : VikTrack) : VikTrack :=
  Build_VikTrack _ (trk_trackpoints x) (trk_visible x) (trk_is_route x) v (trk_comment
    x) (trk_description x) (trk_source x) (trk_number x) (trk_type x) (trk_color x)
    (trk_has_color x) (trk_draw_name_mode x) (trk_max_number_dist_labels x).

Definition set_trk_comment {C : Collaborators} (v : _) (x : VikTrack) : VikTrack :=
  Build_VikTrack _ (trk_trackpoints x) (trk_visible x) (trk_is_route x) (trk_name x) v
    (trk_description x) (trk_source x) (trk_number x) (trk_type x) (trk_color x)
    (trk_has_color x) (trk_draw_name_mode x) (trk_max_number_dist_labels x).

Definition set_trk_description {C : Collaborators} (v : _) (x : VikTrack) : VikTrack :=
  Build_VikTrack _ (trk_trackpoints x) (trk_visible x) (trk_is_route x) (trk_name x)
    (trk_comment x) v (trk_source x) (trk_number x) (trk_type x) (trk_color x)
    (trk_has_color x) (trk_draw_name_mode x) (trk_max_number_dist_labels x).

Definition set_trk_source {C : Collaborators} (v : _) (x : VikTrack) : VikTrack :=
  Build_VikTrack _ (trk_trackpoints x) (trk_visible x) (trk_is_route x) (trk_name x)
    (trk_comment x) (trk_description x) v (trk_number x) (trk_type x) (trk_color x)
    (trk_has_color x) (trk_draw_name_mode x) (trk_max_number_dist_labels x).

Definition set_trk_number {C : Collaborators} (v : _) (x : VikTrack) : VikTrack :=
  Build_VikTrack _ (trk_trackpoints x) (trk_visible x) (trk_is_route x) (trk_name x)
    (trk_comment x) (trk_description x) (trk_source x) v (trk_type x) (trk_color x)
    (trk_has_color x) (trk_draw_name_mode x) (trk_max_number_dist_labels x).

Definition set_trk_type {C : Collaborators} (v : _) (x : VikTrack) : VikTrack :=
  Build_VikTrack _ (trk_trackpoints x) (trk_visible x) (trk_is_route x) (trk_name x)
    (trk_comment x) (trk_description x) (trk_source x) (trk_number x) v (trk_color x)
    (trk_has_color x) (trk_draw_name_mode x) (trk_max_number_dist_labels x).

Definition set_trk_color {C : Collaborators} (v : _) (x : VikTrack) : VikTrack :=
  Build_VikTrack _ (trk_trackpoints x) (trk_visible x) (trk_is_route x) (trk_name x)
    (trk_comment x) (trk_description x) (trk_source x) (trk_number x) (trk_type x) v
    (trk_has_color x) (trk_draw_name_mode x) (trk_max_number_dist_labels x).

Definition set_trk_has_color {C : Collaborators} (v : _) (x : VikTrack) : VikTrack :=
  Build_VikTrack _ (trk_trackpoints x) (trk_visible x) (trk_is_route x) (trk_name x)
    (trk_comment x) (trk_description x) (trk_source x) (trk_number x) (trk_type x)
    (trk_color x) v (trk_draw_name_mode x) (trk_max_number_dist_labels x).

Definition set_trk_draw_name_mode {C : Collaborators} (v : _) (x : VikTrack) : VikTrack :=
  Build_VikTrack _ (trk_trackpoints x) (trk_visible x) (trk_is_route x) (trk_name x)
    (trk_comment x) (trk_description x) (trk_source x) (trk_number x) (trk_type x)
    (trk_color x) (trk_has_color x) v (trk_max_number_dist_labels x).

Definition set_trk_max_number_dist_labels {C : Collaborators} (v : _) (x : VikTrack) : VikTrack :=
  Build_VikTrack _ (trk_trackpoints x) (trk_visible x) (trk_is_route x) (trk_name x)
    (trk_comment x) (trk_description x) (trk_source x) (trk_number x) (trk_type x)
    (trk_color x) (trk_has_color x) (trk_draw_name_mode x) v.

(** ** The state of the reader *)

Definition GPSPOINT_TYPE_NONE : Z := 0.
Definition GPSPOINT_TYPE_WAYPOINT : Z := 1.
Definition GPSPOINT_TYPE_TRACKPOINT : Z := 2.
Definition GPSPOINT_TYPE_ROUTEPOINT : Z := 3.
Definition GPSPOINT_TYPE_TRACK : Z := 4.
Definition GPSPOINT_TYPE_TRACK_END : Z := 5.
Definition GPSPOINT_TYPE_ROUTE : Z := 6.
Definition GPSPOINT_TYPE_ROUTE_END : Z := 7.

Definition WP_IMAGE_DIRECTION_REF_TRUE : Z := 0.

(** The file-scope variables of [gpspoint.c] that hold the fields of the
    line being read, grouped by their C type: [gint], [guint] and the
    enumeration; [gdouble] (with the two members of [line_latlon]);
    [gchar *]; [gboolean]. *)
Inductive ivar : Set :=
| line_type | line_number | line_name_label | line_dist_label
| line_image_direction_ref | line_sat | line_fix | line_dgpsid.

Inductive dvar : Set :=
| line_latlon_lat | line_latlon_lon | line_image_direction | line_timestamp
| line_altitude | line_speed | line_course | line_magvar | line_geoidheight
| line_hdop | line_vdop | line_pdop | line_ageofdgpsdata.

Inductive svar : Set :=
| line_name | line_comment | line_description | line_source | line_xtype
| line_color | line_image | line_symbol | line_url | line_url_name.

Inductive bvar : Set := line_newsegment | line_visible | line_extended.

Scheme Equality for ivar.
Scheme Equality for dvar.
Scheme Equality for svar.
Scheme Equality for bvar.

Record LineState {C : Collaborators} : Type := {
  ints : ivar -> Z;
  dbls : dvar -> gdouble;
  strs : svar -> gstr;
  flags : bvar -> bool
}.

Section LineVariables.
Context {C : Collaborators}.

Definition set_i (v : ivar) (x : Z) (st : LineState) : LineState :=
  {| ints := fun v' => if ivar_beq v v' then x else ints st v';
     dbls := dbls st; strs := strs st; flags := flags st |}.

Definition set_d (v : dvar) (x : gdouble) (st : LineState) : LineState :=
  {| ints := ints st;
     dbls := fun v' => if dvar_beq v v' then x else dbls st v';
     strs := strs st; flags := flags st |}.

Definition set_s (v : svar) (x : gstr) (st : LineState) : LineState :=
  {| ints := ints st; dbls := dbls st;
     strs := fun v' => if svar_beq v v' then x else strs st v';
     flags := flags st |}.

Definition set_b (v : bvar) (x : bool) (st : LineState) : LineState :=
  {| ints := ints st; dbls := dbls st; strs := strs st;
     flags := fun v' => if bvar_beq v v' then x else flags st v' |}.

(** The variables as the static initialisers leave them; [line_latlon] has
    none and starts as zeros. *)
Definition static_line : LineState :=
  {| ints := fun _ => 0;
     dbls := fun v => match v with
                      | line_latlon_lat | line_latlon_lon => dbl_zero
                      | _ => NAN
                      end;
     strs := fun _ => None;
     flags := fun v => match v with line_visible => true | _ => false end |}.

(** Two states that agree on every variable. *)
Definition line_eq (a b : LineState) : Prop :=
  (forall v, ints a v = ints b v) /\ (forall v, dbls a v = dbls b v)
  /\ (forall v, strs a v = strs b v) /\ (forall v, flags a v = flags b v).

(** ** Field dispatcher *)

(** [key_len == n && strncasecmp (key, name, key_len) == 0] *)
Definition key_is (key : cstr) (key_len n : Z) (name : string) : bool :=
  (key_len =? n) && strncasecmp_eq key (lit name) (Z.to_nat key_len).

Definition not_null (value : gstr) : bool :=
  match value with Some _ => true | None => false end.

(** The value pointer once known not to be [NULL]. *)
Definition deref (value : gstr) : cstr :=
  match value with Some v => v | None => [] end.

Definition starts_yes (value : cstr) : bool :=
  let c := hd NUL value in
  Ascii.eqb c "y"%char || Ascii.eqb c "Y"%char
  || Ascii.eqb c "t"%char || Ascii.eqb c "T"%char.

(** A string variable that keeps its first value:
    [if (line_x == NULL) line_x = deslashndup (value, value_len)]. *)
Definition store_first (v : svar) (value : cstr) (value_len : Z)
           (st : LineState) : option LineState :=
  match strs st v with
  | None =>
      match deslashndup value value_len with
      | Some r => Some (set_s v r st)
      | None => None
      end
  | Some _ => Some st
  end.

(** [line_x = deslashndup (value, value_len)] *)
Definition store_last (v : svar) (value : cstr) (value_len : Z)
           (st : LineState) : option LineState :=
  match deslashndup value value_len with
  | Some r => Some (set_s v r st)
  | None => None
  end.

Definition parse_type (value : gstr) (value_len : Z) : Z :=
  match value with
  | None => GPSPOINT_TYPE_NONE
  | Some v =>
      if key_is v value_len 5 "track" then GPSPOINT_TYPE_TRACK
      else if key_is v value_len 8 "trackend" then GPSPOINT_TYPE_TRACK_END
      else if key_is v value_len 10 "trackpoint" then GPSPOINT_TYPE_TRACKPOINT
      else if key_is v value_len 8 "waypoint" then GPSPOINT_TYPE_WAYPOINT
      else if key_is v value_len 5 "route" then GPSPOINT_TYPE_ROUTE
      else if key_is v value_len 8 "routeend" then GPSPOINT_TYPE_ROUTE_END
      else if key_is v value_len 10 "routepoint" then GPSPOINT_TYPE_ROUTEPOINT
      else GPSPOINT_TYPE_NONE
  end.

(** [gpspoint_process_key_and_value (key, key_len, value, value_len)].
    [None]: a call of [deslashndup] has no defined result. *)
Definition gpspoint_process_key_and_value (key : cstr) (key_len : Z)
           (value : gstr) (value_len : Z) (st : LineState) : option LineState :=
  let k := key_is key key_len in
  let nn := not_null value in
  let v := deref value in
  if k 8 "latitude" && nn then Some (set_d line_latlon_lat (g_ascii_strtod v) st)
  else if k 9 "longitude" && nn then Some (set_d line_latlon_lon (g_ascii_strtod v) st)
  else if k 8 "unixtime" && nn then Some (set_d line_timestamp (g_ascii_strtod v) st)
  else if k 8 "altitude" && nn then Some (set_d line_altitude (g_ascii_strtod v) st)
  else if k 4 "type" then Some (set_i line_type (parse_type value value_len) st)
  else if k 4 "name" && nn then store_first line_name v value_len st
  else if k 7 "comment" && nn then store_first line_comment v value_len st
  else if k 11 "description" && nn then store_first line_description v value_len st
  else if k 6 "source" && nn then store_first line_source v value_len st
  else if k 6 "number" && nn then Some (set_i line_number (u32 (atoi v)) st)
  else if k 5 "xtype" && nn then store_first line_xtype v value_len st
  else if k 5 "color" && nn then store_first line_color v value_len st
  else if k 14 "draw_name_mode" && nn then Some (set_i line_name_label (atoi v) st)
  else if k 18 "number_dist_labels" && nn then Some (set_i line_dist_label (atoi v) st)
  else if k 5 "image" && nn then store_first line_image v value_len st
  else if k 15 "image_direction" && nn
  then Some (set_d line_image_direction (g_ascii_strtod v) st)
  else if k 19 "image_direction_ref" && nn
  then Some (set_i line_image_direction_ref (atoi v) st)
  else if k 7 "visible" && nn && negb (starts_yes v) then Some (set_b line_visible false st)
  else if k 6 "symbol" && nn then Some (set_s line_symbol (Some (g_strndup v value_len)) st)
  else if k 10 "newsegment" && nn then Some (set_b line_newsegment true st)
  else if k 8 "extended" && nn then Some (set_b line_extended true st)
  else if k 5 "speed" && nn then Some (set_d line_speed (g_ascii_strtod v) st)
  else if k 6 "course" && nn then Some (set_d line_course (g_ascii_strtod v) st)
  else if k 3 "sat" && nn then Some (set_i line_sat (u32 (atoi v)) st)
  else if k 3 "fix" && nn then Some (set_i line_fix (u32 (atoi v)) st)
  else if k 4 "hdop" && nn then Some (set_d line_hdop (g_ascii_strtod v) st)
  else if k 4 "vdop" && nn then Some (set_d line_vdop (g_ascii_strtod v) st)
  else if k 4 "pdop" && nn then Some (set_d line_pdop (g_ascii_strtod v) st)
  else if k 6 "magvar" && nn then Some (set_d line_magvar (g_ascii_strtod v) st)
  else if k 11 "geoidheight" && nn then Some (set_d line_geoidheight (g_ascii_strtod v) st)
  else if k 3 "url" && nn then store_last line_url v value_len st
  else if k 8 "url_name" && nn then store_last line_url_name v value_len st
  else if k 13 "ageofdgpsdata" && nn
  then Some (set_d line_ageofdgpsdata (g_ascii_strtod v) st)
  else if k 6 "dgpsid" && nn then Some (set_i line_dgpsid (u32 (atoi v)) st)
  else Some st.

(** ** Splitting a tag into key and value *)

(** [while (++key_end - tag < len) if ( *key_end == '=') break;], entered
    with [key_end - tag = 1].  The loop body runs fewer than [len] times. *)
Fixpoint find_key_end (fuel : nat) (tag : cstr) (len key_end : Z) : Z :=
  match fuel with
  | O => key_end
  | S fuel' =>
      if key_end <? len then
        if Ascii.eqb (str_at tag key_end) EQS then key_end
        else find_key_end fuel' tag len (key_end + 1)
      else key_end
  end.

(** [tag + n] *)
Definition ptr_add (tag : cstr) (n : Z) : cstr := skipn (Z.to_nat n) tag.

(** [gpspoint_process_tag (tag, len)]; the pointers are offsets from [tag]
    and the comparisons are made in [long] (LP64). *)
Definition gpspoint_process_tag (tag : cstr) (len : Z) (st : LineState)
  : option LineState :=
  let key_end := find_key_end (Z.to_nat len) tag len 1 in
  if key_end =? len then Some st
  else if key_end =? u32 (len + 1) then Some st
  else
    let value_start := key_end + 1 in
    if Ascii.eqb (str_at tag value_start) DQ then
      let value_start := value_start + 1 in
      if Ascii.eqb (str_at tag value_start) DQ then
        (* value_start = value_end = 0 *)
        gpspoint_process_key_and_value tag (u32 key_end) None (u32 0) st
      else if Ascii.eqb (str_at tag (len - 1)) DQ then
        let value_end := len - 1 in
        if value_end - value_start <? 0 then Some st
        else gpspoint_process_key_and_value tag (u32 key_end)
               (Some (ptr_add tag value_start)) (u32 (value_end - value_start)) st
      else Some st
    else
      let value_end := len in
      if value_end - value_start <? 0 then Some st
      else gpspoint_process_key_and_value tag (u32 key_end)
             (Some (ptr_add tag value_start)) (u32 (value_end - value_start)) st.

(** ** Line tokenizer *)

(** [while ( *tag_start != '\0' && isspace ( *tag_start)) tag_start++;] *)
Fixpoint skip_blanks (tag_start : cstr) : cstr :=
  match tag_start with
  | c :: p => if negb (Ascii.eqb c NUL) && isspace c then skip_blanks p else tag_start
  | [] => []
  end.

(** The loop that finds the end of a tag: [p] is [tag_end], [len] the
    distance covered from [tag_start].  Each step advances [tag_end] and
    then looks at the character it has reached. *)
Fixpoint tag_scan (p : cstr) (inside_quote backslash : bool) (len : Z)
  : cstr * Z * bool * bool :=
  match p with
  | [] => (p, len, inside_quote, backslash)
  | c :: p' =>
      if negb (Ascii.eqb c NUL) && (negb (isspace c) || inside_quote) then
        let c' := hd NUL p' in
        if Ascii.eqb c' BSL && negb backslash then tag_scan p' inside_quote true (len + 1)
        else if backslash then tag_scan p' inside_quote false (len + 1)
        else if Ascii.eqb c' DQ then tag_scan p' (negb inside_quote) backslash (len + 1)
        else tag_scan p' inside_quote backslash (len + 1)
      else (p, len, inside_quote, backslash)
  end.

(** The [for (;;)] loop over the tags of one line.  [None]: the fuel ran
    out, or a tag had no defined result. *)
Fixpoint process_tags (fuel : nat) (tag_start : cstr) (inside_quote backslash : bool)
         (st : LineState) : option LineState :=
  match fuel with
  | O => None
  | S fuel' =>
      let tag_start := skip_blanks tag_start in
      let c := hd NUL tag_start in
      if Ascii.eqb c NUL then Some st
      else if Ascii.eqb c HASH then Some st
      else
        let inside_quote := if Ascii.eqb c DQ then negb inside_quote else inside_quote in
        let '(tag_end, len, inside_quote, backslash) :=
          tag_scan tag_start inside_quote backslash 0 in
        match gpspoint_process_tag tag_start (u32 len) st with
        | None => None
        | Some st' =>
            if Ascii.eqb (hd NUL tag_end) NUL then Some st'
            else process_tags fuel' (tl tag_end) inside_quote backslash st'
        end
  end.

(** The tags of a whole line: every turn of the loop consumes a character. *)
Definition process_line_tags (line_buffer : cstr) (st : LineState) : option LineState :=
  process_tags (S (length line_buffer)) line_buffer false false st.

End LineVariables.

(** ** The layer and its collections *)

(** The three collections of a [VikTrwLayer], each in insertion order, and
    the coordinate mode of the layer. *)
Record VikTrwLayer {C : Collaborators} : Type := {
  waypoints : list VikWaypoint;
  tracks : list VikTrack;
  routes : list VikTrack;
  coord_mode : VikCoordMode
}.

(** The address of a track held by the layer: the collection ([true] for
    the routes) and the position in it. *)
Definition track_ref : Set := (bool * nat)%type.

(** The state of [a_gpspoint_read_file] between two lines. *)
Record Reader {C : Collaborators} : Type := {
  line : LineState;
  current_track : option track_ref;
  layer : VikTrwLayer;
  have_read_something : bool
}.

Section Assembler.
Context {C : Collaborators} {E : EntityOps}.

(** Modelled from the spec: [vik_trw_layer_filein_add_waypoint] is not part
    of [gpspoint.c]; it inserts the waypoint into the waypoint collection
    keyed by the name, after the waypoints already there. *)
Definition vik_trw_layer_filein_add_waypoint (trw : VikTrwLayer) (name : cstr)
           (wp : VikWaypoint) : VikTrwLayer :=
  {| waypoints := waypoints trw ++ [set_wp_name (Some name) wp];
     tracks := tracks trw; routes := routes trw; coord_mode := coord_mode trw |}.

(** Modelled from the spec: [vik_trw_layer_filein_add_track] is not part of
    [gpspoint.c]; it inserts the track into the collection of the routes or
    of the tracks, keyed by the name, after the entities already there. *)
Definition vik_trw_layer_filein_add_track (trw : VikTrwLayer) (name : cstr)
           (trk : VikTrack) : VikTrwLayer :=
  if trk_is_route trk
  then {| waypoints := waypoints trw; tracks := tracks trw;
          routes := routes trw ++ [set_trk_name (Some name) trk];
          coord_mode := coord_mode trw |}
  else {| waypoints := waypoints trw;
          tracks := tracks trw ++ [set_trk_name (Some name) trk];
          routes := routes trw; coord_mode := coord_mode trw |}.

(** Modelled from the spec: [vu_sorted_list_from_hash_table] with
    [VL_SO_NONE] is not part of [gpspoint.c]; it lists a collection in the
    order in which its entities were inserted. *)
Definition vu_sorted_list_from_hash_table {A : Type} (table : list A) : list A := table.

(** [l] with [f] applied to its element at position [i]. *)
Fixpoint update_at {A : Type} (i : nat) (f : A -> A) (l : list A) : list A :=
  match l, i with
  | [], _ => []
  | x :: l', O => f x :: l'
  | x :: l', S i' => x :: update_at i' f l'
  end.

(** The waypoint at position [i] of the layer, modified in place. *)
Definition modify_waypoint (i : nat) (f : VikWaypoint -> VikWaypoint)
           (trw : VikTrwLayer) : VikTrwLayer :=
  {| waypoints := update_at i f (waypoints trw);
     tracks := tracks trw; routes := routes trw; coord_mode := coord_mode trw |}.

Definition get_track (trw : VikTrwLayer) (p : track_ref) : option VikTrack :=
  if fst p then nth_error (routes trw) (snd p) else nth_error (tracks trw) (snd p).

(** The track at address [p], modified in place. *)
Definition modify_track (p : track_ref) (f : VikTrack -> VikTrack)
           (trw : VikTrwLayer) : VikTrwLayer :=
  if fst p
  then {| waypoints := waypoints trw; tracks := tracks trw;
          routes := update_at (snd p) f (routes trw); coord_mode := coord_mode trw |}
  else {| waypoints := waypoints trw; tracks := update_at (snd p) f (tracks trw);
          routes := routes trw; coord_mode := coord_mode trw |}.

Definition with_line (ls : LineState) (r : Reader) : Reader :=
  {| line := ls; current_track := current_track r; layer := layer r;
     have_read_something := have_read_something r |}.

Definition with_layer (trw : VikTrwLayer) (r : Reader) : Reader :=
  {| line := line r; current_track := current_track r; layer := trw;
     have_read_something := have_read_something r |}.

Definition with_current_track (p : option track_ref) (r : Reader) : Reader :=
  {| line := line r; current_track := p; layer := layer r;
     have_read_something := have_read_something r |}.

Definition with_have_read_something (b : bool) (r : Reader) : Reader :=
  {| line := line r; current_track := current_track r; layer := layer r;
     have_read_something := b |}.

(** [trackpoints_end ()] *)
Definition trackpoints_end (r : Reader) : Reader :=
  match current_track r with
  | Some p =>
      match get_track (layer r) p with
      | Some trk =>
          match trk_trackpoints trk with
          | [] => r
          | pts =>
              with_current_track None
                (with_layer (modify_track p (set_trk_trackpoints (rev pts)) (layer r)) r)
          end
      | None => r
      end
  | None => r
  end.

(** [if (s) set (x, s)] *)
Definition when_set {A : Type} (s : gstr) (set : A -> cstr -> A) (x : A) : A :=
  match s with Some v => set x v | None => x end.

(** The waypoint built from the line, before it is added to the layer. *)
Definition waypoint_of_line (mode : VikCoordMode) (ls : LineState) : VikWaypoint :=
  set_wp_coord
    (vik_coord_load_from_latlon mode
       {| lat := dbls ls line_latlon_lat; lon := dbls ls line_latlon_lon |})
  (set_wp_dgpsid (ints ls line_dgpsid)
  (set_wp_ageofdgpsdata (dbls ls line_ageofdgpsdata)
  (set_wp_pdop (dbls ls line_pdop)
  (set_wp_vdop (dbls ls line_vdop)
  (set_wp_hdop (dbls ls line_hdop)
  (set_wp_fix_mode (ints ls line_fix)
  (set_wp_nsats (ints ls line_sat)
  (set_wp_geoidheight (dbls ls line_geoidheight)
  (set_wp_magvar (dbls ls line_magvar)
  (set_wp_course (dbls ls line_course)
  (set_wp_speed (dbls ls line_speed)
  (set_wp_timestamp (dbls ls line_timestamp)
  (set_wp_altitude (dbls ls line_altitude)
  (set_wp_visible (flags ls line_visible) vik_waypoint_new)))))))))))))).

(** The setters applied to the waypoint once it is in the layer, in the
    order of the source. *)
Definition waypoint_setters (dirpath : gstr) (ls : LineState) (wp : VikWaypoint)
  : VikWaypoint :=
  let wp := when_set (strs ls line_comment) vik_waypoint_set_comment wp in
  let wp := when_set (strs ls line_description) vik_waypoint_set_description wp in
  let wp := when_set (strs ls line_source) vik_waypoint_set_source wp in
  let wp := when_set (strs ls line_url) vik_waypoint_set_url wp in
  let wp := when_set (strs ls line_url_name) vik_waypoint_set_url_name wp in
  let wp := when_set (strs ls line_xtype) vik_waypoint_set_type wp in
  let wp :=
    match strs ls line_image with
    | Some image =>
        match util_make_absolute_filename image dirpath with
        | Some fn => vik_waypoint_set_image wp fn
        | None => vik_waypoint_set_image wp image
        end
    | None => wp
    end in
  let wp :=
    if negb (isnan (dbls ls line_image_direction))
    then set_wp_image_direction_ref (ints ls line_image_direction_ref)
           (set_wp_image_direction (dbls ls line_image_direction) wp)
    else wp in
  when_set (strs ls line_symbol) vik_waypoint_set_symbol wp.

(** The track built from the line, before it is added to the layer. *)
Definition track_of_line (ls : LineState) : VikTrack :=
  let pl := vik_track_new in
  let pl := set_trk_visible (flags ls line_visible) pl in
  let pl := set_trk_is_route (ints ls line_type =? GPSPOINT_TYPE_ROUTE) pl in
  let pl := when_set (strs ls line_comment) vik_track_set_comment pl in
  let pl := when_set (strs ls line_description) vik_track_set_description pl in
  let pl := when_set (strs ls line_source) vik_track_set_source pl in
  let pl := if ints ls line_number =? 0 then pl
            else set_trk_number (ints ls line_number) pl in
  let pl := when_set (strs ls line_xtype) vik_track_set_type pl in
  let pl :=
    match strs ls line_color with
    | Some color =>
        match gdk_color_parse color with
        | Some c => set_trk_has_color true (set_trk_color c pl)
        | None => pl
        end
    | None => pl
    end in
  let pl := set_trk_draw_name_mode (ints ls line_name_label) pl in
  let pl := set_trk_max_number_dist_labels (ints ls line_dist_label) pl in
  set_trk_trackpoints [] pl.

(** The trackpoint built from the line. *)
Definition trackpoint_of_line (mode : VikCoordMode) (ls : LineState) : VikTrackpoint :=
  let tp := vik_trackpoint_new in
  let tp :=
    set_tp_coord
      (vik_coord_load_from_latlon mode
         {| lat := dbls ls line_latlon_lat; lon := dbls ls line_latlon_lon |}) tp in
  let tp := set_tp_newsegment (flags ls line_newsegment) tp in
  let tp := set_tp_timestamp (dbls ls line_timestamp) tp in
  let tp := set_tp_altitude (dbls ls line_altitude) tp in
  let tp := vik_trackpoint_set_name tp (strs ls line_name) in
  if flags ls line_extended then
    set_tp_pdop (dbls ls line_pdop)
    (set_tp_vdop (dbls ls line_vdop)
    (set_tp_hdop (dbls ls line_hdop)
    (set_tp_fix_mode (ints ls line_fix)
    (set_tp_nsats (ints ls line_sat)
    (set_tp_course (dbls ls line_course)
    (set_tp_speed (dbls ls line_speed) tp))))))
  else tp.

Definition is_end_type (t : Z) : bool :=
  (t =? GPSPOINT_TYPE_TRACK_END) || (t =? GPSPOINT_TYPE_ROUTE_END).

(** The part of the loop body of [a_gpspoint_read_file] that follows the
    tags of a line and precedes the reset of the line variables. *)
Definition assemble (dirpath : gstr) (r : Reader) : Reader :=
  let r := if is_end_type (ints (line r) line_type) then trackpoints_end r else r in
  let ls := line r in
  let t := ints ls line_type in
  if (t =? GPSPOINT_TYPE_WAYPOINT) && not_null (strs ls line_name) then
    let r := trackpoints_end r in
    let r := with_have_read_something true r in
    let wp := waypoint_of_line (coord_mode (layer r)) ls in
    let here := length (waypoints (layer r)) in
    let trw := vik_trw_layer_filein_add_waypoint (layer r) (deref (strs ls line_name)) wp in
    let r := with_line (set_s line_name None ls) r in
    with_layer (modify_waypoint here (waypoint_setters dirpath ls) trw) r
  else if ((t =? GPSPOINT_TYPE_TRACK) || (t =? GPSPOINT_TYPE_ROUTE))
          && not_null (strs ls line_name) then
    let r := trackpoints_end r in
    let r := with_have_read_something true r in
    let name := match strs ls line_name with Some n => n | None => lit "UNK" end in
    let pl := track_of_line ls in
    let here := if trk_is_route pl then length (routes (layer r))
                else length (tracks (layer r)) in
    let trw := vik_trw_layer_filein_add_track (layer r) name pl in
    let r := with_line (set_s line_name None ls) r in
    with_current_track (Some (trk_is_route pl, here)) (with_layer trw r)
  else if ((t =? GPSPOINT_TYPE_TRACKPOINT) || (t =? GPSPOINT_TYPE_ROUTEPOINT))
          && match current_track r with Some _ => true | None => false end then
    let r := with_have_read_something true r in
    let tp := trackpoint_of_line (coord_mode (layer r)) ls in
    match current_track r with
    | Some p =>
        with_layer
          (modify_track p (fun trk => set_trk_trackpoints (tp :: trk_trackpoints trk) trk)
             (layer r)) r
    | None => r
    end
  else r.

(** The assignments that close the loop body: every line variable except
    [line_latlon] receives its initial value. *)
Definition reset_line (ls : LineState) : LineState :=
  set_i line_number 0
  (set_i line_dist_label 0
  (set_i line_name_label 0
  (set_i line_dgpsid 0
  (set_d line_ageofdgpsdata NAN
  (set_d line_pdop NAN
  (set_d line_vdop NAN
  (set_d line_hdop NAN
  (set_i line_fix 0
  (set_i line_sat 0
  (set_d line_course NAN
  (set_d line_speed NAN
  (set_b line_extended false
  (set_d line_geoidheight NAN
  (set_d line_magvar NAN
  (set_s line_url_name None
  (set_s line_url None
  (set_b line_visible true
  (set_d line_altitude NAN
  (set_d line_timestamp NAN
  (set_b line_newsegment false
  (set_i line_type GPSPOINT_TYPE_NONE
  (set_s line_symbol None
  (set_i line_image_direction_ref WP_IMAGE_DIRECTION_REF_TRUE
  (set_d line_image_direction NAN
  (set_s line_image None
  (set_s line_color None
  (set_s line_xtype None
  (set_s line_source None
  (set_s line_description None
  (set_s line_comment None
  (set_s line_name None ls))))))))))))))))))))))))))))))).

(** One line of the file, from the buffer that [fgets] filled and that lost
    its last character, to the reset of the line variables. *)
Definition process_line (dirpath : gstr) (line_buffer : cstr) (r : Reader)
  : option Reader :=
  match process_line_tags line_buffer (line r) with
  | Some ls =>
      let r := assemble dirpath (with_line ls r) in
      Some (with_line (reset_line (line r)) r)
  | None => None
  end.

Definition is_end_layer_data (line_buffer : cstr) : bool :=
  (13 <=? strlen line_buffer) && strncmp_eq line_buffer (lit "~EndLayerData") 13.

(** The [while (fgets (...))] loop.  [None]: the fuel ran out, a line had
    no defined result, or [fgets] delivered a buffer that starts with a
    NUL, so that the character before the buffer is overwritten. *)
Fixpoint read_lines (fuel : nat) (dirpath : gstr) (f : list ascii) (r : Reader)
  : option Reader :=
  match fuel with
  | O => None
  | S fuel' =>
      match fgets f with
      | None => Some r
      | Some (buf, f') =>
          match c_str buf with
          | [] => None
          | s =>
              let line_buffer := removelast s in
              if is_end_layer_data line_buffer
              then Some (with_have_read_something true r)
              else
                match process_line dirpath line_buffer r with
                | Some r' => read_lines fuel' dirpath f' r'
                | None => None
                end
          end
      end
  end.

(** [a_gpspoint_read_file (trw, f, dirpath)], entered with the line
    variables as the previous call left them ([globals]).  The result is the
    final state; its [have_read_something] is the value returned. *)
Definition a_gpspoint_read_file (globals : LineState) (trw : VikTrwLayer)
           (f : list ascii) (dirpath : gstr) : option Reader :=
  let ls :=
    set_s line_symbol None
    (set_s line_image None
    (set_b line_newsegment false
    (set_d line_timestamp NAN
    (set_i line_type GPSPOINT_TYPE_NONE globals)))) in
  let r := {| line := ls; current_track := None; layer := trw;
              have_read_something := false |} in
  match read_lines (S (length f)) dirpath f r with
  | Some r' => Some (trackpoints_end r')
  | None => None
  end.

End Assembler.

(** ** Writer

    The text sent to the file is kept as the list of the pieces written by
    the successive calls of [fprintf]; the file holds their concatenation. *)

Section Writer.
Context {C : Collaborators}.

(** [fprintf (ff, " %s=\"%s\"", tag, value)] *)
Definition field (tag : string) (value : cstr) : cstr :=
  SP :: lit tag ++ EQS :: DQ :: value ++ [DQ].

Definition write_double (tag : string) (value : gdouble) : list cstr :=
  if negb (isnan value) then [field tag (a_coords_dtostr_buffer value)] else [].

(** [value] is a [guint] printed with the conversion ["%d"]. *)
Definition write_positive_uint (tag : string) (value : Z) : list cstr :=
  if negb (value =? 0) then [field tag (fmt_d (s32 value))] else [].

Definition write_string (tag : string) (value : gstr) : list cstr :=
  match value with
  | Some v => if negb (strlen v =? 0) then [field tag (slashdup v)] else []
  | None => []
  end.

Definition a_gpspoint_write_waypoint (wp : VikWaypoint) (dirpath : gstr) : list cstr :=
  match wp_name wp with
  | None => []
  | Some name =>
      let ll := vik_coord_to_latlon (wp_coord wp) in
      let s_lat := a_coords_dtostr_buffer (lat ll) in
      let s_lon := a_coords_dtostr_buffer (lon ll) in
      [lit "type=" ++ DQ :: lit "waypoint" ++ DQ
         :: lit " latitude=" ++ DQ :: s_lat ++ DQ
         :: lit " longitude=" ++ DQ :: s_lon ++ DQ
         :: lit " name=" ++ DQ :: slashdup name ++ [DQ]]
      ++ write_double "altitude" (wp_altitude wp)
      ++ write_double "unixtime" (wp_timestamp wp)
      ++ write_double "speed" (wp_speed wp)
      ++ write_double "course" (wp_course wp)
      ++ write_double "magvar" (wp_magvar wp)
      ++ write_double "geoidheight" (wp_geoidheight wp)
      ++ write_string "comment" (wp_comment wp)
      ++ write_string "description" (wp_description wp)
      ++ write_string "source" (wp_source wp)
      ++ write_string "url" (wp_url wp)
      ++ write_string "url_name" (wp_url_name wp)
      ++ write_string "xtype" (wp_type wp)
      ++ write_positive_uint "fix" (wp_fix_mode wp)
      ++ write_positive_uint "sat" (wp_nsats wp)
      ++ write_double "hdop" (wp_hdop wp)
      ++ write_double "vdop" (wp_vdop wp)
      ++ write_double "pdop" (wp_pdop wp)
      ++ write_double "ageofdgpsdata" (wp_ageofdgpsdata wp)
      ++ write_positive_uint "dgpsid" (wp_dgpsid wp)
      ++ match wp_image wp with
         | Some image =>
             let tmp_image :=
               if file_ref_format_relative then
                 match dirpath with
                 | Some d => file_GetRelativeFilename d image
                 | None => None
                 end
               else None in
             let tmp_image :=
               match tmp_image with Some t => t | None => slashdup image end in
             [field "image" tmp_image]
         | None => []
         end
      ++ (if negb (isnan (wp_image_direction wp))
          then [field "image_direction" (util_formatd_2f (wp_image_direction wp));
                field "image_direction_ref" (fmt_d (wp_image_direction_ref wp))]
          else [])
      ++ match wp_symbol wp with
         | Some symbol => [field "symbol" (g_utf8_strdown symbol)]
         | None => []
         end
      ++ (if negb (wp_visible wp) then [field "visible" (lit "n")] else [])
      ++ [[LF]]
  end.

(** The test that opens the block of the extended fields of a trackpoint. *)
Definition has_extended (tp : VikTrackpoint) : bool :=
  negb (isnan (tp_speed tp)) || negb (isnan (tp_course tp)) || (0 <? tp_nsats tp).

Definition a_gpspoint_write_trackpoint (tp : VikTrackpoint) (is_route : bool)
  : list cstr :=
  let ll := vik_coord_to_latlon (tp_coord tp) in
  let s_lat := a_coords_dtostr_buffer (lat ll) in
  let s_lon := a_coords_dtostr_buffer (lon ll) in
  [lit "type=" ++ DQ :: lit (if is_route then "route" else "track") ++ lit "point" ++ DQ
     :: lit " latitude=" ++ DQ :: s_lat ++ DQ
     :: lit " longitude=" ++ DQ :: s_lon ++ [DQ]]
  ++ write_string "name" (tp_name tp)
  ++ write_double "altitude" (tp_altitude tp)
  ++ write_double "unixtime" (tp_timestamp tp)
  ++ (if tp_newsegment tp then [field "newsegment" (lit "yes")] else [])
  ++ (if has_extended tp then
        [field "extended" (lit "yes")]
        ++ write_double "speed" (tp_speed tp)
        ++ write_double "course" (tp_course tp)
        ++ write_positive_uint "sat" (tp_nsats tp)
        ++ write_positive_uint "fix" (tp_fix_mode tp)
        ++ write_double "hdop" (tp_hdop tp)
        ++ write_double "vdop" (tp_vdop tp)
        ++ write_double "pdop" (tp_pdop tp)
      else [])
  ++ [[LF]].

(** [fprintf (f, " color=#%.2x%.2x%.2x", ...)] on the high bytes of the
    three [guint16] components. *)
Definition color_field (c : GdkColor) : cstr :=
  lit " color=#" ++ fmt_02x (u16 (red c) / 256) ++ fmt_02x (u16 (green c) / 256)
    ++ fmt_02x (u16 (blue c) / 256).

Definition a_gpspoint_write_track (trk : VikTrack) : list cstr :=
  match trk_name trk with
  | None => []
  | Some name =>
      let kind := lit (if trk_is_route trk then "route" else "track") in
      [lit "type=" ++ DQ :: kind ++ DQ :: lit " name=" ++ DQ :: slashdup name ++ [DQ]]
      ++ write_string "comment" (trk_comment trk)
      ++ write_string "description" (trk_description trk)
      ++ write_string "source" (trk_source trk)
      ++ write_positive_uint "number" (trk_number trk)
      ++ write_string "xtype" (trk_type trk)
      ++ (if trk_has_color trk then [color_field (trk_color trk)] else [])
      ++ write_positive_uint "draw_name_mode" (trk_draw_name_mode trk)
      ++ write_positive_uint "number_dist_labels" (trk_max_number_dist_labels trk)
      ++ (if negb (trk_visible trk) then [field "visible" (lit "n")] else [])
      ++ [[LF]]
      ++ flat_map (fun tp => a_gpspoint_write_trackpoint tp (trk_is_route trk))
           (trk_trackpoints trk)
      ++ [lit "type=" ++ DQ :: kind ++ lit "end" ++ [DQ; LF]]
  end.

Definition a_gpspoint_write_file (trw : VikTrwLayer) (dirpath : gstr) : list cstr :=
  [lit "type=" ++ DQ :: lit "waypointlist" ++ [DQ; LF]]
  ++ flat_map (fun wp => a_gpspoint_write_waypoint wp dirpath)
       (vu_sorted_list_from_hash_table (waypoints trw))
  ++ [lit "type=" ++ DQ :: lit "waypointlistend" ++ [DQ; LF]]
  ++ flat_map a_gpspoint_write_track (vu_sorted_list_from_hash_table (tracks trw))
  ++ flat_map a_gpspoint_write_track (vu_sorted_list_from_hash_table (routes trw)).

(** The bytes of the file. *)
Definition file_text (pieces : list cstr) : list ascii := concat pieces.

End Writer.

(** ** A reference set of collaborators

    The properties below hold for every set of collaborators.  This one is
    used to run the reader and the writer on concrete files: its doubles
    are the integers together with NaN, written in decimal; its coordinates
    are latitude and longitude themselves; its setters store the string they
    receive, or [NULL] for an empty string. *)

Module Plain.

Definition strtod (s : cstr) : option Z :=
  let s := skip_space s in
  match s with
  | c :: s' =>
      if Ascii.eqb c "-"%char then Some (- digits_val s' 0)
      else if Ascii.eqb c "+"%char then Some (digits_val s' 0)
      else Some (digits_val s 0)
  | [] => Some 0
  end.

Definition dtostr (d : option Z) : cstr :=
  match d with Some z => fmt_d z | None => lit "nan" end.

Definition hex_val (c : ascii) : option Z :=
  let n := Z.of_nat (nat_of_ascii (tolower c)) in
  if (48 <=? n) && (n <=? 57) then Some (n - 48)
  else if (97 <=? n) && (n <=? 102) then Some (n - 87)
  else None.

Definition hex_byte (a b : ascii) : option Z :=
  match hex_val a, hex_val b with
  | Some x, Some y => Some ((16 * x + y) * 257)
  | _, _ => None
  end.

Definition color_parse (s : cstr) : option GdkColor :=
  match s with
  | [h; r1; r2; g1; g2; b1; b2] =>
      if Ascii.eqb h HASH then
        match hex_byte r1 r2, hex_byte g1 g2, hex_byte b1 b2 with
        | Some r, Some g, Some b => Some {| red := r; green := g; blue := b |}
        | _, _, _ => None
        end
      else None
  | _ => None
  end.

Definition make_absolute (filename : cstr) (dirpath : gstr) : gstr :=
  match dirpath with
  | Some d =>
      if Ascii.eqb (hd NUL filename) "/"%char then None
      else Some (d ++ "/"%char :: filename)
  | None => None
  end.

#[export] Instance collaborators : Collaborators := {|
  gdouble := option Z;
  NAN := None;
  dbl_zero := Some 0;
  isnan := fun d => match d with None => true | Some _ => false end;
  g_ascii_strtod := strtod;
  a_coords_dtostr_buffer := dtostr;
  util_formatd_2f := fun d => match d with
                              | Some z => fmt_d z ++ lit ".00"
                              | None => lit "nan"
                              end;
  VikCoord := LatLon (option Z);
  VikCoordMode := unit;
  vik_coord_load_from_latlon := fun _ ll => ll;
  vik_coord_to_latlon := fun c => c;
  gdk_color_parse := color_parse;
  util_make_absolute_filename := make_absolute;
  file_ref_format_relative := false;
  file_GetRelativeFilename := fun _ image => Some image;
  g_utf8_strdown := map tolower
|}.

(** [NULL] for an empty string, a copy otherwise. *)
Definition keep (s : cstr) : gstr := match s with [] => None | _ => Some s end.

Definition waypoint_new : VikWaypoint := {|
  wp_coord := {| lat := Some 0; lon := Some 0 |};
  wp_visible := true;
  wp_timestamp := None; wp_altitude := None; wp_course := None; wp_speed := None;
  wp_magvar := None; wp_geoidheight := None;
  wp_hide_name := false;
  wp_name := None; wp_comment := None; wp_description := None; wp_source := None;
  wp_url := None; wp_url_name := None; wp_type := None;
  wp_fix_mode := 0; wp_nsats := 0;
  wp_hdop := None; wp_vdop := None; wp_pdop := None; wp_ageofdgpsdata := None;
  wp_dgpsid := 0;
  wp_image := None; wp_image_direction := None;
  wp_image_direction_ref := WP_IMAGE_DIRECTION_REF_TRUE;
  wp_image_width := 0; wp_image_height := 0;
  wp_symbol := None; wp_extensions := None
|}.

Definition track_new : VikTrack := {|
  trk_trackpoints := [];
  trk_visible := false; trk_is_route := false;
  trk_name := None; trk_comment := None; trk_description := None; trk_source := None;
  trk_number := 0; trk_type := None;
  trk_color := {| red := 0; green := 0; blue := 0 |}; trk_has_color := false;
  trk_draw_name_mode := 0; trk_max_number_dist_labels := 0
|}.

Definition trackpoint_new : VikTrackpoint := {|
  tp_coord := {| lat := Some 0; lon := Some 0 |};
  tp_newsegment := false;
  tp_timestamp := None; tp_altitude := None; tp_name := None;
  tp_speed := None; tp_course := None; tp_nsats := 0; tp_fix_mode := 0;
  tp_hdop := None; tp_vdop := None; tp_pdop := None
|}.

#[export] Instance entities : EntityOps := {|
  vik_waypoint_new := waypoint_new;
  vik_waypoint_set_comment := fun wp s => set_wp_comment (keep s) wp;
  vik_waypoint_set_description := fun wp s => set_wp_description (keep s) wp;
  vik_waypoint_set_source := fun wp s => set_wp_source (keep s) wp;
  vik_waypoint_set_url := fun wp s => set_wp_url (keep s) wp;
  vik_waypoint_set_url_name := fun wp s => set_wp_url_name (keep s) wp;
  vik_waypoint_set_type := fun wp s => set_wp_type (keep s) wp;
  vik_waypoint_set_image := fun wp s => set_wp_image (keep s) wp;
  vik_waypoint_set_symbol := fun wp s => set_wp_symbol (keep s) wp;
  vik_track_new := track_new;
  vik_track_set_comment := fun trk s => set_trk_comment (keep s) trk;
  vik_track_set_description := fun trk s => set_trk_description (keep s) trk;
  vik_track_set_source := fun trk s => set_trk_source (keep s) trk;
  vik_track_set_type := fun trk s => set_trk_type (keep s) trk;
  vik_trackpoint_new := trackpoint_new;
  vik_trackpoint_set_name := fun tp s => set_tp_name s tp
|}.

(** A waypoint named A whose altitude is an explicit zero. *)
Definition waypoint_at_sea_level : VikWaypoint :=
  set_wp_altitude (Some 0) (set_wp_name (Some (lit "A")) waypoint_new).

(** A trackpoint whose only optional field is a dilution of precision. *)
Definition trackpoint_with_hdop : VikTrackpoint := set_tp_hdop (Some 1) trackpoint_new.

Definition empty_layer : VikTrwLayer :=
  {| waypoints := []; tracks := []; routes := []; coord_mode := tt |}.

(** The reader at the start of a first call of [a_gpspoint_read_file]. *)
Definition start : Reader :=
  {| line := static_line; current_track := None; layer := empty_layer;
     have_read_something := false |}.

(** [a_gpspoint_read_file] on a fresh layer, in a process that has read
    no file yet. *)
Definition read (f : list ascii) : option Reader :=
  a_gpspoint_read_file static_line empty_layer f None.

End Plain.

(** ** Notions used to state the properties *)

(** A string with every line feed and carriage return replaced by a blank. *)
Definition blank_eol (s : cstr) : cstr := map (fun c => if is_eol c then SP else c) s.

Section TagNotions.
Context {C : Collaborators}.

(** What [gpspoint_process_tag] hands to the dispatcher: the length of the
    key, the value pointer and the length of the value; [None] when the tag
    is dropped before the dispatcher is called. *)
Definition tag_split (tag : cstr) (len : Z) : option (Z * gstr * Z) :=
  let key_end := find_key_end (Z.to_nat len) tag len 1 in
  if key_end =? len then None
  else if key_end =? u32 (len + 1) then None
  else
    let value_start := key_end + 1 in
    if Ascii.eqb (str_at tag value_start) DQ then
      let value_start := value_start + 1 in
      if Ascii.eqb (str_at tag value_start) DQ then Some (u32 key_end, None, u32 0)
      else if Ascii.eqb (str_at tag (len - 1)) DQ then
        if len - 1 - value_start <? 0 then None
        else Some (u32 key_end, Some (ptr_add tag value_start), u32 (len - 1 - value_start))
      else None
    else
      if len - value_start <? 0 then None
      else Some (u32 key_end, Some (ptr_add tag value_start), u32 (len - value_start)).

(** The tags of a line, as the tokenizer delimits them: each is the pointer
    to its first character and its length. *)
Fixpoint line_tags (fuel : nat) (tag_start : cstr) (inside_quote backslash : bool)
  : list (cstr * Z) :=
  match fuel with
  | O => []
  | S fuel' =>
      let tag_start := skip_blanks tag_start in
      let c := hd NUL tag_start in
      if Ascii.eqb c NUL then []
      else if Ascii.eqb c HASH then []
      else
        let inside_quote := if Ascii.eqb c DQ then negb inside_quote else inside_quote in
        let '(tag_end, len, inside_quote, backslash) :=
          tag_scan tag_start inside_quote backslash 0 in
        (tag_start, u32 len)
          :: (if Ascii.eqb (hd NUL tag_end) NUL then []
              else line_tags fuel' (tl tag_end) inside_quote backslash)
  end.

Definition tags_of_line (line_buffer : cstr) : list (cstr * Z) :=
  line_tags (S (length line_buffer)) line_buffer false false.

(** The tags of a list handed to [gpspoint_process_tag] one after the other. *)
Fixpoint dispatch_tags (tags : list (cstr * Z)) (st : LineState) : option LineState :=
  match tags with
  | [] => Some st
  | (tag, len) :: tags' =>
      match gpspoint_process_tag tag len st with
      | Some st' => dispatch_tags tags' st'
      | None => None
      end
  end.

(** A tag that reaches the dispatcher with the key [name] and a value
    pointer that is not [NULL]. *)
Definition carries (n : Z) (name : string) (t : cstr * Z) : bool :=
  match tag_split (fst t) (snd t) with
  | Some (key_len, Some _, _) => key_is (fst t) key_len n name
  | _ => false
  end.

End TagNotions.

(** A key of a tag: a non-empty string with no equal sign after its first
    character (the search for the equal sign starts at the second). *)
Definition is_key (key : cstr) : bool :=
  match key with
  | [] => false
  | _ :: k => negb (existsb (Ascii.eqb EQS) k)
  end.

(** A word of the vocabulary with the length the source gives for it. *)
Definition word_ok (n : Z) (name : string) : bool :=
  (n =? len_of (lit name)) && forallb (fun c => negb (Ascii.eqb c NUL)) (lit name).

(** The word in lower case, as the comparison sees it. *)
Definition lower (name : string) : cstr := map tolower (lit name).

(** ** Example files *)

Module Files.

(** The tag [key="value"]. *)
Definition quoted (key value : string) : cstr := lit key ++ EQS :: DQ :: lit value ++ [DQ].

(** The tags of a line separated by blanks, and the line feed. *)
Fixpoint text_line (tags : list cstr) : cstr :=
  match tags with
  | [] => [LF]
  | [t] => t ++ [LF]
  | t :: tags' => t ++ SP :: text_line tags'
  end.

(** A waypoint whose last tag is [visible=], cut after the equal sign. *)
Definition truncated_visible : list ascii :=
  text_line [quoted "type" "waypoint"; quoted "latitude" "48"; quoted "longitude" "2";
             quoted "name" "A"; lit "visible="].

(** A trackpoint line with [newsegment="no"] and [extended="0"]. *)
Definition flags_line : cstr :=
  removelast
    (text_line [quoted "type" "trackpoint"; quoted "latitude" "1"; quoted "longitude" "2";
                quoted "newsegment" "no"; quoted "extended" "0"]).

(** Two occurrences of [name], the first with an empty value. *)
Definition empty_then_name : cstr := quoted "name" "" ++ SP :: quoted "name" "B".

(** Two occurrences of [url], the last with an empty value. *)
Definition url_then_empty : cstr := quoted "url" "a" ++ SP :: quoted "url" "".

(** A waypoint with a position, then a waypoint without. *)
Definition stale_position : list ascii :=
  text_line [quoted "type" "waypoint"; quoted "latitude" "48"; quoted "longitude" "2";
             quoted "name" "A"]
  ++ text_line [quoted "type" "waypoint"; quoted "name" "B"].

(** A track closed before it received a point, then a trackpoint. *)
Definition point_after_end : list ascii :=
  text_line [quoted "type" "track"; quoted "name" "T"]
  ++ text_line [quoted "type" "trackend"]
  ++ text_line [quoted "type" "trackpoint"; quoted "latitude" "1"; quoted "longitude" "2"].

(** A track with one point, closed, then a second trackpoint. *)
Definition point_after_full_end : list ascii :=
  text_line [quoted "type" "track"; quoted "name" "T"]
  ++ text_line [quoted "type" "trackpoint"; quoted "latitude" "5"; quoted "longitude" "6"]
  ++ text_line [quoted "type" "trackend"]
  ++ text_line [quoted "type" "trackpoint"; quoted "latitude" "1"; quoted "longitude" "2"].

(** A waypoint without a name and a trackpoint outside any track, followed
    by a waypoint. *)
Definition dropped_records : list ascii :=
  text_line [quoted "type" "waypoint"; quoted "latitude" "1"; quoted "longitude" "2"]
  ++ text_line [quoted "type" "trackpoint"; quoted "latitude" "3"; quoted "longitude" "4"]
  ++ text_line [quoted "type" "waypoint"; quoted "latitude" "5"; quoted "longitude" "6";
                quoted "name" "W"].

(** A route closed before it received a point, and the same followed by a
    routepoint. *)
Definition route_ended : list ascii :=
  text_line [quoted "type" "route"; quoted "name" "R"]
  ++ text_line [quoted "type" "routeend"].

Definition routepoint_after_end : list ascii :=
  route_ended
  ++ text_line [quoted "type" "routepoint"; quoted "latitude" "1"; quoted "longitude" "2"].

End Files.

(** ** The vocabulary of the dispatcher, by the way a repeated key is treated *)

(** String keys that keep their first value. *)
Definition first_wins : list (Z * string * svar) :=
  [(4, "name", line_name); (7, "comment", line_comment);
   (11, "description", line_description); (6, "source", line_source);
   (5, "xtype", line_xtype); (5, "color", line_color); (5, "image", line_image)].

(** String keys that are unescaped and overwritten at every occurrence. *)
Definition last_wins : list (Z * string * svar) :=
  [(3, "url", line_url); (8, "url_name", line_url_name)].

(** Keys read with [g_ascii_strtod]. *)
Definition double_keys : list (Z * string * dvar) :=
  [(8, "latitude", line_latlon_lat); (9, "longitude", line_latlon_lon);
   (8, "unixtime", line_timestamp); (8, "altitude", line_altitude);
   (15, "image_direction", line_image_direction); (5, "speed", line_speed);
   (6, "course", line_course); (4, "hdop", line_hdop); (4, "vdop", line_vdop);
   (4, "pdop", line_pdop); (6, "magvar", line_magvar);
   (11, "geoidheight", line_geoidheight); (13, "ageofdgpsdata", line_ageofdgpsdata)].

(** Keys read with [atoi]; the flag tells the variables of type [guint]. *)
Definition int_keys : list (Z * string * ivar * bool) :=
  [(6, "number", line_number, true); (14, "draw_name_mode", line_name_label, false);
   (18, "number_dist_labels", line_dist_label, false);
   (19, "image_direction_ref", line_image_direction_ref, false);
   (3, "sat", line_sat, true); (3, "fix", line_fix, true);
   (6, "dgpsid", line_dgpsid, true)].

(** The keys whose value goes to a line variable: those of the four tables
    and [symbol]. *)
Definition stored_keys : list (Z * string) :=
  map fst first_wins ++ map fst last_wins ++ [(6, "symbol")]
  ++ map fst double_keys ++ map (fun k => fst (fst k)) int_keys.

Section AssemblerNotions.
Context {C : Collaborators}.

(** The record types that need a name, and those of the points. *)
Definition named_type (t : Z) : bool :=
  (t =? GPSPOINT_TYPE_WAYPOINT) || (t =? GPSPOINT_TYPE_TRACK) || (t =? GPSPOINT_TYPE_ROUTE).

Definition point_type (t : Z) : bool :=
  (t =? GPSPOINT_TYPE_TRACKPOINT) || (t =? GPSPOINT_TYPE_ROUTEPOINT).

(** A record without its name, or a point while [current_track] is [NULL]. *)
Definition dropped (ls : LineState) (r : Reader) : Prop :=
  (named_type (ints ls line_type) = true /\ strs ls line_name = None)
  \/ (point_type (ints ls line_type) = true /\ current_track r = None).

End AssemblerNotions.

(** ** Fields of a written line *)

Fixpoint starts_with (prefix s : cstr) : bool :=
  match prefix with
  | [] => true
  | c :: prefix' =>
      match s with
      | [] => false
      | d :: s' => Ascii.eqb c d && starts_with prefix' s'
      end
  end.

(** One of the pieces written is the field [tag]: it starts with a blank,
    the tag and the equal sign. *)
Definition emits (tag : string) (pieces : list cstr) : bool :=
  existsb (starts_with (SP :: lit tag ++ [EQS])) pieces.

(** A string that is neither [NULL] nor empty. *)
Definition present (s : gstr) : bool :=
  match s with Some v => negb (strlen v =? 0) | None => false end.

Section WrittenFields.
Context {C : Collaborators}.

(** The optional fields of a waypoint, each with the condition under which
    it is not at its absence sentinel. *)
Definition waypoint_fields (wp : VikWaypoint) : list (string * bool) :=
  [("altitude", negb (isnan (wp_altitude wp)));
   ("unixtime", negb (isnan (wp_timestamp wp)));
   ("speed", negb (isnan (wp_speed wp)));
   ("course", negb (isnan (wp_course wp)));
   ("magvar", negb (isnan (wp_magvar wp)));
   ("geoidheight", negb (isnan (wp_geoidheight wp)));
   ("comment", present (wp_comment wp));
   ("description", present (wp_description wp));
   ("source", present (wp_source wp));
   ("url", present (wp_url wp));
   ("url_name", present (wp_url_name wp));
   ("xtype", present (wp_type wp));
   ("fix", negb (wp_fix_mode wp =? 0));
   ("sat", negb (wp_nsats wp =? 0));
   ("hdop", negb (isnan (wp_hdop wp)));
   ("vdop", negb (isnan (wp_vdop wp)));
   ("pdop", negb (isnan (wp_pdop wp)));
   ("ageofdgpsdata", negb (isnan (wp_ageofdgpsdata wp)));
   ("dgpsid", negb (wp_dgpsid wp =? 0));
   ("image_direction", negb (isnan (wp_image_direction wp)));
   ("image_direction_ref", negb (isnan (wp_image_direction wp)));
   ("visible", negb (wp_visible wp))].

(** The optional fields of a trackpoint that are written whenever they are
    not at their sentinel. *)
Definition trackpoint_fields (tp : VikTrackpoint) : list (string * bool) :=
  [("name", present (tp_name tp));
   ("altitude", negb (isnan (tp_altitude tp)));
   ("unixtime", negb (isnan (tp_timestamp tp)));
   ("newsegment", tp_newsegment tp);
   ("speed", negb (isnan (tp_speed tp)));
   ("course", negb (isnan (tp_course tp)))].

(** The fields of a trackpoint that are written only inside the extended
    block, that is when the speed, the course or the number of satellites
    is present. *)
Definition trackpoint_extended_fields (tp : VikTrackpoint) : list (string * bool) :=
  [("extended", true);
   ("sat", negb (tp_nsats tp =? 0));
   ("fix", negb (tp_fix_mode tp =? 0));
   ("hdop", negb (isnan (tp_hdop tp)));
   ("vdop", negb (isnan (tp_vdop tp)));
   ("pdop", negb (isnan (tp_pdop tp)))].

End WrittenFields.

(** ** Well-formed tags *)

(** A character of a key or of a value without quotes. *)
Definition plain (c : ascii) : bool :=
  negb (Ascii.eqb c NUL || isspace c || Ascii.eqb c DQ || Ascii.eqb c BSL).

(** A character that may stand between quotes as it is. *)
Definition quotable (c : ascii) : bool :=
  negb (Ascii.eqb c NUL || Ascii.eqb c LF || Ascii.eqb c DQ || Ascii.eqb c BSL).

(** The flags [inside_quote] and [backslash] of the tokenizer once it has
    looked at the character [c]. *)
Definition scan_flags (c : ascii) (f : bool * bool) : bool * bool :=
  let '(inside_quote, backslash) := f in
  if Ascii.eqb c BSL && negb backslash then (inside_quote, true)
  else if backslash then (inside_quote, false)
  else if Ascii.eqb c DQ then (negb inside_quote, backslash)
  else (inside_quote, backslash).

(** The test that keeps the tokenizer inside a tag. *)
Definition scan_on (c : ascii) (f : bool * bool) : bool :=
  negb (Ascii.eqb c NUL) && (negb (isspace c) || fst f).

(** The scan of a tag seen from the character that comes next: look at it,
    then test whether the tag goes on. *)
Fixpoint next_scan (p : cstr) (f : bool * bool) (len : Z) : cstr * Z * bool * bool :=
  match p with
  | [] => ([], len, fst (scan_flags NUL f), snd (scan_flags NUL f))
  | c :: p' =>
      let f' := scan_flags c f in
      if scan_on c f' then next_scan p' f' (len + 1)
      else (p, len, fst f', snd f')
  end.

(** The text between the quotes of a value: no terminator, no line feed,
    every quote and backslash preceded by a backslash. *)
Fixpoint quoted_body (body : cstr) (backslash : bool) : bool :=
  match body with
  | [] => negb backslash
  | c :: b =>
      if Ascii.eqb c NUL || Ascii.eqb c LF then false
      else if Ascii.eqb c BSL && negb backslash then quoted_body b true
      else if backslash then quoted_body b false
      else if Ascii.eqb c DQ then false
      else quoted_body b false
  end.

(** What may follow a tag: the end of the line or a blank. *)
Definition tag_stop (rest : cstr) : bool :=
  match rest with
  | [] => true
  | c :: _ => negb (Ascii.eqb c NUL) && isspace c
  end.

(** A key as the writer emits them. *)
Definition key_ok (key : cstr) : bool :=
  is_key key && forallb plain key
  && negb (Ascii.eqb (hd NUL key) HASH) && negb (Ascii.eqb (hd NUL key) EQS).

(** No terminator inside the string. *)
Definition no_nul (s : cstr) : bool := forallb (fun c => negb (Ascii.eqb c NUL)) s.

(** A string of a field: not empty, no terminator inside, no end of line. *)
Definition text_ok (s : cstr) : bool :=
  no_nul s && forallb (fun c => negb (is_eol c)) s
  && match s with [] => false | _ => true end.

(** The text of a number: not empty, made of characters that may stand
    between quotes. *)
Definition quote_safe (t : cstr) : bool :=
  forallb quotable t && match t with [] => false | _ => true end.

(** The tags of a written line: [key="body"], or [key=value] without
    quotes. *)
Inductive tag_text : Set :=
| Quoted (key : string) (body : cstr)
| Bare (key : string) (value : cstr).

Definition tag_chars (t : tag_text) : cstr :=
  match t with
  | Quoted key body => lit key ++ EQS :: DQ :: body ++ [DQ]
  | Bare key value => lit key ++ EQS :: value
  end.

(** The tags of a line, one blank between two of them. *)
Fixpoint join (ts : list tag_text) : cstr :=
  match ts with
  | [] => []
  | t :: ts' =>
      match ts' with
      | [] => tag_chars t
      | _ => tag_chars t ++ SP :: join ts'
      end
  end.

(** What follows a tag in the line. *)
Definition after_tag (ts' : list tag_text) : cstr :=
  match ts' with [] => [] | _ => SP :: join ts' end.

Definition tag_ok (t : tag_text) : bool :=
  match t with
  | Quoted key body =>
      key_ok (lit key) && quoted_body body false
      && match body with [] => false | _ => true end
  | Bare key value =>
      key_ok (lit key) && forallb plain value
      && match value with [] => false | _ => true end
  end.

Section JoinedTags.
Context {C : Collaborators}.

(** The call of the dispatcher for a tag followed by [rest]. *)
Definition dispatch_tag (t : tag_text) (rest : cstr) (st : LineState)
  : option LineState :=
  match t with
  | Quoted key body =>
      gpspoint_process_key_and_value (tag_chars t ++ rest) (len_of (lit key))
        (Some (body ++ DQ :: rest)) (len_of body) st
  | Bare key value =>
      gpspoint_process_key_and_value (tag_chars t ++ rest) (len_of (lit key))
        (Some (value ++ rest)) (len_of value) st
  end.

Fixpoint dispatch_joined (ts : list tag_text) (st : LineState) : option LineState :=
  match ts with
  | [] => Some st
  | t :: ts' =>
      match dispatch_tag t (after_tag ts') st with
      | Some st' => dispatch_joined ts' st'
      | None => None
      end
  end.

End JoinedTags.

(** ** Entities that go through the file unchanged *)

(** No line of the text, line feed included, is longer than [n] bytes;
    [cur] bytes of the current line have been seen. *)
Fixpoint fits (n : nat) (text : list ascii) (cur : nat) : bool :=
  match text with
  | [] => true
  | c :: t => if Ascii.eqb c LF then Nat.leb (S cur) n && fits n t O else fits n t (S cur)
  end.

Section RoundTripNotions.
Context {C : Collaborators} {E : EntityOps}.

(** Every line variable except [line_latlon] has its initial value. *)
Definition fresh (ls : LineState) : Prop :=
  (forall v, ints ls v = 0) /\ (forall v, strs ls v = None)
  /\ (forall v, flags ls v = match v with line_visible => true | _ => false end)
  /\ (forall v, dbls ls v = match v with
                            | line_latlon_lat | line_latlon_lon => dbls ls v
                            | _ => NAN
                            end).

(** No track is open, or the open track has no point yet. *)
Definition idle (r : Reader) : Prop :=
  match current_track r with
  | None => True
  | Some p =>
      exists trk, get_track (layer r) p = Some trk /\ trk_trackpoints trk = []
  end.

Definition empty_layer_of (mode : VikCoordMode) : VikTrwLayer :=
  {| waypoints := []; tracks := []; routes := []; coord_mode := mode |}.

(** The number [d] is written by [fmt] as a text that may stand between
    quotes and that [g_ascii_strtod] reads back as [d], whatever follows
    the closing quote. *)
Definition reads_back (fmt : gdouble -> cstr) (d : gdouble) : Prop :=
  quote_safe (fmt d) = true
  /\ forall rest, g_ascii_strtod (fmt d ++ DQ :: rest) = d.

Definition double_ok (d : gdouble) : Prop :=
  isnan d = false /\ reads_back a_coords_dtostr_buffer d.

Definition count_ok (v : Z) : Prop := 0 < v < 4294967296.

Definition coord_ok (mode : VikCoordMode) (c : VikCoord) : Prop :=
  reads_back a_coords_dtostr_buffer (lat (vik_coord_to_latlon c))
  /\ reads_back a_coords_dtostr_buffer (lon (vik_coord_to_latlon c))
  /\ vik_coord_load_from_latlon mode (vik_coord_to_latlon c) = c.

(** The field holds a string, and the setter stores that string as it is. *)
Definition stored {A : Type} (set : A -> cstr -> A) (upd : gstr -> A -> A) (s : gstr)
  : Prop :=
  exists v, s = Some v /\ text_ok v = true /\ forall x, set x v = upd (Some v) x.

(** The image is written as it is, and the reader stores it back. *)
Definition image_ok (dirpath : gstr) (image : gstr) : Prop :=
  exists v, image = Some v /\ text_ok v = true
    /\ (if file_ref_format_relative
        then match dirpath with Some d => file_GetRelativeFilename d v | None => None end
        else None) = None
    /\ forall x,
         match util_make_absolute_filename v dirpath with
         | Some fn => vik_waypoint_set_image x fn
         | None => vik_waypoint_set_image x v
         end = set_wp_image (Some v) x.

(** The symbol is in lower case already, can stand between quotes, and is
    stored as it is. *)
Definition symbol_ok (symbol : gstr) : Prop :=
  exists v, symbol = Some v /\ quote_safe v = true /\ g_utf8_strdown v = v
    /\ forall x, vik_waypoint_set_symbol x v = set_wp_symbol (Some v) x.

(** A waypoint with every field present and fit for the file; the fields
    that the file does not carry are those of a new waypoint. *)
Definition waypoint_ok (mode : VikCoordMode) (dirpath : gstr) (wp : VikWaypoint) : Prop :=
  (exists name, wp_name wp = Some name /\ text_ok name = true)
  /\ coord_ok mode (wp_coord wp)
  /\ double_ok (wp_altitude wp) /\ double_ok (wp_timestamp wp)
  /\ double_ok (wp_speed wp) /\ double_ok (wp_course wp)
  /\ double_ok (wp_magvar wp) /\ double_ok (wp_geoidheight wp)
  /\ stored vik_waypoint_set_comment set_wp_comment (wp_comment wp)
  /\ stored vik_waypoint_set_description set_wp_description (wp_description wp)
  /\ stored vik_waypoint_set_source set_wp_source (wp_source wp)
  /\ stored vik_waypoint_set_url set_wp_url (wp_url wp)
  /\ stored vik_waypoint_set_url_name set_wp_url_name (wp_url_name wp)
  /\ stored vik_waypoint_set_type set_wp_type (wp_type wp)
  /\ count_ok (wp_fix_mode wp) /\ count_ok (wp_nsats wp)
  /\ double_ok (wp_hdop wp) /\ double_ok (wp_vdop wp) /\ double_ok (wp_pdop wp)
  /\ double_ok (wp_ageofdgpsdata wp)
  /\ count_ok (wp_dgpsid wp)
  /\ image_ok dirpath (wp_image wp)
  /\ isnan (wp_image_direction wp) = false
  /\ reads_back util_formatd_2f (wp_image_direction wp)
  /\ -2147483648 <= wp_image_direction_ref wp < 2147483648
  /\ symbol_ok (wp_symbol wp)
  /\ wp_hide_name wp = wp_hide_name vik_waypoint_new
  /\ wp_image_width wp = wp_image_width vik_waypoint_new
  /\ wp_image_height wp = wp_image_height vik_waypoint_new
  /\ wp_extensions wp = wp_extensions vik_waypoint_new.

(** A trackpoint with every field present and fit for the file. *)
Definition trackpoint_ok (mode : VikCoordMode) (tp : VikTrackpoint) : Prop :=
  coord_ok mode (tp_coord tp)
  /\ (exists v, tp_name tp = Some v /\ text_ok v = true
        /\ forall x, vik_trackpoint_set_name x (Some v) = set_tp_name (Some v) x)
  /\ double_ok (tp_altitude tp) /\ double_ok (tp_timestamp tp)
  /\ double_ok (tp_speed tp) /\ double_ok (tp_course tp)
  /\ count_ok (tp_nsats tp) /\ count_ok (tp_fix_mode tp)
  /\ double_ok (tp_hdop tp) /\ double_ok (tp_vdop tp) /\ double_ok (tp_pdop tp).

(** The text of a colour after the key: the number sign and six digits. *)
Definition color_text (c : GdkColor) : cstr :=
  HASH :: fmt_02x (u16 (red c) / 256) ++ fmt_02x (u16 (green c) / 256)
    ++ fmt_02x (u16 (blue c) / 256).

(** The colour comes back from its text; a track without a colour has the
    colour of a new track. *)
Definition color_ok (trk : VikTrack) : Prop :=
  if trk_has_color trk
  then gdk_color_parse (color_text (trk_color trk)) = Some (trk_color trk)
  else trk_color trk = trk_color vik_track_new /\ trk_has_color vik_track_new = false.

(** A track or a route with every field present and fit for the file. *)
Definition track_ok (mode : VikCoordMode) (is_route : bool) (trk : VikTrack) : Prop :=
  trk_is_route trk = is_route
  /\ (exists name, trk_name trk = Some name /\ text_ok name = true)
  /\ stored vik_track_set_comment set_trk_comment (trk_comment trk)
  /\ stored vik_track_set_description set_trk_description (trk_description trk)
  /\ stored vik_track_set_source set_trk_source (trk_source trk)
  /\ count_ok (trk_number trk)
  /\ stored vik_track_set_type set_trk_type (trk_type trk)
  /\ color_ok trk
  /\ 0 < trk_draw_name_mode trk < 2147483648
  /\ 0 < trk_max_number_dist_labels trk < 2147483648
  /\ Forall (trackpoint_ok mode) (trk_trackpoints trk).

(** The tags of the lines that the writer emits for such entities. *)
Definition text_of (s : gstr) : cstr := slashdup (deref s).

Definition number (d : gdouble) : cstr := a_coords_dtostr_buffer d.

Definition count (v : Z) : cstr := fmt_d (s32 v).

Definition waypoint_tags (wp : VikWaypoint) : list tag_text :=
  [Quoted "type" (lit "waypoint");
   Quoted "latitude" (number (lat (vik_coord_to_latlon (wp_coord wp))));
   Quoted "longitude" (number (lon (vik_coord_to_latlon (wp_coord wp))));
   Quoted "name" (text_of (wp_name wp));
   Quoted "altitude" (number (wp_altitude wp));
   Quoted "unixtime" (number (wp_timestamp wp));
   Quoted "speed" (number (wp_speed wp));
   Quoted "course" (number (wp_course wp));
   Quoted "magvar" (number (wp_magvar wp));
   Quoted "geoidheight" (number (wp_geoidheight wp));
   Quoted "comment" (text_of (wp_comment wp));
   Quoted "description" (text_of (wp_description wp));
   Quoted "source" (text_of (wp_source wp));
   Quoted "url" (text_of (wp_url wp));
   Quoted "url_name" (text_of (wp_url_name wp));
   Quoted "xtype" (text_of (wp_type wp));
   Quoted "fix" (count (wp_fix_mode wp));
   Quoted "sat" (count (wp_nsats wp));
   Quoted "hdop" (number (wp_hdop wp));
   Quoted "vdop" (number (wp_vdop wp));
   Quoted "pdop" (number (wp_pdop wp));
   Quoted "ageofdgpsdata" (number (wp_ageofdgpsdata wp));
   Quoted "dgpsid" (count (wp_dgpsid wp));
   Quoted "image" (text_of (wp_image wp));
   Quoted "image_direction" (util_formatd_2f (wp_image_direction wp));
   Quoted "image_direction_ref" (fmt_d (wp_image_direction_ref wp));
   Quoted "symbol" (deref (wp_symbol wp))]
  ++ (if wp_visible wp then [] else [Quoted "visible" (lit "n")]).

Definition trackpoint_tags (is_route : bool) (tp : VikTrackpoint) : list tag_text :=
  [Quoted "type" (lit (if is_route then "routepoint" else "trackpoint"));
   Quoted "latitude" (number (lat (vik_coord_to_latlon (tp_coord tp))));
   Quoted "longitude" (number (lon (vik_coord_to_latlon (tp_coord tp))));
   Quoted "name" (text_of (tp_name tp));
   Quoted "altitude" (number (tp_altitude tp));
   Quoted "unixtime" (number (tp_timestamp tp))]
  ++ (if tp_newsegment tp then [Quoted "newsegment" (lit "yes")] else [])
  ++ [Quoted "extended" (lit "yes");
      Quoted "speed" (number (tp_speed tp));
      Quoted "course" (number (tp_course tp));
      Quoted "sat" (count (tp_nsats tp));
      Quoted "fix" (count (tp_fix_mode tp));
      Quoted "hdop" (number (tp_hdop tp));
      Quoted "vdop" (number (tp_vdop tp));
      Quoted "pdop" (number (tp_pdop tp))].

Definition track_tags (trk : VikTrack) : list tag_text :=
  [Quoted "type" (lit (if trk_is_route trk then "route" else "track"));
   Quoted "name" (text_of (trk_name trk));
   Quoted "comment" (text_of (trk_comment trk));
   Quoted "description" (text_of (trk_description trk));
   Quoted "source" (text_of (trk_source trk));
   Quoted "number" (count (trk_number trk));
   Quoted "xtype" (text_of (trk_type trk))]
  ++ (if trk_has_color trk then [Bare "color" (color_text (trk_color trk))] else [])
  ++ [Quoted "draw_name_mode" (count (trk_draw_name_mode trk));
      Quoted "number_dist_labels" (count (trk_max_number_dist_labels trk))]
  ++ (if trk_visible trk then [] else [Quoted "visible" (lit "n")]).

End RoundTripNotions.

(** A character of a line: neither the terminator nor the line feed. *)
Definition in_line (c : ascii) : bool := negb (Ascii.eqb c NUL || Ascii.eqb c LF).

(** The words that the writer gives to the key [type], and the record types
    that the reader makes of them. *)
Definition type_words : list (string * Z) :=
  [("waypoint", GPSPOINT_TYPE_WAYPOINT); ("track", GPSPOINT_TYPE_TRACK);
   ("route", GPSPOINT_TYPE_ROUTE); ("trackpoint", GPSPOINT_TYPE_TRACKPOINT);
   ("routepoint", GPSPOINT_TYPE_ROUTEPOINT); ("trackend", GPSPOINT_TYPE_TRACK_END);
   ("routeend", GPSPOINT_TYPE_ROUTE_END); ("waypointlist", GPSPOINT_TYPE_NONE);
   ("waypointlistend", GPSPOINT_TYPE_NONE)].

Section RunNotions.
Context {C : Collaborators} {E : EntityOps}.

(** The loop of [a_gpspoint_read_file] on the text [f], with the fuel that
    the function gives it. *)
Definition run (dirpath : gstr) (f : list ascii) (r : Reader) : option Reader :=
  read_lines (S (length f)) dirpath f r.

(** The collection of the routes or of the tracks. *)
Definition collection (is_route : bool) (trw : VikTrwLayer) : list VikTrack :=
  if is_route then routes trw else tracks trw.

End RunNotions.

Section Filled.
Context {C : Collaborators}.

(** Modelled from the spec: no field of the waypoint that the file carries
    holds its absence sentinel (no NaN numeric, no zero count, no empty
    string). *)
Definition waypoint_filled (wp : VikWaypoint) : bool :=
  present (wp_name wp)
  && negb (isnan (lat (vik_coord_to_latlon (wp_coord wp))))
  && negb (isnan (lon (vik_coord_to_latlon (wp_coord wp))))
  && negb (isnan (wp_altitude wp)) && negb (isnan (wp_timestamp wp))
  && negb (isnan (wp_speed wp)) && negb (isnan (wp_course wp))
  && negb (isnan (wp_magvar wp)) && negb (isnan (wp_geoidheight wp))
  && present (wp_comment wp) && present (wp_description wp)
  && present (wp_source wp) && present (wp_url wp) && present (wp_url_name wp)
  && present (wp_type wp)
  && negb (wp_fix_mode wp =? 0) && negb (wp_nsats wp =? 0)
  && negb (isnan (wp_hdop wp)) && negb (isnan (wp_vdop wp))
  && negb (isnan (wp_pdop wp)) && negb (isnan (wp_ageofdgpsdata wp))
  && negb (wp_dgpsid wp =? 0)
  && present (wp_image wp) && negb (isnan (wp_image_direction wp))
  && present (wp_symbol wp).

(** Modelled from the spec: the same for a trackpoint. *)
Definition trackpoint_filled (tp : VikTrackpoint) : bool :=
  negb (isnan (lat (vik_coord_to_latlon (tp_coord tp))))
  && negb (isnan (lon (vik_coord_to_latlon (tp_coord tp))))
  && present (tp_name tp)
  && negb (isnan (tp_altitude tp)) && negb (isnan (tp_timestamp tp))
  && negb (isnan (tp_speed tp)) && negb (isnan (tp_course tp))
  && negb (tp_nsats tp =? 0) && negb (tp_fix_mode tp =? 0)
  && negb (isnan (tp_hdop tp)) && negb (isnan (tp_vdop tp))
  && negb (isnan (tp_pdop tp)).

(** Modelled from the spec: the same for a track or a route and its
    points. *)
Definition track_filled (trk : VikTrack) : bool :=
  present (trk_name trk) && present (trk_comment trk)
  && present (trk_description trk) && present (trk_source trk)
  && negb (trk_number trk =? 0) && present (trk_type trk)
  && negb (trk_draw_name_mode trk =? 0)
  && negb (trk_max_number_dist_labels trk =? 0)
  && forallb trackpoint_filled (trk_trackpoints trk).

(** Modelled from the spec: an entity collection in which no field holds
    its absence sentinel. *)
Definition layer_filled (trw : VikTrwLayer) : bool :=
  forallb waypoint_filled (waypoints trw) && forallb track_filled (tracks trw)
  && forallb track_filled (routes trw).

End Filled.

(** ** Layers of the reference collaborators *)

Module Samples.
Import Plain.

(** A waypoint with every field that the file carries. *)
Definition harbour : VikWaypoint := {|
  wp_coord := {| lat := Some 48; lon := Some 2 |};
  wp_visible := true;
  wp_timestamp := Some 1000; wp_altitude := Some 35; wp_course := Some 90;
  wp_speed := Some 3; wp_magvar := Some 1; wp_geoidheight := Some 47;
  wp_hide_name := false;
  wp_name := Some (lit "A"); wp_comment := Some (lit "quay");
  wp_description := Some (lit "d"); wp_source := Some (lit "s");
  wp_url := Some (lit "u"); wp_url_name := Some (lit "n"); wp_type := Some (lit "t");
  wp_fix_mode := 3; wp_nsats := 7;
  wp_hdop := Some 1; wp_vdop := Some 2; wp_pdop := Some 3; wp_ageofdgpsdata := Some 4;
  wp_dgpsid := 5;
  wp_image := Some (lit "/i.jpg"); wp_image_direction := Some 10;
  wp_image_direction_ref := WP_IMAGE_DIRECTION_REF_TRUE;
  wp_image_width := 0; wp_image_height := 0;
  wp_symbol := Some (lit "pin"); wp_extensions := None
|}.

(** The same waypoint with a comment of two lines. *)
Definition harbour_two_lines : VikWaypoint :=
  set_wp_comment (Some ("a"%char :: LF :: lit "b")) harbour.

Definition layer_two_lines : VikTrwLayer :=
  {| waypoints := [harbour_two_lines]; tracks := []; routes := []; coord_mode := tt |}.

Definition buoy (segment : bool) : VikTrackpoint := {|
  tp_coord := {| lat := Some 47; lon := Some (-3) |};
  tp_newsegment := segment;
  tp_timestamp := Some 2000; tp_altitude := Some 1; tp_name := Some (lit "p");
  tp_speed := Some 5; tp_course := Some 180; tp_nsats := 8; tp_fix_mode := 2;
  tp_hdop := Some 1; tp_vdop := Some 1; tp_pdop := Some 2
|}.

Definition crossing : VikTrack := {|
  trk_trackpoints := [buoy true; buoy false];
  trk_visible := true; trk_is_route := false;
  trk_name := Some (lit "T"); trk_comment := Some (lit "c");
  trk_description := Some (lit "d"); trk_source := Some (lit "s");
  trk_number := 1; trk_type := Some (lit "x");
  trk_color := {| red := 4626; green := 0; blue := 65535 |}; trk_has_color := true;
  trk_draw_name_mode := 1; trk_max_number_dist_labels := 2
|}.

Definition plan : VikTrack := {|
  trk_trackpoints := [];
  trk_visible := false; trk_is_route := true;
  trk_name := Some (lit "R"); trk_comment := Some (lit "c");
  trk_description := Some (lit "d"); trk_source := Some (lit "s");
  trk_number := 2; trk_type := Some (lit "x");
  trk_color := {| red := 0; green := 0; blue := 0 |}; trk_has_color := false;
  trk_draw_name_mode := 1; trk_max_number_dist_labels := 1
|}.

Definition chart : VikTrwLayer :=
  {| waypoints := [harbour]; tracks := [crossing]; routes := [plan]; coord_mode := tt |}.

(** The layer is written, and the text is read into an empty layer by a
    process that has read no file yet. *)
Definition read_back (trw : VikTrwLayer) : option Reader :=
  a_gpspoint_read_file static_line (empty_layer_of tt)
    (file_text (a_gpspoint_write_file trw None)) None.

End Samples.

Section ReaderNotions.
Context {C : Collaborators} {E : EntityOps}.

(** As long as nothing was read, no track is open and the layer is the one
    that the caller gave. *)
Definition untouched (trw : VikTrwLayer) (r : Reader) : Prop :=
  have_read_something r = false -> layer r = trw /\ current_track r = None.

End ReaderNotions.

(** A character that the tokenizer skips between two tags. *)
Definition blank (c : ascii) : bool := negb (Ascii.eqb c NUL) && isspace c.

(** * Properties *)

(** ** Arithmetic and strings *)

Lemma u16_small (z : Z) : 0 <= z <= 65535 -> u16 z = z.
Proof. intros H. unfold u16. apply Z.mod_small. lia. Qed.

Lemma u32_small (z : Z) : 0 <= z < 4294967296 -> u32 z = z.
Proof. intros H. unfold u32. apply Z.mod_small. lia. Qed.

Lemma len_of_app (a b : cstr) : len_of (a ++ b) = len_of a + len_of b.
Proof. unfold len_of. rewrite length_app. lia. Qed.

Lemma len_of_cons (c : ascii) (s : cstr) : len_of (c :: s) = 1 + len_of s.
Proof. unfold len_of. cbn [length]. lia. Qed.

Lemma len_of_nonneg (s : cstr) : 0 <= len_of s.
Proof. unfold len_of. lia. Qed.

Lemma str_at_app_r (pre l : cstr) (k : Z) :
  0 <= k -> str_at (pre ++ l) (len_of pre + k) = str_at l k.
Proof.
  intros Hk. unfold str_at, len_of.
  replace (Z.to_nat (Z.of_nat (length pre) + k)) with (length pre + Z.to_nat k)%nat by lia.
  now rewrite app_nth2_plus.
Qed.

Lemma str_at_app_l (a b : cstr) (i : Z) :
  0 <= i < len_of a -> str_at (a ++ b) i = str_at a i.
Proof. intros Hi. unfold str_at. apply app_nth1. unfold len_of in Hi. lia. Qed.

Lemma str_at_here (pre l : cstr) : str_at (pre ++ l) (len_of pre) = hd NUL l.
Proof.
  replace (len_of pre) with (len_of pre + 0) by lia.
  rewrite str_at_app_r by lia. now destruct l.
Qed.

(** ** Escaping codec *)

Lemma slashdup_fill_app (a b : cstr) :
  slashdup_fill (a ++ b) = slashdup_fill a ++ slashdup_fill b.
Proof.
  induction a as [|c a IH]; [reflexivity|].
  cbn [slashdup_fill app]. rewrite IH. rewrite <- app_assoc. reflexivity.
Qed.

Lemma slashdup_length (s : cstr) :
  length (slashdup s) = (length s + need_bs_count s)%nat.
Proof.
  unfold slashdup. induction s as [|c s IH]; [reflexivity|].
  cbn [slashdup_fill need_bs_count]. rewrite length_app. cbn [length]. rewrite IH.
  destruct (needs_bs c); cbn [length]; lia.
Qed.

Lemma needs_bs_not_eol (c : ascii) : needs_bs c = true -> is_eol c = false.
Proof.
  unfold needs_bs, is_eol. intros H. apply orb_true_iff in H.
  destruct H as [H|H]; apply Ascii.eqb_eq in H; subst c; reflexivity.
Qed.

Lemma plain_not_bsl (c : ascii) :
  needs_bs c = false -> Ascii.eqb (if is_eol c then SP else c) BSL = false.
Proof.
  unfold needs_bs. intros H. apply orb_false_iff in H. destruct H as [H _].
  destruct (is_eol c); [reflexivity|exact H].
Qed.

Ltac len_solve :=
  unfold len_of in *; cbn [slashdup_fill app] in *;
  repeat rewrite ?length_app, ?length_cons in *; cbn [length] in *; lia.

Lemma slashdup_fill_cons_pos (c : ascii) (t : cstr) :
  0 < len_of (slashdup_fill (c :: t)).
Proof. len_solve. Qed.

(** The counting loop of [deslashndup] on an escaped string, whatever
    follows it: it ends at the length with one backslash counted for each
    protected character. *)
Lemma bs_scan_fill (t : cstr) : forall (pre suf : cstr) (bs : Z) (fuel : nat),
  len_of (pre ++ slashdup_fill t) <= 65535 ->
  0 <= bs <= len_of pre ->
  (length (slashdup_fill t) < fuel)%nat ->
  bs_scan fuel (pre ++ slashdup_fill t ++ suf) (len_of (pre ++ slashdup_fill t))
    (len_of pre) bs
  = Some (len_of (pre ++ slashdup_fill t), bs + Z.of_nat (need_bs_count t)).
Proof.
  induction t as [|c t IH]; intros pre suf bs fuel Hlen Hbs Hfuel.
  - destruct fuel as [|fuel]; [cbn in Hfuel; lia|].
    cbn [slashdup_fill need_bs_count bs_scan app]. rewrite app_nil_r.
    rewrite Z.ltb_irrefl. f_equal. f_equal. lia.
  - destruct fuel as [|fuel]; [cbn in Hfuel; lia|].
    cbn [bs_scan].
    assert (Hlt : (len_of pre <? len_of (pre ++ slashdup_fill (c :: t))) = true).
    { apply Z.ltb_lt. rewrite len_of_app.
      pose proof (slashdup_fill_cons_pos c t). lia. }
    rewrite Hlt. rewrite str_at_here.
    cbn [slashdup_fill need_bs_count] in *.
    destruct (needs_bs c) eqn:Hc.
    + cbn [app hd] in *. rewrite Ascii.eqb_refl.
      rewrite (needs_bs_not_eol c Hc) in *.
      rewrite (u16_small (len_of pre + 1)) by len_solve.
      rewrite (u16_small (len_of pre + 1 + 1)) by len_solve.
      rewrite (u16_small (bs + 1)) by len_solve.
      replace (pre ++ BSL :: c :: slashdup_fill t ++ suf)
        with ((pre ++ [BSL; c]) ++ slashdup_fill t ++ suf)
        by (rewrite <- app_assoc; reflexivity).
      replace (pre ++ BSL :: c :: slashdup_fill t)
        with ((pre ++ [BSL; c]) ++ slashdup_fill t) in *
        by (rewrite <- app_assoc; reflexivity).
      replace (len_of pre + 1 + 1) with (len_of (pre ++ [BSL; c])) by len_solve.
      rewrite IH; [f_equal; f_equal; lia | exact Hlen | len_solve | len_solve].
    + cbn [app hd] in *. rewrite (plain_not_bsl c Hc).
      rewrite (u16_small (len_of pre + 1)) by len_solve.
      set (w := if is_eol c then SP else c) in *.
      replace (pre ++ w :: slashdup_fill t ++ suf)
        with ((pre ++ [w]) ++ slashdup_fill t ++ suf)
        by (rewrite <- app_assoc; reflexivity).
      replace (pre ++ w :: slashdup_fill t)
        with ((pre ++ [w]) ++ slashdup_fill t) in *
        by (rewrite <- app_assoc; reflexivity).
      replace (len_of pre + 1) with (len_of (pre ++ [w])) by len_solve.
      rewrite IH; [f_equal | exact Hlen | len_solve | len_solve].
Qed.

(** The copying loop of [deslashndup] on an escaped string writes the
    original characters, line ends blanked. *)
Lemma deslash_copy_fill (t : cstr) : forall (pre suf : cstr) (j : Z) (fuel : nat),
  (length (slashdup_fill t) <= fuel)%nat ->
  deslash_copy fuel (pre ++ slashdup_fill t ++ suf) (len_of (pre ++ slashdup_fill t))
    (j + len_of t) (len_of pre) j false
  = (blank_eol t, j + len_of t).
Proof.
  induction t as [|c t IH]; intros pre suf j fuel Hfuel.
  - cbn [slashdup_fill blank_eol map app]. rewrite app_nil_r.
    destruct fuel; cbn [deslash_copy]; [|rewrite Z.ltb_irrefl; cbn [andb]];
      f_equal; len_solve.
  - assert (Hlt : (len_of pre <? len_of (pre ++ slashdup_fill (c :: t))) = true).
    { apply Z.ltb_lt. rewrite len_of_app.
      pose proof (slashdup_fill_cons_pos c t). lia. }
    assert (Hj : (j <? j + len_of (c :: t)) = true) by (apply Z.ltb_lt; len_solve).
    destruct fuel as [|fuel]; [cbn in Hfuel; len_solve|].
    cbn [deslash_copy]. rewrite Hlt, Hj. cbn [andb]. rewrite str_at_here.
    cbn [slashdup_fill blank_eol map] in *.
    destruct (needs_bs c) eqn:Hc.
    + cbn [app hd] in *. rewrite Ascii.eqb_refl. cbn [negb andb].
      rewrite (needs_bs_not_eol c Hc) in *.
      destruct fuel as [|fuel]; [cbn in Hfuel; lia|].
      cbn [deslash_copy].
      assert (Hlt2 : (len_of pre + 1 <? len_of (pre ++ BSL :: c :: slashdup_fill t)) = true)
        by (apply Z.ltb_lt; len_solve).
      rewrite Hlt2, Hj. cbn [andb].
      replace (pre ++ BSL :: c :: slashdup_fill t ++ suf)
        with ((pre ++ [BSL]) ++ c :: slashdup_fill t ++ suf)
        by (rewrite <- app_assoc; reflexivity).
      replace (len_of pre + 1) with (len_of (pre ++ [BSL])) by len_solve.
      rewrite str_at_here. cbn [hd]. rewrite andb_false_r.
      replace ((pre ++ [BSL]) ++ c :: slashdup_fill t ++ suf)
        with ((pre ++ [BSL; c]) ++ slashdup_fill t ++ suf)
        by (rewrite <- !app_assoc; reflexivity).
      replace (pre ++ BSL :: c :: slashdup_fill t)
        with ((pre ++ [BSL; c]) ++ slashdup_fill t)
        by (rewrite <- !app_assoc; reflexivity).
      replace (len_of (pre ++ [BSL]) + 1) with (len_of (pre ++ [BSL; c])) by len_solve.
      replace (j + len_of (c :: t)) with (j + 1 + len_of t) by len_solve.
      rewrite IH by (cbn [length] in Hfuel; lia). reflexivity.
    + cbn [app hd] in *. rewrite (plain_not_bsl c Hc). cbn [andb].
      set (w := if is_eol c then SP else c) in *.
      replace (pre ++ w :: slashdup_fill t ++ suf)
        with ((pre ++ [w]) ++ slashdup_fill t ++ suf)
        by (rewrite <- app_assoc; reflexivity).
      replace (pre ++ w :: slashdup_fill t)
        with ((pre ++ [w]) ++ slashdup_fill t)
        by (rewrite <- app_assoc; reflexivity).
      replace (len_of pre + 1) with (len_of (pre ++ [w])) by len_solve.
      replace (j + len_of (c :: t)) with (j + 1 + len_of t) by len_solve.
      rewrite IH by (cbn [length] in Hfuel; lia). reflexivity.
Qed.

(** An escaped string does not end in a backslash that stands alone. *)
Lemma slashdup_fill_last (s : cstr) :
  str_at (slashdup_fill s) (len_of (slashdup_fill s) - 1) = BSL ->
  2 <= len_of (slashdup_fill s)
  /\ str_at (slashdup_fill s) (len_of (slashdup_fill s) - 2) = BSL.
Proof.
  destruct s as [|c0 s0] using rev_ind; [cbn; discriminate|].
  clear IHs0. rewrite slashdup_fill_app. cbn [slashdup_fill].
  destruct (needs_bs c0) eqn:Hc.
  - rewrite (needs_bs_not_eol c0 Hc). cbn [app].
    replace (slashdup_fill s0 ++ [BSL; c0]) with ((slashdup_fill s0 ++ [BSL]) ++ [c0])
      by (rewrite <- app_assoc; reflexivity).
    replace (len_of ((slashdup_fill s0 ++ [BSL]) ++ [c0]) - 1)
      with (len_of (slashdup_fill s0 ++ [BSL])) by len_solve.
    rewrite str_at_here. cbn [hd]. intros ->. split; [len_solve|].
    rewrite <- app_assoc. cbn [app].
    replace (len_of (slashdup_fill s0 ++ [BSL; BSL]) - 2)
      with (len_of (slashdup_fill s0)) by len_solve.
    now rewrite str_at_here.
  - cbn [app].
    replace (len_of (slashdup_fill s0 ++ [if is_eol c0 then SP else c0]) - 1)
      with (len_of (slashdup_fill s0)) by len_solve.
    rewrite str_at_here. cbn [hd]. intros H.
    pose proof (plain_not_bsl c0 Hc) as Hn. rewrite H in Hn. discriminate.
Qed.

(** C2, as stated, fails at the empty string: its escaped form has length
    zero, for which [deslashndup] returns [NULL] and not the empty string. *)
Lemma deslashndup_slashdup_empty :
  deslashndup (slashdup []) (len_of (slashdup [])) = Some None
  /\ deslashndup (slashdup []) (len_of (slashdup [])) <> Some (Some (blank_eol [])).
Proof. split; [reflexivity|discriminate]. Qed.

(** Unescaping an escaped string inside a longer text: only the span of
    the given length is read. *)
Lemma deslashndup_escaped (s suf : cstr) :
  s <> [] ->
  len_of (slashdup s) <= 65535 ->
  deslashndup (slashdup s ++ suf) (len_of (slashdup s)) = Some (Some (blank_eol s)).
Proof.
  intros Hne Hlen. unfold deslashndup, slashdup in *.
  set (L := len_of (slashdup_fill s)) in *.
  assert (HL : 1 <= L).
  { destruct s as [|c t]; [congruence|].
    pose proof (slashdup_fill_cons_pos c t). subst L. lia. }
  rewrite (u16_small L) by lia.
  destruct (L <? 1) eqn:H1; [apply Z.ltb_lt in H1; lia|].
  pose proof (bs_scan_fill s [] suf 0 (S (Z.to_nat L))) as Hscan.
  cbn [app] in Hscan. change (len_of []) with 0 in Hscan. fold L in Hscan.
  rewrite Hscan; [|lia|lia|subst L; unfold len_of; lia].
  assert (Hin : forall k, 1 <= k <= L ->
            str_at (slashdup_fill s ++ suf) (L - k) = str_at (slashdup_fill s) (L - k)).
  { intros k Hk. apply str_at_app_l. fold L. lia. }
  assert (Hdec : Ascii.eqb (str_at (slashdup_fill s ++ suf) (L - 1)) BSL
                 && ((L =? 1)
                     || negb (Ascii.eqb (str_at (slashdup_fill s ++ suf) (L - 2)) BSL))
                 = false).
  { rewrite (Hin 1) by lia.
    destruct (Ascii.eqb (str_at (slashdup_fill s) (L - 1)) BSL) eqn:Hb; [|reflexivity].
    apply Ascii.eqb_eq in Hb. destruct (slashdup_fill_last s Hb) as [H2 Hb2].
    fold L in H2, Hb2. rewrite (Hin 2) by lia. rewrite Hb2, Ascii.eqb_refl.
    destruct (L =? 1) eqn:HL1; [apply Z.eqb_eq in HL1; lia|reflexivity]. }
  rewrite Hdec.
  assert (Hcount : L = len_of s + Z.of_nat (need_bs_count s)).
  { subst L. unfold len_of. pose proof (slashdup_length s) as Hl.
    unfold slashdup in Hl. rewrite Hl. lia. }
  replace (0 + Z.of_nat (need_bs_count s)) with (Z.of_nat (need_bs_count s)) by lia.
  replace (L - Z.of_nat (need_bs_count s)) with (len_of s) by lia.
  rewrite (u16_small (len_of s)) by (pose proof (len_of_nonneg s); lia).
  pose proof (deslash_copy_fill s [] suf 0 (Z.to_nat L)) as Hcopy.
  cbn [app] in Hcopy. change (len_of []) with 0 in Hcopy. fold L in Hcopy.
  replace (0 + len_of s) with (len_of s) in Hcopy by lia.
  rewrite Hcopy by (subst L; unfold len_of; lia).
  rewrite Z.eqb_refl. reflexivity.
Qed.

(** C2 (amended): for every non-empty string [s] whose escaped form fits the
    [guint16] length that [deslashndup] receives, unescaping the escaped form
    of [s] over its full length returns [s] with every line feed and
    carriage return replaced by a blank. *)
Theorem deslashndup_slashdup (s : cstr) :
  s <> [] ->
  len_of (slashdup s) <= 65535 ->
  deslashndup (slashdup s) (len_of (slashdup s)) = Some (Some (blank_eol s)).
Proof.
  intros Hne Hlen. pose proof (deslashndup_escaped s [] Hne Hlen) as H.
  now rewrite app_nil_r in H.
Qed.

Lemma deslashndup_slashdup_witness :
  let s := lit "Paris, " ++ DQ :: lit "France" ++ [DQ; BSL; LF] in
  deslashndup (slashdup s) (len_of (slashdup s)) = Some (Some (blank_eol s)).
Proof.
  intros s. apply (deslashndup_slashdup s); [discriminate|].
  vm_compute. discriminate.
Defined.

(** *** [deslashndup] has a defined result on the spans the reader gives it *)

(** Both loops of [deslashndup] from position [i] on: the counting loop ends
    at [len] or one past it without wrapping, having counted [k] backslashes,
    and the copying loop then fills exactly the bytes that remain. *)
Lemma scan_and_copy (str : cstr) (len : Z) :
  len <= 65534 ->
  forall (n : nat) (i bs j : Z) (f1 f2 : nat),
  0 <= i <= len -> len - i <= Z.of_nat n ->
  (Z.to_nat (len - i) < f1)%nat -> (Z.to_nat (len - i) <= f2)%nat ->
  0 <= bs <= i -> 0 <= j ->
  exists i' k rv,
    bs_scan f1 str len i bs = Some (i', bs + k)
    /\ 0 <= k /\ 2 * k <= i' - i
    /\ (i' = len \/ i' = len + 1)
    /\ (i' = i \/ str_at str (i' - 1) <> BSL
        \/ (i + 2 <= i' /\ str_at str (i' - 2) = BSL))
    /\ deslash_copy f2 str len (j + (len - i) - k) i j false
       = (rv, j + (len - i) - k).
Proof.
  intros Hmax.
  assert (Hstop : forall i bs j f1 f2, i = len -> (0 < f1)%nat ->
    exists i' k rv,
      bs_scan f1 str len i bs = Some (i', bs + k)
      /\ 0 <= k /\ 2 * k <= i' - i
      /\ (i' = len \/ i' = len + 1)
      /\ (i' = i \/ str_at str (i' - 1) <> BSL
          \/ (i + 2 <= i' /\ str_at str (i' - 2) = BSL))
      /\ deslash_copy f2 str len (j + (len - i) - k) i j false
         = (rv, j + (len - i) - k)).
  { intros i bs j f1 f2 -> Hf1. exists len, 0, [].
    destruct f1 as [|f1]; [lia|]. cbn [bs_scan].
    rewrite Z.ltb_irrefl. repeat split; try lia.
    - f_equal. f_equal. lia.
    - destruct f2; cbn [deslash_copy]; [|rewrite Z.ltb_irrefl; cbn [andb]];
        f_equal; lia. }
  induction n as [|n IH]; intros i bs j f1 f2 Hi Hn Hf1 Hf2 Hbs Hj.
  - apply Hstop; lia.
  - destruct (Z.eq_dec i len) as [Heq|Hne]; [apply Hstop; lia|].
    destruct f1 as [|f1]; [lia|]. destruct f2 as [|f2]; [lia|].
    cbn [bs_scan deslash_copy].
    assert (Hlt : (i <? len) = true) by (apply Z.ltb_lt; lia). rewrite Hlt.
    destruct (Ascii.eqb (str_at str i) BSL) eqn:Hc.
    + (* a backslash that escapes the next character *)
      rewrite (u16_small (i + 1)) by lia. rewrite (u16_small (i + 1 + 1)) by lia.
      rewrite (u16_small (bs + 1)) by lia.
      destruct (Z.eq_dec (i + 1) len) as [Hlast|Hmore].
      * exists (len + 1), 1, [].
        destruct f1 as [|f1]; [lia|]. cbn [bs_scan].
        replace (i + 1 + 1) with (len + 1) by lia.
        assert (Hge : (len + 1 <? len) = false) by (apply Z.ltb_ge; lia).
        rewrite Hge. repeat split; try lia.
        -- right. right. split; [lia|].
           replace (len + 1 - 2) with i by lia. now apply Ascii.eqb_eq.
        -- replace (j + (len - i) - 1) with j by lia.
           rewrite Z.ltb_irrefl. cbn [andb]. reflexivity.
      * destruct f2 as [|f2]; [lia|].
        destruct (IH (i + 1 + 1) (bs + 1) (j + 1) f1 f2)
          as (i' & k & rv & Hs & Hk0 & Hk & Hend & Hprov & Hcp); try lia.
        exists i', (k + 1), (str_at str (i + 1) :: rv).
        rewrite Hs.
        assert (Hj1 : (j <? j + (len - i) - (k + 1)) = true) by (apply Z.ltb_lt; lia).
        assert (Hlt2 : (i + 1 <? len) = true) by (apply Z.ltb_lt; lia).
        rewrite Hj1. cbn [andb negb deslash_copy].
        rewrite Hlt2, Hj1. cbn [andb]. rewrite andb_false_r.
        replace (j + (len - i) - (k + 1)) with (j + 1 + (len - (i + 1 + 1)) - k) by lia.
        rewrite Hcp.
        repeat split; try lia.
        -- f_equal. f_equal. lia.
        -- destruct Hprov as [Heq|[Hnb|[Hge Hb]]].
           ++ right. right. split; [lia|]. subst i'.
              replace (i + 1 + 1 - 2) with i by lia. now apply Ascii.eqb_eq.
           ++ right. left. exact Hnb.
           ++ right. right. split; [lia|exact Hb].
    + rewrite (u16_small (i + 1)) by lia.
      destruct (IH (i + 1) bs (j + 1) f1 f2)
        as (i' & k & rv & Hs & Hk0 & Hk & Hend & Hprov & Hcp); try lia.
      exists i', k, (str_at str i :: rv).
      rewrite Hs.
      assert (Hj1 : (j <? j + (len - i) - k) = true) by (apply Z.ltb_lt; lia).
      rewrite Hj1. cbn [andb].
      replace (j + (len - i) - k) with (j + 1 + (len - (i + 1)) - k) by lia.
      rewrite Hcp.
      repeat split; try lia.
      destruct Hprov as [Heq|[Hnb|[Hge Hb]]].
      * right. left. subst i'. replace (i + 1 - 1) with i by lia.
        intros Habs. rewrite Habs in Hc. cbn in Hc. discriminate.
      * right. left. exact Hnb.
      * right. right. split; [lia|exact Hb].
Qed.

(** [deslashndup] returns, with a defined result, on every span shorter than
    65535 bytes that is not followed by a backslash. *)
Lemma deslashndup_defined (str : cstr) (len : Z) :
  0 <= len <= 65534 ->
  str_at str len <> BSL ->
  exists r, deslashndup str len = Some r.
Proof.
  intros Hlen Hnext. unfold deslashndup. rewrite (u16_small len) by lia.
  destruct (len <? 1) eqn:H1; [eexists; reflexivity|]. apply Z.ltb_ge in H1.
  destruct (scan_and_copy str len ltac:(lia) (Z.to_nat len) 0 0 0
              (S (Z.to_nat len)) (Z.to_nat len))
    as (i' & k & rv & Hs & Hk0 & Hk & Hend & Hprov & Hcp); try lia.
  rewrite Hs.
  assert (Hdec : Ascii.eqb (str_at str (i' - 1)) BSL
                 && ((len =? 1) || negb (Ascii.eqb (str_at str (i' - 2)) BSL)) = false).
  { destruct (Ascii.eqb (str_at str (i' - 1)) BSL) eqn:Hb; [|reflexivity].
    apply Ascii.eqb_eq in Hb. cbn [andb].
    destruct Hend as [->| ->].
    - destruct Hprov as [Heq|[Hnb|[Hge Hb2]]]; [lia|contradiction|].
      rewrite Hb2, Ascii.eqb_refl.
      destruct (len =? 1) eqn:E; [apply Z.eqb_eq in E; lia|reflexivity].
    - replace (len + 1 - 1) with len in Hb by lia. contradiction. }
  rewrite Hdec. replace (0 + k) with k by lia.
  rewrite (u16_small (len - k)) by lia.
  replace (0 + (len - 0) - k) with (len - k) in Hcp by lia.
  rewrite Hcp. rewrite Z.eqb_refl. eexists. reflexivity.
Qed.

(** ** Tokenizer and tag splitting *)

Section TagProperties.
Context {C : Collaborators}.

Lemma process_tag_split (tag : cstr) (len : Z) (st : LineState) :
  gpspoint_process_tag tag len st
  = match tag_split tag len with
    | Some (key_len, value, value_len) =>
        gpspoint_process_key_and_value tag key_len value value_len st
    | None => Some st
    end.
Proof.
  unfold gpspoint_process_tag, tag_split.
  repeat match goal with
         | |- context [if ?b then _ else _] => destruct b
         end; reflexivity.
Qed.

Lemma str_at_ptr_add (tag : cstr) (a b : Z) :
  0 <= a -> 0 <= b -> str_at (ptr_add tag a) b = str_at tag (a + b).
Proof.
  intros Ha Hb. unfold str_at, ptr_add.
  replace (Z.to_nat (a + b)) with (Z.to_nat a + Z.to_nat b)%nat by lia.
  rewrite nth_skipn. reflexivity.
Qed.

Lemma find_key_end_range (tag : cstr) (len : Z) :
  forall (fuel : nat) (k : Z), 1 <= k ->
  k <= find_key_end fuel tag len k
  /\ (find_key_end fuel tag len k <= len \/ find_key_end fuel tag len k = k).
Proof.
  induction fuel as [|fuel IH]; intros k Hk; cbn [find_key_end]; [lia|].
  destruct (k <? len) eqn:Hlt; [|lia]. apply Z.ltb_lt in Hlt.
  destruct (Ascii.eqb (str_at tag k) EQS); [lia|].
  destruct (IH (k + 1) ltac:(lia)) as [H1 H2]. lia.
Qed.

(** The value that a tag hands over lies inside the tag, and the character
    after it is the closing quote or the character after the tag. *)
Lemma tag_split_value (tag : cstr) (len key_len value_len : Z) (value : gstr) :
  0 <= len < 4294967296 ->
  tag_split tag len = Some (key_len, value, value_len) ->
  0 <= value_len <= len
  /\ (str_at (deref value) value_len = NUL
      \/ str_at (deref value) value_len = DQ
      \/ str_at (deref value) value_len = str_at tag len).
Proof.
  intros Hlen. unfold tag_split.
  destruct (find_key_end_range tag len (Z.to_nat len) 1 ltac:(lia)) as [Hk1 Hk2].
  set (ke := find_key_end (Z.to_nat len) tag len 1) in *.
  destruct (ke =? len) eqn:E1; [discriminate|]. apply Z.eqb_neq in E1.
  destruct (ke =? u32 (len + 1)) eqn:E2; [discriminate|].
  destruct (Ascii.eqb (str_at tag (ke + 1)) DQ).
  - destruct (Ascii.eqb (str_at tag (ke + 1 + 1)) DQ).
    + intros [= <- <- <-]. cbn. split; [unfold u32; cbn; lia|]. left. reflexivity.
    + destruct (Ascii.eqb (str_at tag (len - 1)) DQ) eqn:Eq; [|discriminate].
      destruct (len - 1 - (ke + 1 + 1) <? 0) eqn:E3; [discriminate|].
      apply Z.ltb_ge in E3. intros [= <- <- <-].
      rewrite (u32_small (len - 1 - (ke + 1 + 1))) by lia. split; [lia|].
      right. left. cbn [deref]. rewrite str_at_ptr_add by lia.
      replace (ke + 1 + 1 + (len - 1 - (ke + 1 + 1))) with (len - 1) by lia.
      now apply Ascii.eqb_eq.
  - destruct (len - (ke + 1) <? 0) eqn:E3; [discriminate|].
    apply Z.ltb_ge in E3. intros [= <- <- <-].
    rewrite (u32_small (len - (ke + 1))) by lia. split; [lia|].
    right. right. cbn [deref]. rewrite str_at_ptr_add by lia.
    f_equal. lia.
Qed.

Lemma store_first_defined (v : svar) (value : cstr) (value_len : Z) (st : LineState) :
  0 <= value_len <= 65534 -> str_at value value_len <> BSL ->
  exists st', store_first v value value_len st = Some st'.
Proof.
  intros Hl Hn. unfold store_first. destruct (strs st v); [eexists; reflexivity|].
  destruct (deslashndup_defined value value_len Hl Hn) as [r ->]. eexists; reflexivity.
Qed.

Lemma store_last_defined (v : svar) (value : cstr) (value_len : Z) (st : LineState) :
  0 <= value_len <= 65534 -> str_at value value_len <> BSL ->
  exists st', store_last v value value_len st = Some st'.
Proof.
  intros Hl Hn. unfold store_last.
  destruct (deslashndup_defined value value_len Hl Hn) as [r ->]. eexists; reflexivity.
Qed.

(** The dispatcher returns for every value that is not followed by a
    backslash. *)
Lemma process_key_and_value_defined (key : cstr) (key_len : Z) (value : gstr)
      (value_len : Z) (st : LineState) :
  0 <= value_len <= 65534 -> str_at (deref value) value_len <> BSL ->
  exists st', gpspoint_process_key_and_value key key_len value value_len st = Some st'.
Proof.
  intros Hl Hn. unfold gpspoint_process_key_and_value.
  repeat match goal with
         | |- context [if ?b then _ else _] => destruct b
         end;
    first [ eexists; reflexivity
          | apply store_first_defined; assumption
          | apply store_last_defined; assumption ].
Qed.

Lemma process_tag_defined (tag : cstr) (len : Z) (st : LineState) :
  0 <= len <= 65534 -> str_at tag len <> BSL ->
  exists st', gpspoint_process_tag tag len st = Some st'.
Proof.
  intros Hl Hn. rewrite process_tag_split.
  destruct (tag_split tag len) as [[[kl v] vl]|] eqn:Hs; [|eexists; reflexivity].
  destruct (tag_split_value tag len kl vl v ltac:(lia) Hs) as [Hvl Hnext].
  apply process_key_and_value_defined; [lia|].
  destruct Hnext as [H|[H|H]]; rewrite H; try discriminate. exact Hn.
Qed.

Lemma skip_blanks_length (p : cstr) : (length (skip_blanks p) <= length p)%nat.
Proof.
  induction p as [|c p IH]; cbn [skip_blanks]; [lia|].
  destruct (negb (Ascii.eqb c NUL) && isspace c); cbn [length]; lia.
Qed.

(** The scan of a tag stops [m] characters further, on the terminator or on
    a blank. *)
Lemma tag_scan_stop (p : cstr) : forall (iq bs : bool) (n : Z) e len iq' bs',
  tag_scan p iq bs n = (e, len, iq', bs') ->
  exists m : nat,
    len = n + Z.of_nat m /\ e = skipn m p /\ (m <= length p)%nat
    /\ (hd NUL e = NUL \/ isspace (hd NUL e) = true).
Proof.
  induction p as [|c p IH]; intros iq bs n e len iq' bs' H.
  - cbn in H. injection H as <- <- <- <-. exists O. cbn. repeat split; try lia. now left.
  - cbn [tag_scan] in H.
    destruct (negb (Ascii.eqb c NUL) && (negb (isspace c) || iq)) eqn:Hgo.
    + assert (Hrec : exists iq1 bs1, tag_scan p iq1 bs1 (n + 1) = (e, len, iq', bs')).
      { repeat match type of H with
               | (if ?b then _ else _) = _ => destruct b
               end; eauto. }
      destruct Hrec as (iq1 & bs1 & Hrec).
      destruct (IH _ _ _ _ _ _ _ Hrec) as (m & Hm & He & Hle & Hhd).
      exists (S m). cbn [skipn length]. repeat split; try lia; assumption.
    + injection H as <- <- <- <-. exists O. cbn [skipn hd length].
      repeat split; try lia.
      apply andb_false_iff in Hgo. destruct Hgo as [Hgo|Hgo].
      * left. apply negb_false_iff in Hgo. now apply Ascii.eqb_eq.
      * right. apply orb_false_iff in Hgo. destruct Hgo as [Hgo _].
        now apply negb_false_iff in Hgo.
Qed.

Lemma hd_skipn_str_at (p : cstr) (m : nat) : hd NUL (skipn m p) = str_at p (Z.of_nat m).
Proof.
  unfold str_at. rewrite Nat2Z.id. revert p.
  induction m as [|m IH]; intros [|c p]; cbn; auto.
Qed.

(** A tag that starts on a character other than a blank or the terminator
    has at least one character. *)
Lemma tag_scan_progress (c : ascii) (p : cstr) (iq bs : bool) e len iq' bs' :
  Ascii.eqb c NUL = false ->
  negb (Ascii.eqb c NUL) && isspace c = false ->
  tag_scan (c :: p) iq bs 0 = (e, len, iq', bs') ->
  exists m : nat, len = 1 + Z.of_nat m /\ e = skipn m p /\ (m <= length p)%nat
    /\ (hd NUL e = NUL \/ isspace (hd NUL e) = true).
Proof.
  intros Hnul Hsp H. cbn [tag_scan] in H. rewrite Hnul in *. cbn [negb andb] in *.
  rewrite Hsp in H. cbn [negb orb] in H.
  assert (Hrec : exists iq1 bs1, tag_scan p iq1 bs1 (0 + 1) = (e, len, iq', bs')).
  { repeat match type of H with
           | (if ?b then _ else _) = _ => destruct b
           end; eauto. }
  destruct Hrec as (iq1 & bs1 & Hrec).
  destruct (tag_scan_stop _ _ _ _ _ _ _ _ Hrec) as (m & Hm & He & Hle & Hhd).
  exists m. repeat split; try lia; assumption.
Qed.

End TagProperties.

Section LineProperties.
Context {C : Collaborators}.

Lemma skip_blanks_head (p : cstr) (c : ascii) (q : cstr) :
  skip_blanks p = c :: q -> negb (Ascii.eqb c NUL) && isspace c = false.
Proof.
  induction p as [|a p IH]; cbn [skip_blanks]; [discriminate|].
  destruct (negb (Ascii.eqb a NUL) && isspace a) eqn:Ha; [exact IH|].
  intros [= <- <-]. exact Ha.
Qed.

Lemma not_blank_not_bsl (c : ascii) :
  c = NUL \/ isspace c = true -> c <> BSL.
Proof. intros H Hc. subst c. destruct H as [H|H]; [discriminate|]. cbn in H. discriminate. Qed.

(** What one turn of the tokenizer loop finds: the tag, its length and the
    place where the next turn starts. *)
Lemma tokenizer_turn (p : cstr) (iq bs : bool) (c : ascii) (q : cstr)
      e len iq' bs' :
  skip_blanks p = c :: q ->
  Ascii.eqb c NUL = false ->
  tag_scan (c :: q) iq bs 0 = (e, len, iq', bs') ->
  1 <= len <= len_of (c :: q)
  /\ (len_of (c :: q) <= 65534 -> u32 len = len)
  /\ (len_of (c :: q) <= 65534 -> str_at (c :: q) len <> BSL)
  /\ str_at (c :: q) len = hd NUL e
  /\ (length (tl e) + 2 <= length p \/ e = [])%nat.
Proof.
  intros Hsk Hnul Hscan.
  pose proof (skip_blanks_head p c q Hsk) as Hsp.
  pose proof (skip_blanks_length p) as Hlen. rewrite Hsk in Hlen. cbn [length] in Hlen.
  destruct (tag_scan_progress c q iq bs e len iq' bs' Hnul Hsp Hscan)
    as (m & Hm & He & Hle & Hhd).
  assert (Hat : str_at (c :: q) len = hd NUL e).
  { subst len e. rewrite hd_skipn_str_at. unfold str_at.
    replace (Z.to_nat (1 + Z.of_nat m)) with (S m) by lia. cbn [nth].
    now rewrite Nat2Z.id. }
  repeat split.
  - lia.
  - rewrite len_of_cons. unfold len_of. lia.
  - intros Hmax. apply u32_small. rewrite len_of_cons in Hmax. unfold len_of in Hmax. lia.
  - intros _. rewrite Hat. now apply not_blank_not_bsl.
  - exact Hat.
  - destruct e as [|a e']; [now right|left].
    assert (Hl : length (a :: e') = (length q - m)%nat) by (rewrite He; apply length_skipn).
    cbn [length tl] in *. lia.
Qed.

(** The tokenizer loop hands the tags of the line to
    [gpspoint_process_tag] in order. *)
Lemma process_tags_dispatch : forall (fuel : nat) (p : cstr) (iq bs : bool) (st : LineState),
  (length p < fuel)%nat ->
  process_tags fuel p iq bs st = dispatch_tags (line_tags fuel p iq bs) st.
Proof.
  induction fuel as [|fuel IH]; intros p iq bs st Hf; [lia|].
  cbn [process_tags line_tags].
  destruct (skip_blanks p) as [|c q] eqn:Hsk; [reflexivity|]. cbn [hd].
  destruct (Ascii.eqb c NUL) eqn:Hnul; [reflexivity|].
  destruct (Ascii.eqb c HASH); [reflexivity|].
  destruct (tag_scan (c :: q) (if Ascii.eqb c DQ then negb iq else iq) bs 0)
    as [[[e len] iq'] bs'] eqn:Hscan.
  destruct (tokenizer_turn p _ bs c q e len iq' bs' Hsk Hnul Hscan)
    as (_ & _ & _ & _ & Hnext).
  cbn [dispatch_tags].
  destruct (gpspoint_process_tag (c :: q) (u32 len) st) as [st'|]; [|reflexivity].
  destruct (Ascii.eqb (hd NUL e) NUL) eqn:He; [reflexivity|].
  apply IH. destruct Hnext as [Hn| ->]; [lia|]. cbn in He. discriminate.
Qed.

(** The tags of a line shorter than 65535 bytes all have a defined result. *)
Lemma process_tags_defined : forall (fuel : nat) (p : cstr) (iq bs : bool) (st : LineState),
  (length p < fuel)%nat -> len_of p <= 65534 ->
  exists st', process_tags fuel p iq bs st = Some st'.
Proof.
  induction fuel as [|fuel IH]; intros p iq bs st Hf Hmax; [lia|].
  cbn [process_tags].
  destruct (skip_blanks p) as [|c q] eqn:Hsk; [eexists; reflexivity|]. cbn [hd].
  destruct (Ascii.eqb c NUL) eqn:Hnul; [eexists; reflexivity|].
  destruct (Ascii.eqb c HASH); [eexists; reflexivity|].
  destruct (tag_scan (c :: q) (if Ascii.eqb c DQ then negb iq else iq) bs 0)
    as [[[e len] iq'] bs'] eqn:Hscan.
  destruct (tokenizer_turn p _ bs c q e len iq' bs' Hsk Hnul Hscan)
    as (Hlen & Hu & Hnb & _ & Hnext).
  pose proof (skip_blanks_length p) as Hsl. rewrite Hsk in Hsl.
  assert (Hcq : len_of (c :: q) <= 65534) by (unfold len_of in *; lia).
  rewrite (Hu Hcq).
  destruct (process_tag_defined (c :: q) len st ltac:(lia) (Hnb Hcq)) as [st' ->].
  destruct (Ascii.eqb (hd NUL e) NUL) eqn:He; [eexists; reflexivity|].
  apply IH.
  - destruct Hnext as [Hn| ->]; [lia|]. cbn in He. discriminate.
  - destruct Hnext as [Hn| ->]; [|cbn in He; discriminate].
    unfold len_of in *. lia.
Qed.

Lemma process_line_tags_defined (line_buffer : cstr) (st : LineState) :
  len_of line_buffer <= 65534 ->
  exists st', process_line_tags line_buffer st = Some st'.
Proof. intros H. apply process_tags_defined; [lia|exact H]. Qed.

Lemma process_line_tags_dispatch (line_buffer : cstr) (st : LineState) :
  process_line_tags line_buffer st = dispatch_tags (tags_of_line line_buffer) st.
Proof. apply process_tags_dispatch. lia. Qed.

End LineProperties.

(** ** Keys *)

Lemma tolower_nul (c : ascii) : tolower c = NUL -> c = NUL.
Proof.
  destruct c as [[] [] [] [] [] [] [] []]; vm_compute; intros H;
    first [reflexivity | discriminate H].
Qed.

Lemma strncasecmp_eq_words : forall (n : nat) (key name : cstr),
  (n <= length name)%nat ->
  forallb (fun c => negb (Ascii.eqb c NUL)) name = true ->
  strncasecmp_eq key name n = true ->
  map tolower (firstn n key) = map tolower (firstn n name).
Proof.
  induction n as [|n IH]; intros key name Hn Hnul H; [reflexivity|].
  destruct name as [|c2 name]; [cbn in Hn; lia|].
  cbn [forallb] in Hnul. apply andb_true_iff in Hnul. destruct Hnul as [Hc2 Hnul].
  apply negb_true_iff in Hc2.
  cbn [strncasecmp_eq hd tl] in H.
  destruct (Ascii.eqb (tolower (hd NUL key)) (tolower c2)) eqn:He; [|discriminate].
  apply Ascii.eqb_eq in He.
  destruct key as [|c1 key]; cbn [hd tl] in *.
  - symmetry in He. apply tolower_nul in He. subst c2. cbn in Hc2. discriminate.
  - destruct (Ascii.eqb c1 NUL) eqn:E1.
    + apply Ascii.eqb_eq in E1. subst c1. symmetry in He.
      change (tolower NUL) with NUL in He.
      apply tolower_nul in He. subst c2. cbn in Hc2. discriminate.
    + cbn [firstn map]. f_equal; [exact He|].
      apply IH; [cbn [length] in Hn; lia|exact Hnul|exact H].
Qed.

(** Two words of the vocabulary that match the same key are the same word
    up to case. *)
Lemma key_is_same_word (key : cstr) (key_len n1 n2 : Z) (name1 name2 : string) :
  word_ok n1 name1 = true -> word_ok n2 name2 = true ->
  key_is key key_len n1 name1 = true -> key_is key key_len n2 name2 = true ->
  lower name1 = lower name2.
Proof.
  unfold word_ok, key_is, lower. intros H1 H2 K1 K2.
  apply andb_true_iff in H1, H2, K1, K2.
  destruct H1 as [L1 N1], H2 as [L2 N2], K1 as [E1 K1], K2 as [E2 K2].
  apply Z.eqb_eq in L1, L2, E1, E2.
  assert (A1 : Z.to_nat key_len = length (lit name1)) by (unfold len_of in *; lia).
  assert (A2 : Z.to_nat key_len = length (lit name2)) by (unfold len_of in *; lia).
  apply strncasecmp_eq_words in K1; [|lia|exact N1].
  apply strncasecmp_eq_words in K2; [|lia|exact N2].
  rewrite K1 in K2. rewrite A1 in K2 at 1. rewrite A2 in K2.
  now rewrite !firstn_all in K2.
Qed.

(** A key that matches one word of the vocabulary does not match another. *)
Lemma key_is_other (key : cstr) (key_len n1 n2 : Z) (name1 name2 : string) :
  key_is key key_len n1 name1 = true ->
  word_ok n1 name1 = true -> word_ok n2 name2 = true ->
  lower name1 <> lower name2 ->
  key_is key key_len n2 name2 = false.
Proof.
  intros K1 W1 W2 Hd. destruct (key_is key key_len n2 name2) eqn:K2; [|reflexivity].
  exfalso. apply Hd. eapply key_is_same_word; eassumption.
Qed.

(** In a goal that mentions the tests of the dispatcher, replace every test
    against a word other than the one that [H] establishes by [false]. *)
Ltac other_keys H :=
  repeat match goal with
         | |- context [key_is ?key ?kl ?n ?name] =>
             rewrite (key_is_other key kl _ n _ name H)
               by first [reflexivity | (vm_compute; discriminate)]
         end.

(** ** Field dispatcher *)

Section Dispatcher.
Context {C : Collaborators}.

(** Case analysis on the chain of tests of the dispatcher, in a hypothesis
    [H] that gives its result. *)
Ltac dispatcher_leaves H :=
  unfold gpspoint_process_key_and_value in H; cbn [not_null deref andb] in H;
  repeat match type of H with
         | (if ?b then _ else _) = _ => destruct b eqn:?
         end;
  unfold store_first, store_last in H;
  repeat match type of H with
         | match ?x with _ => _ end = _ => destruct x eqn:?
         end;
  try discriminate H; injection H as H; subst.

(** With a [NULL] value only the key [type] has an effect. *)
Lemma dispatch_null (key : cstr) (key_len value_len : Z) (st : LineState) :
  gpspoint_process_key_and_value key key_len None value_len st
  = Some (if key_is key key_len 4 "type"
          then set_i line_type GPSPOINT_TYPE_NONE st else st).
Proof.
  unfold gpspoint_process_key_and_value. cbn [not_null deref parse_type].
  rewrite !andb_false_r. cbn [andb].
  destruct (key_is key key_len 4 "type"); reflexivity.
Qed.

Lemma dispatch_newsegment (key : cstr) (key_len value_len : Z) (v : cstr) (st : LineState) :
  key_is key key_len 10 "newsegment" = true ->
  gpspoint_process_key_and_value key key_len (Some v) value_len st
  = Some (set_b line_newsegment true st).
Proof.
  intros K. unfold gpspoint_process_key_and_value. other_keys K. rewrite K. reflexivity.
Qed.

Lemma dispatch_extended (key : cstr) (key_len value_len : Z) (v : cstr) (st : LineState) :
  key_is key key_len 8 "extended" = true ->
  gpspoint_process_key_and_value key key_len (Some v) value_len st
  = Some (set_b line_extended true st).
Proof.
  intros K. unfold gpspoint_process_key_and_value. other_keys K. rewrite K. reflexivity.
Qed.

(** The flag [line_newsegment] after the dispatcher: raised by the key
    [newsegment] with a value that is not [NULL], whatever the value holds,
    and left as it was by everything else. *)
Lemma dispatch_newsegment_flag (key : cstr) (key_len value_len : Z) (value : gstr)
      (st st' : LineState) :
  gpspoint_process_key_and_value key key_len value value_len st = Some st' ->
  flags st' line_newsegment
  = flags st line_newsegment || (not_null value && key_is key key_len 10 "newsegment").
Proof.
  intros H. destruct (key_is key key_len 10 "newsegment") eqn:K.
  - destruct value as [v|].
    + rewrite (dispatch_newsegment key key_len value_len v st K) in H.
      injection H as <-. cbn. now rewrite orb_true_r.
    + rewrite dispatch_null in H. injection H as <-.
      destruct (key_is key key_len 4 "type"); cbn; now rewrite orb_false_r.
  - rewrite andb_false_r, orb_false_r.
    unfold gpspoint_process_key_and_value in H. rewrite K in H.
    dispatcher_leaves H; reflexivity.
Qed.

Lemma dispatch_extended_flag (key : cstr) (key_len value_len : Z) (value : gstr)
      (st st' : LineState) :
  gpspoint_process_key_and_value key key_len value value_len st = Some st' ->
  flags st' line_extended
  = flags st line_extended || (not_null value && key_is key key_len 8 "extended").
Proof.
  intros H. destruct (key_is key key_len 8 "extended") eqn:K.
  - destruct value as [v|].
    + rewrite (dispatch_extended key key_len value_len v st K) in H.
      injection H as <-. cbn. now rewrite orb_true_r.
    + rewrite dispatch_null in H. injection H as <-.
      destruct (key_is key key_len 4 "type"); cbn; now rewrite orb_false_r.
  - rewrite andb_false_r, orb_false_r.
    unfold gpspoint_process_key_and_value in H. rewrite K in H.
    dispatcher_leaves H; reflexivity.
Qed.

Lemma tag_newsegment_flag (tag : cstr) (len : Z) (st st' : LineState) :
  gpspoint_process_tag tag len st = Some st' ->
  flags st' line_newsegment
  = flags st line_newsegment || carries 10 "newsegment" (tag, len).
Proof.
  rewrite process_tag_split. unfold carries. cbn [fst snd].
  destruct (tag_split tag len) as [[[kl v] vl]|].
  - intros H. rewrite (dispatch_newsegment_flag _ _ _ _ _ _ H). now destruct v.
  - intros [= <-]. now rewrite orb_false_r.
Qed.

Lemma tag_extended_flag (tag : cstr) (len : Z) (st st' : LineState) :
  gpspoint_process_tag tag len st = Some st' ->
  flags st' line_extended
  = flags st line_extended || carries 8 "extended" (tag, len).
Proof.
  rewrite process_tag_split. unfold carries. cbn [fst snd].
  destruct (tag_split tag len) as [[[kl v] vl]|].
  - intros H. rewrite (dispatch_extended_flag _ _ _ _ _ _ H). now destruct v.
  - intros [= <-]. now rewrite orb_false_r.
Qed.

Lemma tags_newsegment_flag : forall (tags : list (cstr * Z)) (st st' : LineState),
  dispatch_tags tags st = Some st' ->
  flags st' line_newsegment
  = flags st line_newsegment || existsb (carries 10 "newsegment") tags.
Proof.
  induction tags as [|[tag len] tags IH]; intros st st' H; cbn [dispatch_tags existsb] in *.
  - injection H as <-. now rewrite orb_false_r.
  - destruct (gpspoint_process_tag tag len st) as [st1|] eqn:H1; [|discriminate].
    rewrite (IH _ _ H), (tag_newsegment_flag _ _ _ _ H1). now rewrite orb_assoc.
Qed.

Lemma tags_extended_flag : forall (tags : list (cstr * Z)) (st st' : LineState),
  dispatch_tags tags st = Some st' ->
  flags st' line_extended
  = flags st line_extended || existsb (carries 8 "extended") tags.
Proof.
  induction tags as [|[tag len] tags IH]; intros st st' H; cbn [dispatch_tags existsb] in *.
  - injection H as <-. now rewrite orb_false_r.
  - destruct (gpspoint_process_tag tag len st) as [st1|] eqn:H1; [|discriminate].
    rewrite (IH _ _ H), (tag_extended_flag _ _ _ _ H1). now rewrite orb_assoc.
Qed.

End Dispatcher.

(** ** Properties of the field dispatcher *)

Section DispatcherClaims.
Context {C : Collaborators}.

(** C10: for every line, the flags [line_newsegment] and [line_extended]
    are true after the tags of the line exactly when they were true before
    or the line holds a tag that reaches the dispatcher with that key and a
    value that is not parsed as absent; the content of the value plays no
    part.  Lines are those that fit the line buffer. *)
Theorem flag_keys_ignore_value (line_buffer : cstr) (st : LineState) :
  len_of line_buffer <= 65534 ->
  exists st',
    process_line_tags line_buffer st = Some st'
    /\ flags st' line_newsegment
       = flags st line_newsegment
         || existsb (carries 10 "newsegment") (tags_of_line line_buffer)
    /\ flags st' line_extended
       = flags st line_extended
         || existsb (carries 8 "extended") (tags_of_line line_buffer).
Proof.
  intros Hlen.
  destruct (process_line_tags_defined line_buffer st Hlen) as [st' H].
  exists st'. split; [exact H|].
  rewrite process_line_tags_dispatch in H.
  split; [now apply tags_newsegment_flag|now apply tags_extended_flag].
Qed.

Lemma find_key_end_first (tag : cstr) (len ke : Z) :
  ke < len -> str_at tag ke = EQS ->
  forall (fuel : nat) (k : Z),
  1 <= k <= ke -> (Z.to_nat (ke - k) < fuel)%nat ->
  (forall i, k <= i < ke -> str_at tag i <> EQS) ->
  find_key_end fuel tag len k = ke.
Proof.
  intros Hlen Heq. induction fuel as [|fuel IH]; intros k Hk Hf Hno; [lia|].
  cbn [find_key_end].
  assert (Hlt : (k <? len) = true) by (apply Z.ltb_lt; lia). rewrite Hlt.
  destruct (Z.eq_dec k ke) as [->|Hne].
  - rewrite Heq. now rewrite Ascii.eqb_refl.
  - destruct (Ascii.eqb (str_at tag k) EQS) eqn:E.
    + apply Ascii.eqb_eq in E. exfalso. apply (Hno k); [lia|exact E].
    + apply IH; [lia|lia|]. intros i Hi. apply Hno. lia.
Qed.

Lemma is_key_no_equal (key : cstr) :
  is_key key = true -> forall i, 1 <= i < len_of key -> str_at key i <> EQS.
Proof.
  destruct key as [|c k]; [discriminate|]. cbn [is_key]. intros H i Hi Habs.
  apply negb_true_iff in H.
  assert (Hin : In (str_at (c :: k) i) k).
  { unfold str_at. replace (Z.to_nat i) with (S (Z.to_nat (i - 1))) by lia. cbn [nth].
    apply nth_In. rewrite len_of_cons in Hi. unfold len_of in Hi. lia. }
  rewrite Habs in Hin.
  assert (Hex : existsb (Ascii.eqb EQS) k = true).
  { apply existsb_exists. exists EQS. split; [exact Hin|apply Ascii.eqb_refl]. }
  congruence.
Qed.

(** The search for the equal sign stops at the end of the key. *)
Lemma key_end_of_tag (key rest : cstr) (len : Z) :
  is_key key = true -> len_of key < len ->
  find_key_end (Z.to_nat len) (key ++ EQS :: rest) len 1 = len_of key.
Proof.
  intros Hk Hlen.
  assert (Hpos : 1 <= len_of key).
  { destruct key; [discriminate|]. rewrite len_of_cons. pose proof (len_of_nonneg key). lia. }
  apply find_key_end_first; try lia.
  - now rewrite str_at_here.
  - intros i Hi. rewrite str_at_app_l by lia. apply is_key_no_equal; [exact Hk|lia].
Qed.

(** C5 (amended): for every tag of the form [key=""] the dispatcher is
    called with a [NULL] value; the line variables are left exactly as if
    the tag were absent, except for the key [type], which sets the record
    type to none. *)
Theorem empty_quoted_value_is_absent (key rest : cstr) (st : LineState) :
  is_key key = true ->
  len_of key + 3 < 4294967296 ->
  gpspoint_process_tag (key ++ EQS :: DQ :: DQ :: rest) (len_of key + 3) st
  = Some (if key_is (key ++ EQS :: DQ :: DQ :: rest) (len_of key) 4 "type"
          then set_i line_type GPSPOINT_TYPE_NONE st else st).
Proof.
  intros Hk Hmax. pose proof (len_of_nonneg key) as Hn.
  unfold gpspoint_process_tag.
  rewrite (key_end_of_tag key (DQ :: DQ :: rest) (len_of key + 3) Hk) by lia.
  destruct (len_of key =? len_of key + 3) eqn:E1; [apply Z.eqb_eq in E1; lia|].
  destruct (len_of key =? u32 (len_of key + 3 + 1)) eqn:E2.
  { apply Z.eqb_eq in E2. unfold u32 in E2. Z.div_mod_to_equations. lia. }
  rewrite (str_at_app_r key _ 1) by lia.
  replace (len_of key + 1 + 1) with (len_of key + 2) by lia.
  rewrite (str_at_app_r key _ 2) by lia.
  change (str_at (EQS :: DQ :: DQ :: rest) 1) with DQ.
  change (str_at (EQS :: DQ :: DQ :: rest) 2) with DQ.
  rewrite Ascii.eqb_refl. rewrite (u32_small (len_of key)) by lia.
  apply dispatch_null.
Qed.

End DispatcherClaims.

Lemma flag_keys_ignore_value_witness :
  exists st',
    process_line_tags Files.flags_line (static_line (C := Plain.collaborators)) = Some st'
    /\ flags st' line_newsegment = true /\ flags st' line_extended = true.
Proof.
  destruct (flag_keys_ignore_value (C := Plain.collaborators) Files.flags_line static_line)
    as (st' & H & Hn & He); [vm_compute; discriminate|].
  exists st'. split; [exact H|]. rewrite Hn, He. split; vm_compute; reflexivity.
Defined.

(** C5, as stated, fails: after the tag [name=""] the name is absent, as it
    was before, and not an empty string. *)
Lemma empty_quoted_name_stays_null :
  option_map (fun st => strs st line_name)
    (gpspoint_process_tag (Files.quoted "name" "") 7
       (static_line (C := Plain.collaborators)))
  = Some None
  /\ option_map (fun st => strs st line_name)
       (gpspoint_process_tag (Files.quoted "name" "") 7
          (static_line (C := Plain.collaborators)))
     <> Some (Some []).
Proof. split; [vm_compute; reflexivity|vm_compute; discriminate]. Qed.

Lemma empty_quoted_value_is_absent_witness :
  gpspoint_process_tag (lit "comment" ++ EQS :: DQ :: DQ :: lit " name=x") 10
    (static_line (C := Plain.collaborators))
  = Some static_line.
Proof.
  apply (empty_quoted_value_is_absent (C := Plain.collaborators)
           (lit "comment") (lit " name=x") static_line);
    [reflexivity | vm_compute; reflexivity].
Defined.

(** C6: the code at the failing input.  The tag [visible=], with nothing
    after the equal sign, is not discarded: the dispatcher receives a value
    of length zero that is not [NULL], and the waypoint is stored as not
    visible. *)
Theorem truncated_visible_is_stored :
  option_map (fun st => flags st line_visible)
    (gpspoint_process_tag (lit "visible=") 8 (static_line (C := Plain.collaborators)))
  = Some false
  /\ option_map (fun r => map (fun wp => (wp_name wp, wp_visible wp)) (waypoints (layer r)))
       (Plain.read Files.truncated_visible)
     = Some [(Some (lit "A"), false)].
Proof. split; vm_compute; reflexivity. Qed.

(** ** Repeated keys *)

Section RepeatedKeys.
Context {C : Collaborators}.

Ltac dispatcher_leaves H :=
  unfold gpspoint_process_key_and_value in H; cbn [not_null deref andb] in H;
  repeat match type of H with
         | (if ?b then _ else _) = _ => destruct b eqn:?
         end;
  unfold store_first, store_last in H;
  repeat match type of H with
         | match ?x with _ => _ end = _ => destruct x eqn:?
         end;
  try discriminate H; injection H as H; subst.

Ltac select_key K :=
  unfold gpspoint_process_key_and_value; other_keys K; rewrite K;
  cbn [not_null deref andb]; try reflexivity.

Lemma dispatch_first_wins (n : Z) (name : string) (v : svar) (key : cstr)
      (key_len value_len : Z) (value : cstr) (st : LineState) :
  In (n, name, v) first_wins ->
  key_is key key_len n name = true ->
  gpspoint_process_key_and_value key key_len (Some value) value_len st
  = match strs st v with
    | Some _ => Some st
    | None => option_map (fun r => set_s v r st) (deslashndup value value_len)
    end.
Proof.
  intros Hin K. cbn [first_wins In] in Hin.
  repeat (destruct Hin as [Hin|Hin]; [injection Hin as <- <- <-|]); [..|contradiction];
    select_key K; unfold store_first;
    match goal with |- context [strs st ?x] => destruct (strs st x) end; try reflexivity;
    destruct (deslashndup value value_len); reflexivity.
Qed.

Lemma dispatch_last_wins (n : Z) (name : string) (v : svar) (key : cstr)
      (key_len value_len : Z) (value : cstr) (st : LineState) :
  In (n, name, v) last_wins ->
  key_is key key_len n name = true ->
  gpspoint_process_key_and_value key key_len (Some value) value_len st
  = option_map (fun r => set_s v r st) (deslashndup value value_len).
Proof.
  intros Hin K. cbn [last_wins In] in Hin.
  repeat (destruct Hin as [Hin|Hin]; [injection Hin as <- <- <-|]); [..|contradiction];
    select_key K; unfold store_last; destruct (deslashndup value value_len); reflexivity.
Qed.

Lemma dispatch_symbol (key : cstr) (key_len value_len : Z) (value : cstr) (st : LineState) :
  key_is key key_len 6 "symbol" = true ->
  gpspoint_process_key_and_value key key_len (Some value) value_len st
  = Some (set_s line_symbol (Some (g_strndup value value_len)) st).
Proof. intros K. select_key K. Qed.

Lemma dispatch_double (n : Z) (name : string) (v : dvar) (key : cstr)
      (key_len value_len : Z) (value : cstr) (st : LineState) :
  In (n, name, v) double_keys ->
  key_is key key_len n name = true ->
  gpspoint_process_key_and_value key key_len (Some value) value_len st
  = Some (set_d v (g_ascii_strtod value) st).
Proof.
  intros Hin K. cbn [double_keys In] in Hin.
  repeat (destruct Hin as [Hin|Hin]; [injection Hin as <- <- <-|]); [..|contradiction];
    select_key K.
Qed.

Lemma dispatch_int (n : Z) (name : string) (v : ivar) (u : bool) (key : cstr)
      (key_len value_len : Z) (value : cstr) (st : LineState) :
  In (n, name, v, u) int_keys ->
  key_is key key_len n name = true ->
  gpspoint_process_key_and_value key key_len (Some value) value_len st
  = Some (set_i v (if u then u32 (atoi value) else atoi value) st).
Proof.
  intros Hin K. cbn [int_keys In] in Hin.
  repeat (destruct Hin as [Hin|Hin]; [injection Hin as <- <- <- <-|]); [..|contradiction];
    select_key K.
Qed.

(** A string variable that keeps its first value is not changed by the
    dispatcher once it is set. *)
Lemma dispatch_keeps_first (v : svar) (x : cstr) (key : cstr) (key_len value_len : Z)
      (value : gstr) (st st' : LineState) :
  In v (map snd first_wins) ->
  strs st v = Some x ->
  gpspoint_process_key_and_value key key_len value value_len st = Some st' ->
  strs st' v = Some x.
Proof.
  intros Hin Hx H. cbn [first_wins map snd In] in Hin.
  repeat (destruct Hin as [Hin|Hin]; [subst v|]); [..|contradiction];
    dispatcher_leaves H; cbn; congruence.
Qed.

Lemma tags_keep_first (v : svar) (x : cstr) :
  In v (map snd first_wins) ->
  forall (tags : list (cstr * Z)) (st st' : LineState),
  strs st v = Some x -> dispatch_tags tags st = Some st' -> strs st' v = Some x.
Proof.
  intros Hin. induction tags as [|[tag len] tags IH]; intros st st' Hx H;
    cbn [dispatch_tags] in H.
  - now injection H as <-.
  - destruct (gpspoint_process_tag tag len st) as [st1|] eqn:H1; [|discriminate].
    apply (IH st1 st'); [|exact H].
    rewrite process_tag_split in H1.
    destruct (tag_split tag len) as [[[kl val] vl]|].
    + eapply dispatch_keeps_first; eassumption.
    + now injection H1 as <-.
Qed.

(** A span of at least one byte is never unescaped to [NULL]. *)
Lemma deslashndup_not_null (value : cstr) (value_len : Z) (r : gstr) :
  1 <= value_len <= 65535 -> deslashndup value value_len = Some r -> r <> None.
Proof.
  intros Hl. unfold deslashndup. rewrite (u16_small value_len) by lia.
  destruct (value_len <? 1) eqn:E; [apply Z.ltb_lt in E; lia|].
  destruct (bs_scan _ _ _ _ _) as [[i bs_count]|]; [|discriminate].
  destruct (deslash_copy _ _ _ _ _ _ _) as [rv j].
  destruct (j =? _); [|discriminate]. intros [= <-]. discriminate.
Qed.

(** A tag [key=""] is split into its key and a [NULL] value. *)
Lemma tag_split_empty_quoted (key rest : cstr) :
  is_key key = true -> len_of key + 3 < 4294967296 ->
  tag_split (key ++ EQS :: DQ :: DQ :: rest) (len_of key + 3)
  = Some (len_of key, None, 0).
Proof.
  intros Hk Hmax. pose proof (len_of_nonneg key) as Hn.
  unfold tag_split.
  rewrite (key_end_of_tag key (DQ :: DQ :: rest) (len_of key + 3) Hk) by lia.
  destruct (len_of key =? len_of key + 3) eqn:E1; [apply Z.eqb_eq in E1; lia|].
  destruct (len_of key =? u32 (len_of key + 3 + 1)) eqn:E2.
  { apply Z.eqb_eq in E2. unfold u32 in E2. Z.div_mod_to_equations. lia. }
  rewrite (str_at_app_r key _ 1) by lia.
  replace (len_of key + 1 + 1) with (len_of key + 2) by lia.
  rewrite (str_at_app_r key _ 2) by lia.
  change (str_at (EQS :: DQ :: DQ :: rest) 1) with DQ.
  change (str_at (EQS :: DQ :: DQ :: rest) 2) with DQ.
  rewrite Ascii.eqb_refl. rewrite (u32_small (len_of key)) by lia.
  reflexivity.
Qed.

(** A key that matches one of the stored keys does not match [type]. *)
Lemma stored_key_not_type (n : Z) (name : string) (key : cstr) (key_len : Z) :
  In (n, name) stored_keys -> key_is key key_len n name = true ->
  key_is key key_len 4 "type" = false.
Proof.
  intros Hin K. unfold stored_keys in Hin.
  cbn [first_wins last_wins double_keys int_keys map fst app In] in Hin.
  repeat (destruct Hin as [Hin|Hin];
          [injection Hin as <- <-;
           apply (key_is_other key key_len _ 4 _ "type" K);
           [reflexivity|reflexivity|vm_compute; discriminate]|]).
  contradiction.
Qed.

(** With a [NULL] value the dispatcher stores nothing for a stored key. *)
Lemma dispatch_null_stored (n : Z) (name : string) (key : cstr) (key_len value_len : Z)
      (st : LineState) :
  In (n, name) stored_keys -> key_is key key_len n name = true ->
  gpspoint_process_key_and_value key key_len None value_len st = Some st.
Proof.
  intros Hin K. rewrite dispatch_null.
  now rewrite (stored_key_not_type n name key key_len Hin K).
Qed.

(** The tag [key=""] of a stored key changes no line variable. *)
Lemma empty_quoted_stored_key (n : Z) (name : string) (k rest : cstr) (st : LineState) :
  In (n, name) stored_keys -> is_key k = true -> len_of k + 3 < 4294967296 ->
  key_is (k ++ EQS :: DQ :: DQ :: rest) (len_of k) n name = true ->
  gpspoint_process_tag (k ++ EQS :: DQ :: DQ :: rest) (len_of k + 3) st = Some st.
Proof.
  intros Hin Hk Hmax K.
  rewrite process_tag_split, (tag_split_empty_quoted k rest Hk Hmax).
  now apply (dispatch_null_stored n name).
Qed.


End RepeatedKeys.



(** ** Record assembler *)

Section AssemblerClaims.
Context {C : Collaborators} {E : EntityOps}.

(** The reset that closes the loop body gives every line variable except
    [line_latlon] its initial value. *)
Lemma reset_line_values (ls : LineState) :
  (forall v, ints (reset_line ls) v = 0)
  /\ (forall v, strs (reset_line ls) v = None)
  /\ (forall v, flags (reset_line ls) v = match v with line_visible => true | _ => false end)
  /\ (forall v, dbls (reset_line ls) v
                = match v with
                  | line_latlon_lat | line_latlon_lon => dbls ls v
                  | _ => NAN
                  end).
Proof. repeat split; intros []; reflexivity. Qed.

Lemma assemble_dropped (dirpath : gstr) (ls : LineState) (r : Reader) :
  dropped ls r -> assemble dirpath (with_line ls r) = with_line ls r.
Proof.
  unfold dropped, named_type, point_type.
  intros [[Ht Hn]|[Ht Hc]].
  - assert (Hcases : ints ls line_type = GPSPOINT_TYPE_WAYPOINT
                     \/ ints ls line_type = GPSPOINT_TYPE_TRACK
                     \/ ints ls line_type = GPSPOINT_TYPE_ROUTE).
    { apply orb_true_iff in Ht. destruct Ht as [Ht|Ht];
        [apply orb_true_iff in Ht; destruct Ht as [Ht|Ht]|];
        apply Z.eqb_eq in Ht; auto. }
    destruct Hcases as [H|[H|H]];
      (assert (Hend : is_end_type (ints ls line_type) = false) by (rewrite H; reflexivity));
      unfold assemble; cbn [line with_line]; rewrite Hend; cbv zeta;
      cbn [line with_line current_track]; rewrite !H, Hn; reflexivity.
  - assert (Hcases : ints ls line_type = GPSPOINT_TYPE_TRACKPOINT
                     \/ ints ls line_type = GPSPOINT_TYPE_ROUTEPOINT).
    { apply orb_true_iff in Ht. destruct Ht as [Ht|Ht]; apply Z.eqb_eq in Ht; auto. }
    destruct Hcases as [H|H];
      (assert (Hend : is_end_type (ints ls line_type) = false) by (rewrite H; reflexivity));
      unfold assemble; cbn [line with_line]; rewrite Hend; cbv zeta;
      cbn [line with_line current_track]; rewrite !H, Hc; reflexivity.
Qed.

(** X17.  For every line (that fits the line buffer) the tags are processed,
    and when the line variables they leave describe a waypoint, a track or
    a route without a name, or a trackpoint or routepoint while
    [current_track] is [NULL], the line leaves the layer, [current_track]
    and the result flag as they were, creates nothing, and only resets the
    line variables; the loop of the reader then goes on with the next
    line. *)
Theorem nameless_or_orphan_dropped (dirpath : gstr) (line_buffer : cstr) (r : Reader) :
  len_of line_buffer <= 65534 ->
  exists ls,
    process_line_tags line_buffer (line r) = Some ls
    /\ (dropped ls r ->
        process_line dirpath line_buffer r = Some (with_line (reset_line ls) r)
        /\ layer (with_line (reset_line ls) r) = layer r
        /\ current_track (with_line (reset_line ls) r) = current_track r
        /\ have_read_something (with_line (reset_line ls) r) = have_read_something r
        /\ forall (fuel : nat) (f f' buf : list ascii),
             fgets f = Some (buf, f') ->
             c_str buf <> [] ->
             removelast (c_str buf) = line_buffer ->
             is_end_layer_data line_buffer = false ->
             read_lines (S fuel) dirpath f r
             = read_lines fuel dirpath f' (with_line (reset_line ls) r)).
Proof.
  intros Hlen.
  destruct (process_line_tags_defined line_buffer (line r) Hlen) as [ls Hls].
  exists ls. split; [exact Hls|]. intros Hd.
  assert (Hline : process_line dirpath line_buffer r = Some (with_line (reset_line ls) r)).
  { unfold process_line. rewrite Hls. now rewrite (assemble_dropped dirpath ls r Hd). }
  repeat split; try exact Hline.
  intros fuel f f' buf Hget Hne Hbuf Hend. cbn [read_lines]. rewrite Hget.
  destruct (c_str buf) as [|c s] eqn:Hs; [congruence|].
  rewrite Hbuf, Hend, Hline. reflexivity.
Qed.

End AssemblerClaims.

Lemma nameless_or_orphan_dropped_witness :
  let line_buffer :=
    removelast (Files.text_line [Files.quoted "type" "trackpoint";
                                 Files.quoted "latitude" "3"; Files.quoted "longitude" "4"]) in
  exists ls,
    process_line_tags line_buffer (line Plain.start) = Some ls
    /\ process_line (E := Plain.entities) None line_buffer Plain.start
       = Some (with_line (reset_line ls) Plain.start).
Proof.
  intros line_buffer.
  destruct (nameless_or_orphan_dropped (C := Plain.collaborators) (E := Plain.entities)
              None line_buffer Plain.start ltac:(vm_compute; discriminate))
    as (ls & Hls & H).
  exists ls. split; [exact Hls|].
  assert (Ht : option_map (fun st => ints st line_type)
                 (process_line_tags line_buffer (line Plain.start))
               = Some GPSPOINT_TYPE_TRACKPOINT) by (vm_compute; reflexivity).
  rewrite Hls in Ht. cbn [option_map] in Ht. injection Ht as Ht.
  apply H. right. unfold point_type. rewrite Ht. split; reflexivity.
Defined.

(** On a file: the waypoint without a name and the trackpoint read before
    any track leave nothing, and the waypoint that follows them is read. *)
Example dropped_records_read :
  option_map
    (fun r => (map wp_name (waypoints (layer r)),
               length (tracks (layer r)), length (routes (layer r))))
    (Plain.read Files.dropped_records)
  = Some ([Some (lit "W")], O, O).
Proof. vm_compute. reflexivity. Qed.

(** C3: the code at the failing input.  The reset after a line leaves
    [line_latlon] as it is, so that the waypoint B, whose line has no
    position, is stored at the position read on the line of A. *)
Theorem position_leaks_to_next_line :
  option_map (fun r => map (fun wp => (wp_name wp, wp_coord wp)) (waypoints (layer r)))
    (Plain.read Files.stale_position)
  = Some [(Some (lit "A"), {| lat := Some 48; lon := Some 2 |});
          (Some (lit "B"), {| lat := Some 48; lon := Some 2 |})].
Proof. vm_compute. reflexivity. Qed.

(** C4: the code at the failing input.  [trackpoints_end] clears
    [current_track] only when the track has points: after the end of the
    empty track T the trackpoint of the next line is appended to T, whereas
    after the end of a track with a point it is dropped. *)
Theorem point_joins_ended_empty_track :
  option_map
    (fun r => map (fun trk => (trk_name trk, map tp_coord (trk_trackpoints trk)))
                (tracks (layer r)))
    (Plain.read Files.point_after_end)
  = Some [(Some (lit "T"), [{| lat := Some 1; lon := Some 2 |}])]
  /\ option_map
       (fun r => map (fun trk => (trk_name trk, map tp_coord (trk_trackpoints trk)))
                   (tracks (layer r)))
       (Plain.read Files.point_after_full_end)
     = Some [(Some (lit "T"), [{| lat := Some 5; lon := Some 6 |}])].
Proof. split; vm_compute; reflexivity. Qed.

(** C7: the code at the failing input.  The route R is closed by its end
    line before it received a point.  [trackpoints_end] clears
    [current_track] only for a track that has points, so that after the two
    lines the pointer still names R, and the routepoint of the third line,
    which comes after the end record of the only route, is not discarded:
    it becomes the first point of R. *)
Theorem point_after_end_record_is_appended :
  option_map current_track (Plain.read Files.route_ended) = Some (Some (true, O))
  /\ option_map
       (fun r => map (fun trk => (trk_name trk, map tp_coord (trk_trackpoints trk)))
                   (routes (layer r)))
       (Plain.read Files.routepoint_after_end)
     = Some [(Some (lit "R"), [{| lat := Some 1; lon := Some 2 |}])].
Proof. split; vm_compute; reflexivity. Qed.

(** ** Writer *)

Lemma starts_with_tag : forall (tag tag' : string) (rest : cstr),
  forallb (fun c => negb (Ascii.eqb c EQS)) (lit tag) = true ->
  forallb (fun c => negb (Ascii.eqb c EQS)) (lit tag') = true ->
  starts_with (lit tag ++ [EQS]) (lit tag' ++ EQS :: rest) = String.eqb tag tag'.
Proof.
  induction tag as [|a tag IH]; intros [|b tag'] rest H1 H2;
    cbn [lit list_ascii_of_string app starts_with String.eqb forallb] in *.
  - now rewrite Ascii.eqb_refl.
  - apply andb_true_iff in H2. destruct H2 as [Hb _]. apply negb_true_iff in Hb.
    rewrite Ascii.eqb_sym. now rewrite Hb.
  - apply andb_true_iff in H1. destruct H1 as [Ha _]. apply negb_true_iff in Ha.
    now rewrite Ha.
  - apply andb_true_iff in H1, H2. destruct H1 as [_ H1], H2 as [_ H2].
    fold (lit tag) in *. fold (lit tag') in *.
    rewrite (IH tag' rest H1 H2). reflexivity.
Qed.

Lemma emits_app (tag : string) (a b : list cstr) :
  emits tag (a ++ b) = emits tag a || emits tag b.
Proof. apply existsb_app. Qed.

Lemma emits_field (tag tag' : string) (value : cstr) :
  forallb (fun c => negb (Ascii.eqb c EQS)) (lit tag) = true ->
  forallb (fun c => negb (Ascii.eqb c EQS)) (lit tag') = true ->
  emits tag [field tag' value] = String.eqb tag tag'.
Proof.
  intros H1 H2. unfold emits, field. cbn [existsb starts_with app].
  rewrite Ascii.eqb_refl, orb_false_r. cbn [andb].
  now apply starts_with_tag.
Qed.

Section WriterClaims.
Context {C : Collaborators}.

Lemma emits_write_double (tag tag' : string) (value : gdouble) :
  forallb (fun c => negb (Ascii.eqb c EQS)) (lit tag) = true ->
  forallb (fun c => negb (Ascii.eqb c EQS)) (lit tag') = true ->
  emits tag (write_double tag' value) = String.eqb tag tag' && negb (isnan value).
Proof.
  intros H1 H2. unfold write_double. destruct (isnan value); cbn [negb].
  - now rewrite andb_false_r.
  - rewrite emits_field by assumption. now rewrite andb_true_r.
Qed.

Lemma emits_write_positive_uint (tag tag' : string) (value : Z) :
  forallb (fun c => negb (Ascii.eqb c EQS)) (lit tag) = true ->
  forallb (fun c => negb (Ascii.eqb c EQS)) (lit tag') = true ->
  emits tag (write_positive_uint tag' value) = String.eqb tag tag' && negb (value =? 0).
Proof.
  intros H1 H2. unfold write_positive_uint. destruct (value =? 0); cbn [negb].
  - now rewrite andb_false_r.
  - rewrite emits_field by assumption. now rewrite andb_true_r.
Qed.

Lemma emits_write_string (tag tag' : string) (value : gstr) :
  forallb (fun c => negb (Ascii.eqb c EQS)) (lit tag) = true ->
  forallb (fun c => negb (Ascii.eqb c EQS)) (lit tag') = true ->
  emits tag (write_string tag' value) = String.eqb tag tag' && present value.
Proof.
  intros H1 H2. unfold write_string, present. destruct value as [v|].
  - destruct (strlen v =? 0); cbn [negb].
    + now rewrite andb_false_r.
    + rewrite emits_field by assumption. now rewrite andb_true_r.
  - now rewrite andb_false_r.
Qed.

(** Rewriting of [emits] over the pieces of a written line. *)
Ltac emits_pieces :=
  repeat rewrite emits_app;
  repeat first
    [ rewrite emits_write_double by reflexivity
    | rewrite emits_write_positive_uint by reflexivity
    | rewrite emits_write_string by reflexivity
    | rewrite emits_field by reflexivity ].

Lemma emits_waypoint (tag : string) (wp : VikWaypoint) (dirpath : gstr) (name : cstr) :
  forallb (fun c => negb (Ascii.eqb c EQS)) (lit tag) = true ->
  wp_name wp = Some name ->
  emits tag (a_gpspoint_write_waypoint wp dirpath)
  = (String.eqb tag "altitude" && negb (isnan (wp_altitude wp)))
    || (String.eqb tag "unixtime" && negb (isnan (wp_timestamp wp)))
    || (String.eqb tag "speed" && negb (isnan (wp_speed wp)))
    || (String.eqb tag "course" && negb (isnan (wp_course wp)))
    || (String.eqb tag "magvar" && negb (isnan (wp_magvar wp)))
    || (String.eqb tag "geoidheight" && negb (isnan (wp_geoidheight wp)))
    || (String.eqb tag "comment" && present (wp_comment wp))
    || (String.eqb tag "description" && present (wp_description wp))
    || (String.eqb tag "source" && present (wp_source wp))
    || (String.eqb tag "url" && present (wp_url wp))
    || (String.eqb tag "url_name" && present (wp_url_name wp))
    || (String.eqb tag "xtype" && present (wp_type wp))
    || (String.eqb tag "fix" && negb (wp_fix_mode wp =? 0))
    || (String.eqb tag "sat" && negb (wp_nsats wp =? 0))
    || (String.eqb tag "hdop" && negb (isnan (wp_hdop wp)))
    || (String.eqb tag "vdop" && negb (isnan (wp_vdop wp)))
    || (String.eqb tag "pdop" && negb (isnan (wp_pdop wp)))
    || (String.eqb tag "ageofdgpsdata" && negb (isnan (wp_ageofdgpsdata wp)))
    || (String.eqb tag "dgpsid" && negb (wp_dgpsid wp =? 0))
    || (String.eqb tag "image" && not_null (wp_image wp))
    || ((String.eqb tag "image_direction" || String.eqb tag "image_direction_ref")
        && negb (isnan (wp_image_direction wp)))
    || (String.eqb tag "symbol" && not_null (wp_symbol wp))
    || (String.eqb tag "visible" && negb (wp_visible wp)).
Proof.
  intros Htag Hname. unfold a_gpspoint_write_waypoint. rewrite Hname.
  repeat rewrite emits_app.
  repeat first
    [ rewrite emits_write_double by first [exact Htag | reflexivity]
    | rewrite emits_write_positive_uint by first [exact Htag | reflexivity]
    | rewrite emits_write_string by first [exact Htag | reflexivity] ].
  assert (Hhead : forall s, emits tag [lit "type=" ++ s] = false) by reflexivity.
  rewrite Hhead. change (emits tag [[LF]]) with false.
  destruct (wp_image wp) as [image|]; destruct (isnan (wp_image_direction wp));
    destruct (wp_symbol wp) as [symbol|]; destruct (wp_visible wp);
    cbn [negb not_null];
    repeat match goal with
           | |- context [emits tag [field ?t ?v]] =>
               rewrite (emits_field tag t v) by first [exact Htag | reflexivity]
           | |- context [emits tag [field ?t ?v; field ?t' ?v']] =>
               change [field t v; field t' v'] with ([field t v] ++ [field t' v']);
               rewrite emits_app
           end;
    change (emits tag []) with false;
    rewrite ?andb_false_r, ?andb_true_r, ?orb_false_r; cbn [orb];
    repeat rewrite orb_assoc; rewrite ?orb_false_r; reflexivity.
Qed.

Lemma emits_trackpoint (tag : string) (tp : VikTrackpoint) (is_route : bool) :
  forallb (fun c => negb (Ascii.eqb c EQS)) (lit tag) = true ->
  emits tag (a_gpspoint_write_trackpoint tp is_route)
  = (String.eqb tag "name" && present (tp_name tp))
    || (String.eqb tag "altitude" && negb (isnan (tp_altitude tp)))
    || (String.eqb tag "unixtime" && negb (isnan (tp_timestamp tp)))
    || (String.eqb tag "newsegment" && tp_newsegment tp)
    || (has_extended tp
        && (String.eqb tag "extended"
            || (String.eqb tag "speed" && negb (isnan (tp_speed tp)))
            || (String.eqb tag "course" && negb (isnan (tp_course tp)))
            || (String.eqb tag "sat" && negb (tp_nsats tp =? 0))
            || (String.eqb tag "fix" && negb (tp_fix_mode tp =? 0))
            || (String.eqb tag "hdop" && negb (isnan (tp_hdop tp)))
            || (String.eqb tag "vdop" && negb (isnan (tp_vdop tp)))
            || (String.eqb tag "pdop" && negb (isnan (tp_pdop tp))))).
Proof.
  intros Htag. unfold a_gpspoint_write_trackpoint.
  assert (Hhead : forall s, emits tag [lit "type=" ++ s] = false) by reflexivity.
  destruct (has_extended tp); destruct (tp_newsegment tp);
    repeat rewrite emits_app;
    repeat first
      [ rewrite emits_write_double by first [exact Htag | reflexivity]
      | rewrite emits_write_positive_uint by first [exact Htag | reflexivity]
      | rewrite emits_write_string by first [exact Htag | reflexivity]
      | rewrite emits_field by first [exact Htag | reflexivity] ];
    rewrite Hhead; change (emits tag [[LF]]) with false;
    change (emits tag []) with false;
    rewrite ?andb_false_r, ?andb_true_r, ?orb_false_r; cbn [orb andb];
    repeat rewrite orb_assoc; rewrite ?orb_false_r; reflexivity.
Qed.

(** C8 (amended): in the line written for a waypoint, each optional double
    appears exactly when it is not NaN, each count exactly when it is not
    zero, each of comment, description, source, url, url_name and xtype
    exactly when it is neither [NULL] nor empty, the image direction and its
    reference exactly when the direction is not NaN, and visible exactly
    when the waypoint is not visible; image and symbol are left out when
    [NULL] and written when not empty.  In the line written for a
    trackpoint, the name, the altitude, the time, the segment flag, the
    speed and the course appear exactly when present (a zero altitude is
    present); the marker extended and the fields sat, fix, hdop, vdop and
    pdop appear only when the speed, the course or the number of satellites
    is present, and then exactly when they are not at their sentinel. *)
Theorem sentinel_omission (wp : VikWaypoint) (dirpath : gstr) (name : cstr)
        (tp : VikTrackpoint) (is_route : bool) :
  wp_name wp = Some name ->
  let w := a_gpspoint_write_waypoint wp dirpath in
  let t := a_gpspoint_write_trackpoint tp is_route in
  (forall tag b, In (tag, b) (waypoint_fields wp) -> emits tag w = b)
  /\ (wp_image wp = None -> emits "image" w = false)
  /\ (present (wp_image wp) = true -> emits "image" w = true)
  /\ (wp_symbol wp = None -> emits "symbol" w = false)
  /\ (present (wp_symbol wp) = true -> emits "symbol" w = true)
  /\ (forall tag b, In (tag, b) (trackpoint_fields tp) -> emits tag t = b)
  /\ (forall tag b, In (tag, b) (trackpoint_extended_fields tp) ->
        emits tag t = has_extended tp && b).
Proof.
  intros Hname w t. subst w t.
  repeat split.
  - intros tag b Hin. cbn [waypoint_fields In] in Hin.
    repeat (destruct Hin as [Hin|Hin]; [injection Hin as <- <-|]); [..|contradiction];
      rewrite (fun tag H => emits_waypoint tag wp dirpath name H Hname) by reflexivity;
      cbn [String.eqb Ascii.eqb Bool.eqb andb orb];
      rewrite ?orb_false_r; try reflexivity.
  - intros Hi. rewrite (fun tag H => emits_waypoint tag wp dirpath name H Hname) by reflexivity.
    rewrite Hi. reflexivity.
  - intros Hi. rewrite (fun tag H => emits_waypoint tag wp dirpath name H Hname) by reflexivity.
    destruct (wp_image wp); [|discriminate]. cbn [String.eqb Ascii.eqb Bool.eqb andb orb not_null].
    now rewrite ?orb_true_r.
  - intros Hi. rewrite (fun tag H => emits_waypoint tag wp dirpath name H Hname) by reflexivity.
    rewrite Hi. reflexivity.
  - intros Hi. rewrite (fun tag H => emits_waypoint tag wp dirpath name H Hname) by reflexivity.
    destruct (wp_symbol wp); [|discriminate]. cbn [String.eqb Ascii.eqb Bool.eqb andb orb not_null].
    now rewrite ?orb_true_r.
  - intros tag b Hin. cbn [trackpoint_fields In] in Hin.
    repeat (destruct Hin as [Hin|Hin]; [injection Hin as <- <-|]); [..|contradiction];
      rewrite emits_trackpoint by reflexivity;
      cbn [String.eqb Ascii.eqb Bool.eqb andb orb];
      rewrite ?andb_false_r, ?orb_false_r; try reflexivity;
      unfold has_extended; destruct (isnan (tp_speed tp)); destruct (isnan (tp_course tp));
      destruct (0 <? tp_nsats tp); reflexivity.
  - intros tag b Hin. cbn [trackpoint_extended_fields In] in Hin.
    repeat (destruct Hin as [Hin|Hin]; [injection Hin as <- <-|]); [..|contradiction];
      rewrite emits_trackpoint by reflexivity;
      cbn [String.eqb Ascii.eqb Bool.eqb andb orb];
      rewrite ?andb_false_r, ?orb_false_r; cbn [orb]; rewrite ?orb_false_r; reflexivity.
Qed.

End WriterClaims.

Lemma sentinel_omission_witness :
  let wp := Plain.waypoint_at_sea_level in
  emits "altitude" (a_gpspoint_write_waypoint (C := Plain.collaborators) wp None) = true
  /\ emits "unixtime" (a_gpspoint_write_waypoint (C := Plain.collaborators) wp None) = false.
Proof.
  intros wp.
  pose proof (sentinel_omission (C := Plain.collaborators) wp None (lit "A")
                Plain.trackpoint_new false eq_refl) as H.
  cbv zeta in H. destruct H as [H _].
  split.
  - exact (H "altitude" true (or_introl eq_refl)).
  - exact (H "unixtime" false (or_intror (or_introl eq_refl))).
Defined.

(** C8, as stated, fails for a trackpoint: a dilution of precision that is
    not NaN is left out of the line when the speed, the course and the
    number of satellites are all absent. *)
Lemma hdop_without_extended_is_omitted :
  isnan (tp_hdop Plain.trackpoint_with_hdop) = false
  /\ emits "hdop"
       (a_gpspoint_write_trackpoint (C := Plain.collaborators)
          Plain.trackpoint_with_hdop false)
     = false.
Proof. split; vm_compute; reflexivity. Qed.

(** ** The tokenizer on the tags that the writer emits *)

Lemma tag_scan_as_next : forall (p : cstr) (f : bool * bool) (n : Z),
  tag_scan p (fst (scan_flags (hd NUL p) f)) (snd (scan_flags (hd NUL p) f)) n
  = next_scan p f n.
Proof.
  induction p as [|c p IH]; intros f n; [reflexivity|].
  cbn [hd tag_scan next_scan]. unfold scan_on at 1.
  set (f' := scan_flags c f). rewrite <- (IH f' (n + 1)).
  destruct f' as [iq bs]. cbn [fst snd scan_flags].
  destruct (negb (Ascii.eqb c NUL) && (negb (isspace c) || iq)); [|reflexivity].
  destruct (Ascii.eqb (hd NUL p) BSL && negb bs); [reflexivity|].
  destruct bs; [reflexivity|].
  destruct (Ascii.eqb (hd NUL p) DQ); reflexivity.
Qed.

Lemma tag_scan_next (c : ascii) (p : cstr) (iq bs : bool) (n : Z) :
  tag_scan (c :: p) iq bs n
  = if scan_on c (iq, bs) then next_scan p (iq, bs) (n + 1) else (c :: p, n, iq, bs).
Proof.
  rewrite <- tag_scan_as_next. cbn [tag_scan fst snd scan_flags]. unfold scan_on. cbn [fst].
  destruct (negb (Ascii.eqb c NUL) && (negb (isspace c) || iq)); [|reflexivity].
  destruct (Ascii.eqb (hd NUL p) BSL && negb bs); [reflexivity|].
  destruct bs; [reflexivity|].
  destruct (Ascii.eqb (hd NUL p) DQ); reflexivity.
Qed.

Lemma plain_scan (c : ascii) :
  plain c = true ->
  scan_flags c (false, false) = (false, false) /\ scan_on c (false, false) = true.
Proof.
  unfold plain, scan_flags, scan_on. intros H. apply negb_true_iff in H.
  apply orb_false_iff in H. destruct H as [H Hb].
  apply orb_false_iff in H. destruct H as [H Hq].
  apply orb_false_iff in H. destruct H as [Hn Hs].
  rewrite Hb, Hq, Hn, Hs. split; reflexivity.
Qed.

Lemma next_scan_plain : forall (l p : cstr) (n : Z),
  forallb plain l = true ->
  next_scan (l ++ p) (false, false) n = next_scan p (false, false) (n + len_of l).
Proof.
  induction l as [|c l IH]; intros p n H; cbn [app forallb] in *.
  - f_equal. unfold len_of. cbn. lia.
  - apply andb_true_iff in H. destruct H as [Hc Hl].
    destruct (plain_scan c Hc) as [Hf Ho].
    cbn [next_scan]. rewrite Hf, Ho. rewrite IH by exact Hl.
    f_equal. rewrite len_of_cons. lia.
Qed.

Lemma next_scan_quoted : forall (body p : cstr) (bs : bool) (n : Z),
  quoted_body body bs = true ->
  next_scan (body ++ p) (true, bs) n = next_scan p (true, false) (n + len_of body).
Proof.
  induction body as [|c body IH]; intros p bs n H; cbn [app quoted_body] in *.
  - apply negb_true_iff in H. subst bs. f_equal. unfold len_of. cbn. lia.
  - destruct (Ascii.eqb c NUL || Ascii.eqb c LF) eqn:Hn; [discriminate|].
    apply orb_false_iff in Hn. destruct Hn as [Hn _].
    cbn [next_scan]. unfold scan_on, scan_flags.
    rewrite len_of_cons.
    destruct (Ascii.eqb c BSL && negb bs) eqn:E1.
    + cbn [fst]. rewrite Hn, orb_true_r. cbn [negb andb].
      rewrite (IH p true (n + 1) H). f_equal. lia.
    + destruct bs.
      * cbn [fst]. rewrite Hn, orb_true_r. cbn [negb andb].
        rewrite (IH p false (n + 1) H). f_equal. lia.
      * destruct (Ascii.eqb c DQ) eqn:E2; [discriminate|].
        cbn [fst]. rewrite Hn, orb_true_r. cbn [negb andb].
        rewrite (IH p false (n + 1) H). f_equal. lia.
Qed.

Lemma next_scan_stop (rest : cstr) (n : Z) :
  tag_stop rest = true -> next_scan rest (false, false) n = (rest, n, false, false).
Proof.
  destruct rest as [|c r]; [reflexivity|]. cbn [tag_stop next_scan]. intros H.
  apply andb_true_iff in H. destruct H as [Hn Hs].
  assert (Hf : scan_flags c (false, false) = (false, false)).
  { unfold scan_flags. destruct (Ascii.eqb c BSL) eqn:E1.
    - apply Ascii.eqb_eq in E1. subst c. discriminate.
    - destruct (Ascii.eqb c DQ) eqn:E2; [|reflexivity].
      apply Ascii.eqb_eq in E2. subst c. discriminate. }
  rewrite Hf. unfold scan_on. cbn [fst]. rewrite Hs. cbn [negb orb].
  rewrite andb_false_r. reflexivity.
Qed.

Lemma key_ok_parts (key : cstr) :
  key_ok key = true ->
  exists k0 k, key = k0 :: k /\ plain k0 = true /\ forallb plain k = true
               /\ is_key key = true /\ Ascii.eqb k0 HASH = false
               /\ Ascii.eqb k0 EQS = false.
Proof.
  unfold key_ok. intros H.
  apply andb_true_iff in H. destruct H as [H He]. apply negb_true_iff in He.
  apply andb_true_iff in H. destruct H as [H Hh]. apply negb_true_iff in Hh.
  apply andb_true_iff in H. destruct H as [Hk Hp].
  destruct key as [|k0 k]; [discriminate|]. cbn [forallb hd] in *.
  apply andb_true_iff in Hp. destruct Hp as [Hp0 Hp].
  exists k0, k. repeat split; assumption.
Qed.

(** The scan of a tag [key="body"] ends right after the closing quote. *)
Lemma tag_scan_quoted (key body rest : cstr) :
  key_ok key = true -> quoted_body body false = true -> tag_stop rest = true ->
  tag_scan (key ++ EQS :: DQ :: body ++ DQ :: rest) false false 0
  = (rest, len_of key + len_of body + 3, false, false).
Proof.
  intros Hk Hb Hr.
  destruct (key_ok_parts key Hk) as (k0 & k & -> & Hp0 & Hp & _ & _ & _).
  cbn [app]. rewrite tag_scan_next.
  destruct (plain_scan k0 Hp0) as [_ Ho]. rewrite Ho.
  rewrite next_scan_plain by exact Hp.
  cbn [next_scan]. change (scan_flags EQS (false, false)) with (false, false).
  change (scan_on EQS (false, false)) with true. cbv iota.
  change (scan_flags DQ (false, false)) with (true, false).
  change (scan_on DQ (true, false)) with true. cbv iota.
  rewrite next_scan_quoted by exact Hb.
  cbn [next_scan]. change (scan_flags DQ (true, false)) with (false, false).
  change (scan_on DQ (false, false)) with true. cbv iota.
  rewrite next_scan_stop by exact Hr.
  rewrite len_of_cons. f_equal. f_equal. f_equal. lia.
Qed.

(** The scan of a tag [key=value], the value without quotes. *)
Lemma tag_scan_bare (key value rest : cstr) :
  key_ok key = true -> forallb plain value = true -> tag_stop rest = true ->
  tag_scan (key ++ EQS :: value ++ rest) false false 0
  = (rest, len_of key + len_of value + 1, false, false).
Proof.
  intros Hk Hv Hr.
  destruct (key_ok_parts key Hk) as (k0 & k & -> & Hp0 & Hp & _ & _ & _).
  cbn [app]. rewrite tag_scan_next.
  destruct (plain_scan k0 Hp0) as [_ Ho]. rewrite Ho.
  rewrite next_scan_plain by exact Hp.
  cbn [next_scan]. change (scan_flags EQS (false, false)) with (false, false).
  change (scan_on EQS (false, false)) with true. cbv iota.
  rewrite next_scan_plain by exact Hv.
  rewrite next_scan_stop by exact Hr.
  rewrite len_of_cons. f_equal. f_equal. f_equal. lia.
Qed.

Lemma ptr_add_app (a b : cstr) : ptr_add (a ++ b) (len_of a) = b.
Proof.
  unfold ptr_add, len_of. rewrite Nat2Z.id.
  rewrite skipn_app, skipn_all, Nat.sub_diag. reflexivity.
Qed.

Lemma quoted_body_head (body : cstr) :
  quoted_body body false = true -> Ascii.eqb (hd NUL body) DQ = false.
Proof.
  destruct body as [|c b]; [reflexivity|]. cbn [quoted_body hd].
  destruct (Ascii.eqb c NUL || Ascii.eqb c LF); [discriminate|].
  destruct (Ascii.eqb c BSL) eqn:E1.
  - apply Ascii.eqb_eq in E1. subst c. reflexivity.
  - cbn [andb]. destruct (Ascii.eqb c DQ); [discriminate|reflexivity].
Qed.

Lemma plain_not (c : ascii) :
  plain c = true -> Ascii.eqb c NUL = false /\ Ascii.eqb c DQ = false.
Proof.
  unfold plain. intros H. apply negb_true_iff in H.
  apply orb_false_iff in H. destruct H as [H _].
  apply orb_false_iff in H. destruct H as [H Hq].
  apply orb_false_iff in H. destruct H as [Hn _]. now split.
Qed.

Section TagCalls.
Context {C : Collaborators}.

(** [gpspoint_process_tag] on a tag [key="body"] with a body that is not
    empty: the dispatcher receives the key and the body. *)
Lemma process_tag_quoted (key body rest : cstr) (st : LineState) :
  key_ok key = true -> quoted_body body false = true -> body <> [] ->
  len_of key + len_of body + 3 <= 65534 ->
  gpspoint_process_tag (key ++ EQS :: DQ :: body ++ DQ :: rest)
    (len_of key + len_of body + 3) st
  = gpspoint_process_key_and_value (key ++ EQS :: DQ :: body ++ DQ :: rest)
      (len_of key) (Some (body ++ DQ :: rest)) (len_of body) st.
Proof.
  intros Hk Hb Hne Hmax.
  destruct (key_ok_parts key Hk) as (k0 & k & Hkey & _ & _ & Hik & _ & _).
  pose proof (len_of_nonneg key) as Hn. pose proof (len_of_nonneg body) as Hnb.
  assert (Hpos : 1 <= len_of key)
    by (subst key; rewrite len_of_cons; pose proof (len_of_nonneg k); lia).
  set (tag := key ++ EQS :: DQ :: body ++ DQ :: rest).
  assert (A1 : str_at tag (len_of key + 1) = DQ).
  { unfold tag. now rewrite (str_at_app_r key _ 1) by lia. }
  assert (A2 : str_at tag (len_of key + 1 + 1) = hd NUL body).
  { unfold tag. replace (len_of key + 1 + 1) with (len_of (key ++ [EQS; DQ]))
      by (rewrite len_of_app; cbn; lia).
    replace (key ++ EQS :: DQ :: body ++ DQ :: rest)
      with ((key ++ [EQS; DQ]) ++ body ++ DQ :: rest)
      by (rewrite <- app_assoc; reflexivity).
    rewrite str_at_here. destruct body; [congruence|reflexivity]. }
  assert (A3 : str_at tag (len_of key + len_of body + 3 - 1) = DQ).
  { unfold tag.
    replace (len_of key + len_of body + 3 - 1) with (len_of (key ++ EQS :: DQ :: body))
      by (rewrite len_of_app, !len_of_cons; lia).
    replace (key ++ EQS :: DQ :: body ++ DQ :: rest)
      with ((key ++ EQS :: DQ :: body) ++ DQ :: rest)
      by (rewrite <- app_assoc; reflexivity).
    now rewrite str_at_here. }
  assert (A4 : ptr_add tag (len_of key + 1 + 1) = body ++ DQ :: rest).
  { unfold tag. replace (len_of key + 1 + 1) with (len_of (key ++ [EQS; DQ]))
      by (rewrite len_of_app; cbn; lia).
    replace (key ++ EQS :: DQ :: body ++ DQ :: rest)
      with ((key ++ [EQS; DQ]) ++ body ++ DQ :: rest)
      by (rewrite <- app_assoc; reflexivity).
    apply ptr_add_app. }
  unfold gpspoint_process_tag.
  assert (Hke : find_key_end (Z.to_nat (len_of key + len_of body + 3)) tag
                  (len_of key + len_of body + 3) 1 = len_of key).
  { unfold tag. apply key_end_of_tag; [exact Hik|lia]. }
  rewrite Hke.
  destruct (len_of key =? len_of key + len_of body + 3) eqn:E1;
    [apply Z.eqb_eq in E1; lia|].
  rewrite (u32_small (len_of key + len_of body + 3 + 1)) by lia.
  destruct (len_of key =? len_of key + len_of body + 3 + 1) eqn:E2;
    [apply Z.eqb_eq in E2; lia|].
  rewrite A1, Ascii.eqb_refl, A2, (quoted_body_head body Hb), A3, Ascii.eqb_refl, A4.
  destruct (len_of key + len_of body + 3 - 1 - (len_of key + 1 + 1) <? 0) eqn:E3;
    [apply Z.ltb_lt in E3; lia|].
  replace (len_of key + len_of body + 3 - 1 - (len_of key + 1 + 1)) with (len_of body) by lia.
  rewrite (u32_small (len_of key)) by lia. rewrite (u32_small (len_of body)) by lia.
  reflexivity.
Qed.

(** [gpspoint_process_tag] on a tag [key=value] without quotes. *)
Lemma process_tag_bare (key value rest : cstr) (st : LineState) :
  key_ok key = true -> forallb plain value = true -> value <> [] ->
  len_of key + len_of value + 1 <= 65534 ->
  gpspoint_process_tag (key ++ EQS :: value ++ rest)
    (len_of key + len_of value + 1) st
  = gpspoint_process_key_and_value (key ++ EQS :: value ++ rest)
      (len_of key) (Some (value ++ rest)) (len_of value) st.
Proof.
  intros Hk Hv Hne Hmax.
  destruct (key_ok_parts key Hk) as (k0 & k & Hkey & _ & _ & Hik & _ & _).
  pose proof (len_of_nonneg key) as Hn. pose proof (len_of_nonneg value) as Hnb.
  assert (Hpos : 1 <= len_of key)
    by (subst key; rewrite len_of_cons; pose proof (len_of_nonneg k); lia).
  assert (Hvpos : 1 <= len_of value)
    by (destruct value as [|c0 v0]; [congruence|rewrite len_of_cons;
                                      pose proof (len_of_nonneg v0); lia]).
  set (tag := key ++ EQS :: value ++ rest).
  assert (A1 : Ascii.eqb (str_at tag (len_of key + 1)) DQ = false).
  { unfold tag. replace (len_of key + 1) with (len_of (key ++ [EQS]))
      by (rewrite len_of_app; cbn; lia).
    replace (key ++ EQS :: value ++ rest) with ((key ++ [EQS]) ++ value ++ rest)
      by (rewrite <- app_assoc; reflexivity).
    rewrite str_at_here.
    destruct value as [|c v]; [congruence|]. cbn [app hd forallb] in *.
    apply andb_true_iff in Hv. destruct Hv as [Hc _].
    now destruct (plain_not c Hc). }
  assert (A4 : ptr_add tag (len_of key + 1) = value ++ rest).
  { unfold tag. replace (len_of key + 1) with (len_of (key ++ [EQS]))
      by (rewrite len_of_app; cbn; lia).
    replace (key ++ EQS :: value ++ rest) with ((key ++ [EQS]) ++ value ++ rest)
      by (rewrite <- app_assoc; reflexivity).
    apply ptr_add_app. }
  unfold gpspoint_process_tag.
  assert (Hke : find_key_end (Z.to_nat (len_of key + len_of value + 1)) tag
                  (len_of key + len_of value + 1) 1 = len_of key).
  { unfold tag. apply key_end_of_tag; [exact Hik|lia]. }
  rewrite Hke.
  destruct (len_of key =? len_of key + len_of value + 1) eqn:E1;
    [apply Z.eqb_eq in E1; lia|].
  rewrite (u32_small (len_of key + len_of value + 1 + 1)) by lia.
  destruct (len_of key =? len_of key + len_of value + 1 + 1) eqn:E2;
    [apply Z.eqb_eq in E2; lia|].
  rewrite A1, A4.
  destruct (len_of key + len_of value + 1 - (len_of key + 1) <? 0) eqn:E3;
    [apply Z.ltb_lt in E3; lia|].
  replace (len_of key + len_of value + 1 - (len_of key + 1)) with (len_of value) by lia.
  rewrite (u32_small (len_of key)) by lia. rewrite (u32_small (len_of value)) by lia.
  reflexivity.
Qed.

Lemma skip_blanks_plain (c : ascii) (p : cstr) :
  plain c = true -> skip_blanks (c :: p) = c :: p.
Proof.
  unfold plain. intros H. apply negb_true_iff in H.
  apply orb_false_iff in H. destruct H as [H _].
  apply orb_false_iff in H. destruct H as [H _].
  apply orb_false_iff in H. destruct H as [_ Hs].
  cbn [skip_blanks]. rewrite Hs. now rewrite andb_false_r.
Qed.

Lemma tag_chars_quoted (key : string) (body rest : cstr) :
  tag_chars (Quoted key body) ++ rest = lit key ++ EQS :: DQ :: body ++ DQ :: rest.
Proof. cbn [tag_chars]. rewrite <- app_assoc. cbn [app]. now rewrite <- app_assoc. Qed.

Lemma tag_chars_bare (key : string) (value rest : cstr) :
  tag_chars (Bare key value) ++ rest = lit key ++ EQS :: value ++ rest.
Proof. cbn [tag_chars]. now rewrite <- app_assoc. Qed.

Lemma join_cons (t : tag_text) (ts : list tag_text) :
  join (t :: ts) = tag_chars t ++ after_tag ts.
Proof. destruct ts; cbn [join after_tag]; [now rewrite app_nil_r|reflexivity]. Qed.

Lemma after_tag_stop (ts : list tag_text) : tag_stop (after_tag ts) = true.
Proof. destruct ts; reflexivity. Qed.

Lemma len_of_tag_chars (t : tag_text) :
  len_of (tag_chars t)
  = match t with
    | Quoted key body => len_of (lit key) + len_of body + 3
    | Bare key value => len_of (lit key) + len_of value + 1
    end.
Proof.
  destruct t; cbn [tag_chars]; unfold len_of;
    repeat rewrite ?length_app, ?length_cons; cbn [length]; lia.
Qed.

Lemma process_tags_start (fuel : nat) (key rest : cstr) (st : LineState) :
  key_ok key = true ->
  process_tags (S fuel) (key ++ rest) false false st
  = let '(tag_end, len, inside_quote, backslash) :=
      tag_scan (key ++ rest) false false 0 in
    match gpspoint_process_tag (key ++ rest) (u32 len) st with
    | Some st' =>
        if Ascii.eqb (hd NUL tag_end) NUL then Some st'
        else process_tags fuel (tl tag_end) inside_quote backslash st'
    | None => None
    end.
Proof.
  intros Hk.
  destruct (key_ok_parts key Hk) as (k0 & k & -> & Hp0 & _ & _ & Hh & _).
  destruct (plain_not k0 Hp0) as [Hnul Hdq].
  cbn [process_tags app]. rewrite (skip_blanks_plain k0 _ Hp0).
  cbn [hd]. rewrite Hnul, Hh, Hdq. reflexivity.
Qed.

(** One turn of the tokenizer loop on a well-formed tag. *)
Lemma process_tags_turn (fuel : nat) (t : tag_text) (rest : cstr) (st : LineState) :
  tag_ok t = true -> tag_stop rest = true ->
  len_of (tag_chars t) <= 65534 ->
  process_tags (S fuel) (tag_chars t ++ rest) false false st
  = match dispatch_tag t rest st with
    | Some st' =>
        if Ascii.eqb (hd NUL rest) NUL then Some st'
        else process_tags fuel (tl rest) false false st'
    | None => None
    end.
Proof.
  intros Hok Hstop Hmax. rewrite len_of_tag_chars in Hmax.
  destruct t as [key body|key value]; cbn [tag_ok] in Hok;
    apply andb_true_iff in Hok; destruct Hok as [Hok Hne];
    apply andb_true_iff in Hok; destruct Hok as [Hk Hb].
  - unfold dispatch_tag. rewrite tag_chars_quoted.
    rewrite (process_tags_start fuel (lit key) _ st Hk).
    rewrite (tag_scan_quoted (lit key) body rest Hk Hb Hstop).
    rewrite (u32_small (len_of (lit key) + len_of body + 3))
      by (pose proof (len_of_nonneg (lit key)); pose proof (len_of_nonneg body); lia).
    rewrite process_tag_quoted; try assumption; [reflexivity|].
    destruct body; [discriminate|discriminate].
  - unfold dispatch_tag. rewrite tag_chars_bare.
    rewrite (process_tags_start fuel (lit key) _ st Hk).
    rewrite (tag_scan_bare (lit key) value rest Hk Hb Hstop).
    rewrite (u32_small (len_of (lit key) + len_of value + 1))
      by (pose proof (len_of_nonneg (lit key)); pose proof (len_of_nonneg value); lia).
    rewrite process_tag_bare; try assumption; [reflexivity|].
    destruct value; [discriminate|discriminate].
Qed.

(** The tokenizer on a line made of well-formed tags: the dispatcher is
    called once for each tag, in order. *)
Lemma process_tags_joined : forall (ts : list tag_text) (fuel : nat) (st : LineState),
  forallb tag_ok ts = true ->
  (length ts <= fuel)%nat ->
  len_of (join ts) <= 65534 ->
  process_tags (S fuel) (join ts) false false st = dispatch_joined ts st.
Proof.
  induction ts as [|t ts IH]; intros fuel st Hok Hfuel Hmax; [reflexivity|].
  cbn [forallb] in Hok. apply andb_true_iff in Hok. destruct Hok as [Ht Hts].
  rewrite join_cons in *. rewrite len_of_app in Hmax.
  pose proof (len_of_nonneg (after_tag ts)) as Ha.
  pose proof (len_of_nonneg (tag_chars t)) as Hc.
  rewrite (process_tags_turn fuel t (after_tag ts) st Ht (after_tag_stop ts)) by lia.
  cbn [dispatch_joined].
  destruct (dispatch_tag t (after_tag ts) st) as [st'|]; [|reflexivity].
  destruct ts as [|t' ts']; [reflexivity|].
  cbn [after_tag hd tl]. change (Ascii.eqb SP NUL) with false. cbv iota.
  destruct fuel as [|fuel]; [cbn [length] in Hfuel; lia|].
  apply IH; [exact Hts|cbn [length] in *; lia|].
  cbn [after_tag] in Hmax. rewrite len_of_cons in Hmax. lia.
Qed.

Lemma process_tags_fuel : forall (fuel fuel' : nat) (p : cstr) (iq bs : bool) (st : LineState),
  (length p < fuel)%nat -> (length p < fuel')%nat ->
  process_tags fuel p iq bs st = process_tags fuel' p iq bs st.
Proof.
  induction fuel as [|fuel IH]; intros fuel' p iq bs st Hf Hf'; [lia|].
  destruct fuel' as [|fuel']; [lia|].
  cbn [process_tags].
  destruct (skip_blanks p) as [|c q] eqn:Hsk; [reflexivity|]. cbn [hd].
  destruct (Ascii.eqb c NUL) eqn:Hnul; [reflexivity|].
  destruct (Ascii.eqb c HASH); [reflexivity|].
  destruct (tag_scan (c :: q) (if Ascii.eqb c DQ then negb iq else iq) bs 0)
    as [[[e len] iq'] bs'] eqn:Hscan.
  destruct (tokenizer_turn p _ bs c q e len iq' bs' Hsk Hnul Hscan)
    as (_ & _ & _ & _ & Hnext).
  destruct (gpspoint_process_tag (c :: q) (u32 len) st) as [st'|]; [|reflexivity].
  destruct (Ascii.eqb (hd NUL e) NUL) eqn:He; [reflexivity|].
  destruct Hnext as [Hn| ->]; [|cbn in He; discriminate].
  apply IH; lia.
Qed.

(** A line made of well-formed tags, as [a_gpspoint_read_file] processes
    it. *)
Lemma process_line_tags_joined (ts : list tag_text) (st : LineState) :
  forallb tag_ok ts = true ->
  len_of (join ts) <= 65534 ->
  process_line_tags (join ts) st = dispatch_joined ts st.
Proof.
  intros Hok Hmax. unfold process_line_tags.
  rewrite (process_tags_fuel _ (S (length (join ts) + length ts)) _ _ _ _) by lia.
  apply process_tags_joined; [exact Hok|lia|exact Hmax].
Qed.

End TagCalls.

(** ** Numbers in decimal *)

Lemma digit_char (x : Z) :
  0 <= x <= 9 ->
  let c := ascii_of_nat (Z.to_nat (48 + x)) in
  isdigit c = true /\ digit_val c = x /\ quotable c = true /\ plain c = true
  /\ isspace c = false /\ Ascii.eqb c "-"%char = false /\ Ascii.eqb c "+"%char = false.
Proof.
  intros H.
  assert (Hx : x = 0 \/ x = 1 \/ x = 2 \/ x = 3 \/ x = 4 \/ x = 5 \/ x = 6 \/ x = 7
               \/ x = 8 \/ x = 9) by lia.
  repeat (destruct Hx as [->|Hx]; [vm_compute; repeat split; reflexivity|]).
  subst x. vm_compute. repeat split; reflexivity.
Qed.

Lemma fmt_digits_S (f : nat) (n : Z) :
  fmt_digits (S f) n
  = if n <? 10 then [ascii_of_nat (Z.to_nat (48 + n))]
    else fmt_digits f (n / 10) ++ [ascii_of_nat (Z.to_nat (48 + n mod 10))].
Proof. reflexivity. Qed.

Lemma fmt_digits_spec : forall (f : nat) (n : Z),
  0 <= n < 2 ^ Z.of_nat (S f) ->
  forallb isdigit (fmt_digits (S f) n) = true
  /\ fmt_digits (S f) n <> []
  /\ forall rest acc,
       exists k, 0 <= k
         /\ digits_val (fmt_digits (S f) n ++ rest) acc = digits_val rest (acc * 10 ^ k + n).
Proof.
  induction f as [|f IH]; intros n Hn.
  - assert (Hsmall : n < 10) by (change (2 ^ Z.of_nat 1) with 2 in Hn; lia).
    cbn [fmt_digits]. destruct (n <? 10) eqn:E; [|apply Z.ltb_ge in E; lia].
    destruct (digit_char n ltac:(lia)) as (Hd & Hv & _).
    cbn [forallb]. rewrite Hd. repeat split; [discriminate|].
    intros rest acc. exists 1. split; [lia|].
    cbn [app digits_val]. rewrite Hd, Hv. f_equal; lia.
  - rewrite fmt_digits_S. destruct (n <? 10) eqn:E.
    + apply Z.ltb_lt in E.
      destruct (digit_char n ltac:(lia)) as (Hd & Hv & _).
      cbn [forallb]. rewrite Hd. repeat split; [discriminate|].
      intros rest acc. exists 1. split; [lia|].
      cbn [app digits_val]. rewrite Hd, Hv. f_equal; lia.
    + apply Z.ltb_ge in E.
      assert (Hq : 0 <= n / 10 < 2 ^ Z.of_nat (S f)).
      { split; [apply Z.div_pos; lia|].
        apply Z.div_lt_upper_bound; [lia|].
        replace (Z.of_nat (S (S f))) with (Z.succ (Z.of_nat (S f))) in Hn by lia.
        rewrite Z.pow_succ_r in Hn by lia. lia. }
      destruct (IH (n / 10) Hq) as (Hall & Hne & Hval).
      pose proof (Z.mod_pos_bound n 10 ltac:(lia)) as Hm.
      destruct (digit_char (n mod 10) ltac:(lia)) as (Hd & Hv & _).
      repeat split.
      * rewrite forallb_app, Hall. cbn [forallb]. now rewrite Hd.
      * intros Habs. apply app_eq_nil in Habs. destruct Habs as [_ Habs]. discriminate.
      * intros rest acc.
        destruct (Hval (ascii_of_nat (Z.to_nat (48 + n mod 10)) :: rest) acc)
          as (k & Hk & Heq).
        exists (k + 1). split; [lia|].
        rewrite <- app_assoc. cbn [app]. rewrite Heq.
        cbn [digits_val]. rewrite Hd, Hv. f_equal.
        rewrite Z.pow_add_r by lia. change (10 ^ 1) with 10.
        pose proof (Z.div_mod n 10 ltac:(lia)). lia.
Qed.

Lemma fmt_unsigned_spec (n : Z) :
  0 <= n ->
  forallb isdigit (fmt_unsigned n) = true
  /\ fmt_unsigned n <> []
  /\ forall rest acc,
       exists k, 0 <= k
         /\ digits_val (fmt_unsigned n ++ rest) acc = digits_val rest (acc * 10 ^ k + n).
Proof.
  intros Hn. unfold fmt_unsigned. apply fmt_digits_spec. split; [exact Hn|].
  destruct (Z.eq_dec n 0) as [->|Hne]; [reflexivity|].
  pose proof (Z.log2_spec n ltac:(lia)) as [_ Hs].
  pose proof (Z.log2_nonneg n).
  replace (Z.of_nat (S (Z.to_nat (Z.log2 n)))) with (Z.succ (Z.log2 n)) by lia.
  exact Hs.
Qed.

Lemma digits_val_stop (c : ascii) (rest : cstr) (acc : Z) :
  isdigit c = false -> digits_val (c :: rest) acc = acc.
Proof. intros H. cbn [digits_val]. now rewrite H. Qed.

(** The digits written for [n], read back up to a character that is not a
    digit. *)
Lemma digits_val_fmt (n : Z) (c : ascii) (rest : cstr) :
  0 <= n -> isdigit c = false ->
  digits_val (fmt_unsigned n ++ c :: rest) 0 = n.
Proof.
  intros Hn Hc. destruct (fmt_unsigned_spec n Hn) as (_ & _ & Hval).
  destruct (Hval (c :: rest) 0) as (k & _ & ->).
  rewrite digits_val_stop by exact Hc. lia.
Qed.

Lemma isdigit_not_space (c : ascii) : isdigit c = true -> isspace c = false.
Proof.
  destruct c as [[] [] [] [] [] [] [] []]; vm_compute; intros H;
    first [reflexivity | discriminate H].
Qed.

Lemma isdigit_not_sign (c : ascii) :
  isdigit c = true -> Ascii.eqb c "-"%char = false /\ Ascii.eqb c "+"%char = false.
Proof.
  destruct c as [[] [] [] [] [] [] [] []]; vm_compute; intros H;
    first [split; reflexivity | discriminate H].
Qed.

Lemma isdigit_quotable (c : ascii) : isdigit c = true -> quotable c = true.
Proof.
  destruct c as [[] [] [] [] [] [] [] []]; vm_compute; intros H;
    first [reflexivity | discriminate H].
Qed.

(** The sign and the digits of [fmt_d z] followed by a character that is not
    a digit. *)
Lemma signed_digits (z : Z) (c : ascii) (rest : cstr) :
  isdigit c = false ->
  let s := skip_space (fmt_d z ++ c :: rest) in
  match s with
  | a :: s' =>
      if Ascii.eqb a "-"%char then - digits_val s' 0
      else if Ascii.eqb a "+"%char then digits_val s' 0
      else digits_val s 0
  | [] => 0
  end = z.
Proof.
  intros Hc. unfold fmt_d. destruct (z <? 0) eqn:E.
  - apply Z.ltb_lt in E. cbn [app skip_space].
    change (isspace "-") with false. cbv iota. cbn [Ascii.eqb Bool.eqb].
    rewrite digits_val_fmt by (try lia; exact Hc). lia.
  - apply Z.ltb_ge in E.
    destruct (fmt_unsigned_spec z E) as (Hall & Hne & _).
    pose proof (digits_val_fmt z c rest E Hc) as Hv.
    destruct (fmt_unsigned z) as [|a l]; [congruence|].
    cbn [forallb] in Hall. apply andb_true_iff in Hall. destruct Hall as [Ha _].
    cbn [app skip_space]. rewrite (isdigit_not_space a Ha).
    destruct (isdigit_not_sign a Ha) as [-> ->]. exact Hv.
Qed.

Lemma s32_small (z : Z) : -2147483648 <= z < 2147483648 -> s32 z = z.
Proof. intros H. unfold s32. rewrite Z.mod_small by lia. lia. Qed.

Lemma s32_range (z : Z) : -2147483648 <= s32 z < 2147483648.
Proof. unfold s32. pose proof (Z.mod_pos_bound (z + 2147483648) 4294967296 ltac:(lia)). lia. Qed.

Lemma u32_s32 (v : Z) : 0 <= v < 4294967296 -> u32 (s32 v) = v.
Proof.
  intros H. unfold u32, s32.
  rewrite Zminus_mod_idemp_l.
  replace (v + 2147483648 - 2147483648) with v by lia.
  apply Z.mod_small. lia.
Qed.

(** [atoi] reads back what ["%d"] wrote for a value of type [int]. *)
Lemma atoi_fmt_d (z : Z) (c : ascii) (rest : cstr) :
  -2147483648 <= z < 2147483648 -> isdigit c = false ->
  atoi (fmt_d z ++ c :: rest) = z.
Proof.
  intros Hz Hc. unfold atoi. rewrite (signed_digits z c rest Hc).
  unfold LONG_MAX, LONG_MIN. rewrite Z.min_r by lia. rewrite Z.max_r by lia.
  now apply s32_small.
Qed.

Lemma fmt_d_quotable (z : Z) : forallb quotable (fmt_d z) = true /\ fmt_d z <> [].
Proof.
  assert (Hq : forall l, forallb isdigit l = true -> forallb quotable l = true).
  { induction l as [|a l IH]; [reflexivity|]. cbn [forallb]. intros H.
    apply andb_true_iff in H. destruct H as [Ha Hl].
    now rewrite (isdigit_quotable a Ha), IH. }
  unfold fmt_d. destruct (z <? 0) eqn:E.
  - apply Z.ltb_lt in E. destruct (fmt_unsigned_spec (- z) ltac:(lia)) as (Hall & _ & _).
    cbn [forallb]. rewrite (Hq _ Hall). split; [reflexivity|discriminate].
  - apply Z.ltb_ge in E. destruct (fmt_unsigned_spec z E) as (Hall & Hne & _).
    split; [now apply Hq|exact Hne].
Qed.

(** ** Text between quotes *)

Lemma quoted_body_quotable : forall (t : cstr),
  forallb quotable t = true -> quoted_body t false = true.
Proof.
  induction t as [|c t IH]; [reflexivity|]. cbn [forallb quoted_body]. intros H.
  apply andb_true_iff in H. destruct H as [Hc Ht].
  unfold quotable in Hc. apply negb_true_iff in Hc.
  apply orb_false_iff in Hc. destruct Hc as [Hc Hb].
  apply orb_false_iff in Hc. destruct Hc as [Hc Hq].
  apply orb_false_iff in Hc. destruct Hc as [Hn Hl].
  rewrite Hn, Hl, Hb, Hq. cbn [orb andb]. now apply IH.
Qed.

Lemma quoted_body_slashdup : forall (s : cstr),
  no_nul s = true -> quoted_body (slashdup s) false = true.
Proof.
  unfold slashdup, no_nul.
  induction s as [|c s IH]; [reflexivity|]. cbn [forallb slashdup_fill]. intros H.
  apply andb_true_iff in H. destruct H as [Hc Hs]. apply negb_true_iff in Hc.
  specialize (IH Hs).
  destruct (needs_bs c) eqn:Hb.
  - rewrite (needs_bs_not_eol c Hb). cbn [app quoted_body].
    change (Ascii.eqb BSL NUL || Ascii.eqb BSL LF) with false. cbv iota.
    rewrite Ascii.eqb_refl. cbn [negb andb].
    rewrite Hc.
    assert (Hlf : Ascii.eqb c LF = false).
    { pose proof (needs_bs_not_eol c Hb) as He. unfold is_eol in He.
      apply orb_false_iff in He. now destruct He. }
    rewrite Hlf. cbn [orb]. rewrite andb_false_r. exact IH.
  - cbn [app quoted_body].
    unfold needs_bs in Hb. apply orb_false_iff in Hb. destruct Hb as [Hb Hq].
    destruct (is_eol c) eqn:He.
    + change (Ascii.eqb SP NUL || Ascii.eqb SP LF) with false. cbv iota.
      change (Ascii.eqb SP BSL && negb false) with false. cbv iota.
      change (Ascii.eqb SP DQ) with false. cbv iota. exact IH.
    + unfold is_eol in He. apply orb_false_iff in He. destruct He as [Hl _].
      rewrite Hc, Hl, Hb, Hq. cbn [orb andb]. exact IH.
Qed.

Lemma blank_eol_id : forall (s : cstr),
  forallb (fun c => negb (is_eol c)) s = true -> blank_eol s = s.
Proof.
  unfold blank_eol. induction s as [|c s IH]; [reflexivity|]. cbn [forallb map]. intros H.
  apply andb_true_iff in H. destruct H as [Hc Hs]. apply negb_true_iff in Hc.
  now rewrite Hc, IH.
Qed.

Lemma c_str_no_nul : forall (s rest : cstr),
  no_nul s = true -> c_str (s ++ NUL :: rest) = s /\ c_str s = s.
Proof.
  unfold no_nul. induction s as [|c s IH]; intros rest H; [split; reflexivity|].
  cbn [forallb] in H. apply andb_true_iff in H. destruct H as [Hc Hs].
  apply negb_true_iff in Hc. cbn [app c_str]. rewrite Hc.
  destruct (IH rest Hs) as [-> ->]. split; reflexivity.
Qed.

Lemma c_str_prefix : forall (s rest : cstr),
  no_nul s = true -> firstn (length s) (c_str (s ++ rest)) = s.
Proof.
  unfold no_nul. induction s as [|c s IH]; intros rest H; [reflexivity|].
  cbn [forallb] in H. apply andb_true_iff in H. destruct H as [Hc Hs].
  apply negb_true_iff in Hc. cbn [app c_str length]. rewrite Hc.
  cbn [firstn]. now rewrite IH.
Qed.

Lemma g_strndup_prefix (s rest : cstr) :
  no_nul s = true -> g_strndup (s ++ rest) (len_of s) = s.
Proof.
  intros H. unfold g_strndup, len_of. rewrite Nat2Z.id. now apply c_str_prefix.
Qed.

(** ** The dispatcher on the tags that the writer emits *)

Lemma text_ok_parts (s : cstr) :
  text_ok s = true ->
  no_nul s = true /\ forallb (fun c => negb (is_eol c)) s = true /\ s <> [].
Proof.
  unfold text_ok. intros H.
  apply andb_true_iff in H. destruct H as [H Hne].
  apply andb_true_iff in H. destruct H as [Hn He].
  repeat split; try assumption. destruct s; [discriminate|discriminate].
Qed.

Lemma quote_safe_parts (t : cstr) :
  quote_safe t = true -> forallb quotable t = true /\ t <> [].
Proof.
  unfold quote_safe. intros H. apply andb_true_iff in H. destruct H as [Hq Hne].
  split; [exact Hq|]. destruct t; [discriminate|discriminate].
Qed.

Lemma slashdup_nonempty (s : cstr) : s <> [] -> slashdup s <> [].
Proof.
  destruct s as [|c s]; [congruence|]. intros _ H.
  pose proof (slashdup_fill_cons_pos c s) as Hp. unfold slashdup in H.
  rewrite H in Hp. cbn in Hp. lia.
Qed.

Lemma slashdup_plain : forall (s : cstr),
  forallb plain s = true -> slashdup s = s /\ blank_eol s = s.
Proof.
  unfold slashdup, blank_eol. induction s as [|c s IH]; [split; reflexivity|].
  cbn [forallb slashdup_fill map]. intros H.
  apply andb_true_iff in H. destruct H as [Hc Hs]. destruct (IH Hs) as [-> ->].
  unfold plain in Hc. apply negb_true_iff in Hc.
  apply orb_false_iff in Hc. destruct Hc as [Hc Hb].
  apply orb_false_iff in Hc. destruct Hc as [Hc Hq].
  apply orb_false_iff in Hc. destruct Hc as [_ Hsp].
  assert (He : is_eol c = false).
  { unfold is_eol. destruct (Ascii.eqb c LF) eqn:E1.
    - apply Ascii.eqb_eq in E1. subst c. discriminate.
    - destruct (Ascii.eqb c CR) eqn:E2; [|reflexivity].
      apply Ascii.eqb_eq in E2. subst c. discriminate. }
  unfold needs_bs. rewrite Hb, Hq, He. split; reflexivity.
Qed.

Section WrittenTags.
Context {C : Collaborators}.

Lemma dispatch_tag_type (body rest : cstr) (st : LineState) :
  dispatch_tag (Quoted "type" body) rest st
  = Some (set_i line_type (parse_type (Some (body ++ DQ :: rest)) (len_of body)) st).
Proof. reflexivity. Qed.

Lemma dispatch_tag_double (n : Z) (key : string) (v : dvar) (body rest : cstr)
      (st : LineState) :
  In (n, key, v) double_keys ->
  dispatch_tag (Quoted key body) rest st
  = Some (set_d v (g_ascii_strtod (body ++ DQ :: rest)) st).
Proof.
  intros Hin. unfold dispatch_tag.
  apply (dispatch_double n key v); [exact Hin|].
  cbn [double_keys In] in Hin.
  repeat (destruct Hin as [Hin|Hin]; [injection Hin as <- <- <-; reflexivity|]).
  contradiction.
Qed.

Lemma dispatch_tag_int (n : Z) (key : string) (v : ivar) (u : bool) (body rest : cstr)
      (st : LineState) :
  In (n, key, v, u) int_keys ->
  dispatch_tag (Quoted key body) rest st
  = Some (set_i v (if u then u32 (atoi (body ++ DQ :: rest))
                   else atoi (body ++ DQ :: rest)) st).
Proof.
  intros Hin. unfold dispatch_tag.
  apply (dispatch_int n key v u); [exact Hin|].
  cbn [int_keys In] in Hin.
  repeat (destruct Hin as [Hin|Hin]; [injection Hin as <- <- <- <-; reflexivity|]).
  contradiction.
Qed.

(** A string written through [slashdup] and stored into a variable that is
    still [NULL]. *)
Lemma dispatch_tag_first (n : Z) (key : string) (v : svar) (s rest : cstr)
      (st : LineState) :
  In (n, key, v) first_wins ->
  strs st v = None -> text_ok s = true -> len_of (slashdup s) <= 65535 ->
  dispatch_tag (Quoted key (slashdup s)) rest st = Some (set_s v (Some s) st).
Proof.
  intros Hin Hnone Hs Hlen. destruct (text_ok_parts s Hs) as (_ & He & Hne).
  unfold dispatch_tag.
  rewrite (dispatch_first_wins n key v); [|exact Hin|].
  - rewrite Hnone, (deslashndup_escaped s (DQ :: rest) Hne Hlen), (blank_eol_id s He).
    reflexivity.
  - cbn [first_wins In] in Hin.
    repeat (destruct Hin as [Hin|Hin]; [injection Hin as <- <- <-; reflexivity|]).
    contradiction.
Qed.

Lemma dispatch_tag_last (n : Z) (key : string) (v : svar) (s rest : cstr)
      (st : LineState) :
  In (n, key, v) last_wins ->
  text_ok s = true -> len_of (slashdup s) <= 65535 ->
  dispatch_tag (Quoted key (slashdup s)) rest st = Some (set_s v (Some s) st).
Proof.
  intros Hin Hs Hlen. destruct (text_ok_parts s Hs) as (_ & He & Hne).
  unfold dispatch_tag.
  rewrite (dispatch_last_wins n key v); [|exact Hin|].
  - rewrite (deslashndup_escaped s (DQ :: rest) Hne Hlen), (blank_eol_id s He).
    reflexivity.
  - cbn [last_wins In] in Hin.
    repeat (destruct Hin as [Hin|Hin]; [injection Hin as <- <- <-; reflexivity|]).
    contradiction.
Qed.

Lemma dispatch_tag_symbol (body rest : cstr) (st : LineState) :
  no_nul body = true ->
  dispatch_tag (Quoted "symbol" body) rest st
  = Some (set_s line_symbol (Some body) st).
Proof.
  intros Hn. unfold dispatch_tag.
  rewrite dispatch_symbol by reflexivity.
  now rewrite (g_strndup_prefix body (DQ :: rest) Hn).
Qed.

Lemma dispatch_tag_visible_n (rest : cstr) (st : LineState) :
  dispatch_tag (Quoted "visible" (lit "n")) rest st = Some (set_b line_visible false st).
Proof. reflexivity. Qed.

Lemma dispatch_tag_newsegment (body rest : cstr) (st : LineState) :
  dispatch_tag (Quoted "newsegment" body) rest st = Some (set_b line_newsegment true st).
Proof. unfold dispatch_tag. now apply dispatch_newsegment. Qed.

Lemma dispatch_tag_extended (body rest : cstr) (st : LineState) :
  dispatch_tag (Quoted "extended" body) rest st = Some (set_b line_extended true st).
Proof. unfold dispatch_tag. now apply dispatch_extended. Qed.

(** The colour of a track, written without quotes. *)
Lemma dispatch_tag_color (value rest : cstr) (st : LineState) :
  strs st line_color = None -> forallb plain value = true -> value <> [] ->
  len_of value <= 65535 ->
  dispatch_tag (Bare "color" value) rest st = Some (set_s line_color (Some value) st).
Proof.
  intros Hnone Hp Hne Hlen. destruct (slashdup_plain value Hp) as [Hs Hb].
  unfold dispatch_tag.
  rewrite (dispatch_first_wins 5 "color" line_color);
    [|cbn; tauto|reflexivity].
  rewrite Hnone.
  pose proof (deslashndup_escaped value rest Hne) as Hd.
  rewrite Hs, Hb in Hd. rewrite Hd by exact Hlen. reflexivity.
Qed.

End WrittenTags.

(** ** The lines of the writer, read back *)

Lemma len_of_join_cons (t : tag_text) (ts : list tag_text) :
  len_of (tag_chars t) <= len_of (join (t :: ts))
  /\ len_of (join ts) <= len_of (join (t :: ts)).
Proof.
  destruct ts as [|t' ts]; cbn [join].
  - unfold len_of. cbn [length]. lia.
  - unfold len_of. rewrite length_app. cbn [length]. lia.
Qed.

Lemma join_body_len : forall (ts : list tag_text) (t : tag_text),
  In t ts -> len_of (tag_chars t) <= len_of (join ts).
Proof.
  induction ts as [|t' ts IH]; intros t Hin; [contradiction|].
  destruct (len_of_join_cons t' ts) as [H1 H2].
  destruct Hin as [->|Hin]; [exact H1|]. specialize (IH t Hin). lia.
Qed.

Lemma quoted_len (key : string) (body : cstr) (ts : list tag_text) :
  In (Quoted key body) ts -> len_of body <= len_of (join ts).
Proof.
  intros Hin. pose proof (join_body_len ts _ Hin) as H.
  cbn [tag_chars] in H. unfold len_of in *.
  rewrite length_app in H. cbn [length] in H. rewrite length_app in H. lia.
Qed.

Lemma bare_len (key : string) (value : cstr) (ts : list tag_text) :
  In (Bare key value) ts -> len_of value <= len_of (join ts).
Proof.
  intros Hin. pose proof (join_body_len ts _ Hin) as H.
  cbn [tag_chars] in H. unfold len_of in *.
  rewrite length_app in H. cbn [length] in H. lia.
Qed.

Lemma update_at_last {A : Type} (f : A -> A) (x : A) : forall (l : list A),
  update_at (length l) f (l ++ [x]) = l ++ [f x].
Proof. induction l as [|a l IH]; [reflexivity|]. cbn. now rewrite IH. Qed.

Lemma latlon_eta {D : Type} (ll : @LatLon D) : {| lat := lat ll; lon := lon ll |} = ll.
Proof. now destruct ll. Qed.

Section WrittenLines.
Context {C : Collaborators} {E : EntityOps}.

Lemma reset_line_fresh (ls : LineState) : fresh (reset_line ls).
Proof.
  unfold fresh. repeat split; intros v; destruct v; reflexivity.
Qed.

Lemma idle_trackpoints_end (r : Reader) : idle r -> trackpoints_end r = r.
Proof.
  unfold idle, trackpoints_end. destruct (current_track r) as [p|]; [|reflexivity].
  intros (trk & -> & ->). reflexivity.
Qed.

Lemma text_ok_strlen (v : cstr) : text_ok v = true -> (strlen v =? 0) = false.
Proof.
  intros H. destruct (text_ok_parts v H) as (Hn & _ & Hne).
  unfold strlen. rewrite (proj2 (c_str_no_nul v [] Hn)).
  apply Z.eqb_neq. destruct v; [congruence|]. unfold len_of. cbn [length]. lia.
Qed.

Lemma write_string_stored (tag : string) (v : cstr) :
  text_ok v = true -> write_string tag (Some v) = [field tag (slashdup v)].
Proof. intros H. unfold write_string. now rewrite (text_ok_strlen v H). Qed.

Lemma write_double_ok (tag : string) (d : gdouble) :
  isnan d = false -> write_double tag d = [field tag (number d)].
Proof. intros H. unfold write_double. now rewrite H. Qed.

Lemma write_count_ok (tag : string) (v : Z) :
  v <> 0 -> write_positive_uint tag v = [field tag (count v)].
Proof.
  intros H. unfold write_positive_uint. apply Z.eqb_neq in H. now rewrite H.
Qed.

Lemma text_tag_ok (key : string) (v : cstr) :
  key_ok (lit key) = true -> text_ok v = true ->
  tag_ok (Quoted key (slashdup v)) = true.
Proof.
  intros Hk Hv. destruct (text_ok_parts v Hv) as (Hn & _ & Hne).
  cbn [tag_ok]. rewrite Hk, (quoted_body_slashdup v Hn).
  pose proof (slashdup_nonempty v Hne). destruct (slashdup v); [congruence|reflexivity].
Qed.

Lemma safe_tag_ok (key : string) (t : cstr) :
  key_ok (lit key) = true -> quote_safe t = true -> tag_ok (Quoted key t) = true.
Proof.
  intros Hk Ht. destruct (quote_safe_parts t Ht) as (Hq & Hne).
  cbn [tag_ok]. rewrite Hk, (quoted_body_quotable t Hq).
  destruct t; [congruence|reflexivity].
Qed.

Lemma count_tag_ok (key : string) (z : Z) :
  key_ok (lit key) = true -> tag_ok (Quoted key (fmt_d z)) = true.
Proof.
  intros Hk. apply safe_tag_ok; [exact Hk|].
  destruct (fmt_d_quotable z) as [Hq Hne]. unfold quote_safe. rewrite Hq.
  destruct (fmt_d z); [congruence|reflexivity].
Qed.

Lemma count_read (v : Z) (rest : cstr) :
  count_ok v -> u32 (atoi (count v ++ DQ :: rest)) = v.
Proof.
  intros H. unfold count.
  rewrite atoi_fmt_d; [|apply s32_range|reflexivity].
  apply u32_s32. unfold count_ok in H. lia.
Qed.

End WrittenLines.

Ltac in_list := cbn [In app]; repeat first [left; reflexivity | right].

Ltac open_stored H v :=
  let Ev := fresh "E" v in
  let Tv := fresh "T" v in
  let Sv := fresh "S" v in
  destruct H as (v & Ev & Tv & Sv).

Section WaypointLine.
Context {C : Collaborators} {E : EntityOps}.

Lemma waypoint_text (mode : VikCoordMode) (dirpath : gstr) (wp : VikWaypoint) :
  waypoint_ok mode dirpath wp ->
  file_text (a_gpspoint_write_waypoint wp dirpath) = join (waypoint_tags wp) ++ [LF].
Proof.
  intros (Hname & Hcoord & Halt & Htime & Hspeed & Hcourse & Hmagvar & Hgeoid
          & Hcomment & Hdescr & Hsource & Hurl & Hurl_name & Htype & Hfix & Hsat
          & Hhdop & Hvdop & Hpdop & Hage & Hdgpsid & Himage & Hdir & Hdirtext & Href
          & Hsymbol & _).
  destruct Hname as (name & Ename & Tname).
  open_stored Hcomment comment. open_stored Hdescr descr. open_stored Hsource source.
  open_stored Hurl url. open_stored Hurl_name url_name. open_stored Htype xtype.
  destruct Himage as (image & Eimage & Timage & Erel & _).
  destruct Hsymbol as (symbol & Esymbol & Tsymbol & Elow & _).
  unfold a_gpspoint_write_waypoint, waypoint_tags.
  rewrite Ename, Ecomment, Edescr, Esource, Eurl, Eurl_name, Extype, Eimage, Esymbol.
  rewrite Erel, Elow.
  rewrite !write_string_stored by assumption.
  rewrite !write_double_ok by (first [apply Halt | apply Htime | apply Hspeed
    | apply Hcourse | apply Hmagvar | apply Hgeoid | apply Hhdop | apply Hvdop
    | apply Hpdop | apply Hage]).
  rewrite !write_count_ok by (unfold count_ok in *; lia).
  rewrite Hdir. cbn [negb text_of deref].
  unfold file_text, field, number.
  destruct (wp_visible wp); cbn [negb concat app join tag_chars]; unfold lit;
    cbn [list_ascii_of_string app]; repeat (rewrite <- app_assoc; cbn [app]);
    reflexivity.
Qed.


Lemma waypoint_tags_ok (mode : VikCoordMode) (dirpath : gstr) (wp : VikWaypoint) :
  waypoint_ok mode dirpath wp -> forallb tag_ok (waypoint_tags wp) = true.
Proof.
  intros (Hname & Hcoord & Halt & Htime & Hspeed & Hcourse & Hmagvar & Hgeoid
          & Hcomment & Hdescr & Hsource & Hurl & Hurl_name & Htype & Hfix & Hsat
          & Hhdop & Hvdop & Hpdop & Hage & Hdgpsid & Himage & Hdir & Hdirtext & Href
          & Hsymbol & _).
  destruct Hname as (name & Ename & Tname).
  open_stored Hcomment comment. open_stored Hdescr descr. open_stored Hsource source.
  open_stored Hurl url. open_stored Hurl_name url_name. open_stored Htype xtype.
  destruct Himage as (image & Eimage & Timage & Erel & _).
  destruct Hsymbol as (symbol & Esymbol & Tsymbol & Elow & _).
  destruct Hcoord as (Hlat & Hlon & _).
  unfold waypoint_tags.
  rewrite Ename, Ecomment, Edescr, Esource, Eurl, Eurl_name, Extype, Eimage, Esymbol.
  unfold text_of, number, count. cbn [deref].
  destruct (wp_visible wp); cbn [app forallb];
    rewrite !text_tag_ok by (first [reflexivity | assumption]);
    rewrite !count_tag_ok by reflexivity;
    rewrite !safe_tag_ok
      by (first [reflexivity | assumption | apply Hlat | apply Hlon | apply Halt
                | apply Htime | apply Hspeed | apply Hcourse | apply Hmagvar
                | apply Hgeoid | apply Hhdop | apply Hvdop | apply Hpdop | apply Hage
                | apply Hdirtext]);
    reflexivity.
Qed.

End WaypointLine.

Ltac in_keys := unfold double_keys, int_keys, first_wins, last_wins; in_list.

Section WaypointRead.
Context {C : Collaborators} {E : EntityOps}.

Lemma parse_type_word (w : string) (t : Z) (rest : cstr) :
  In (w, t) type_words ->
  parse_type (Some (lit w ++ DQ :: rest)) (len_of (lit w)) = t.
Proof.
  intros Hin. unfold type_words in Hin. cbn [In] in Hin.
  repeat (destruct Hin as [Hin|Hin]; [injection Hin as <- <-; reflexivity|]).
  contradiction.
Qed.

Lemma assemble_waypoint (dirpath : gstr) (r : Reader) (name : cstr) :
  ints (line r) line_type = GPSPOINT_TYPE_WAYPOINT ->
  strs (line r) line_name = Some name -> idle r ->
  assemble dirpath r
  = with_layer
      (modify_waypoint (length (waypoints (layer r))) (waypoint_setters dirpath (line r))
         (vik_trw_layer_filein_add_waypoint (layer r) name
            (waypoint_of_line (coord_mode (layer r)) (line r))))
      (with_line (set_s line_name None (line r)) (with_have_read_something true r)).
Proof.
  intros Ht Hn Hidle. unfold assemble. rewrite Ht.
  change (is_end_type GPSPOINT_TYPE_WAYPOINT) with false. cbv iota. cbv zeta.
  rewrite Ht, Hn. change (GPSPOINT_TYPE_WAYPOINT =? GPSPOINT_TYPE_WAYPOINT) with true.
  cbn [andb not_null deref]. rewrite (idle_trackpoints_end r Hidle). reflexivity.
Qed.

End WaypointRead.

Ltac step_type w t :=
  cbn [dispatch_joined]; rewrite dispatch_tag_type;
  rewrite (parse_type_word w t) by (unfold type_words; in_list).

Ltac step_double n key v H :=
  cbn [dispatch_joined]; rewrite (dispatch_tag_double n key v) by in_keys;
  rewrite (proj2 H).

Ltac step_count n key v H :=
  cbn [dispatch_joined]; rewrite (dispatch_tag_int n key v true) by in_keys;
  cbv iota; rewrite (count_read _ _ H).

Ltac step_first n key v Hb T :=
  cbn [dispatch_joined];
  rewrite (dispatch_tag_first n key v)
    by (first [solve [in_keys] | exact T | solve [apply (Hb key); in_list]
              | solve [cbn [strs set_i set_d set_s set_b svar_beq]; auto]]).

Ltac step_last n key v Hb T :=
  cbn [dispatch_joined];
  rewrite (dispatch_tag_last n key v)
    by (first [solve [in_keys] | exact T | solve [apply (Hb key); in_list]]).

Section WaypointLineRead.
Context {C : Collaborators} {E : EntityOps}.

Lemma waypoint_line (dirpath : gstr) (wp : VikWaypoint) (r : Reader) :
  waypoint_ok (coord_mode (layer r)) dirpath wp -> fresh (line r) -> idle r ->
  len_of (join (waypoint_tags wp)) <= 4094 ->
  exists r', process_line dirpath (join (waypoint_tags wp)) r = Some r'
    /\ waypoints (layer r') = waypoints (layer r) ++ [wp]
    /\ tracks (layer r') = tracks (layer r) /\ routes (layer r') = routes (layer r)
    /\ coord_mode (layer r') = coord_mode (layer r)
    /\ current_track r' = current_track r /\ fresh (line r').
Proof.
  intros Hok Hfresh Hidle Hlen.
  pose proof (waypoint_tags_ok _ _ _ Hok) as Htags.
  unfold process_line. rewrite (process_line_tags_joined _ _ Htags) by lia.
  assert (Hb : forall k b, In (Quoted k b) (waypoint_tags wp) -> len_of b <= 65535).
  { intros k b Hin. pose proof (quoted_len k b _ Hin). lia. }
  clear Htags Hlen.
  destruct Hok as (Hname & Hcoord & Halt & Htime & Hspeed & Hcourse & Hmagvar & Hgeoid
          & Hcomment & Hdescr & Hsource & Hurl & Hurl_name & Htype & Hfix & Hsat
          & Hhdop & Hvdop & Hpdop & Hage & Hdgpsid & Himage & Hdir & Hdirtext & Href
          & Hsymbol & Hhide & Hwidth & Hheight & Hext).
  destruct Hname as (name & Ename & Tname).
  open_stored Hcomment comment. open_stored Hdescr descr. open_stored Hsource source.
  open_stored Hurl url. open_stored Hurl_name url_name. open_stored Htype xtype.
  destruct Himage as (image & Eimage & Timage & Erel & Simage).
  destruct Hsymbol as (symbol & Esymbol & Tsymbol & Elow & Ssymbol).
  destruct Hcoord as (Hlat & Hlon & Hload).
  destruct r as [ls ct trw hrs]. cbn [line layer current_track] in *.
  destruct ls as [fi fd fs fb].
  destruct Hfresh as (Fi & Fs & Fb & Fd). cbn [ints dbls strs flags] in Fi, Fs, Fb, Fd.
  revert Hb. unfold waypoint_tags.
  rewrite Ename, Ecomment, Edescr, Esource, Eurl, Eurl_name, Extype, Eimage, Esymbol.
  unfold text_of, number. cbn [deref].
  destruct (wp_visible wp) eqn:Evis; cbn [app]; intros Hb.
  all: step_type "waypoint" GPSPOINT_TYPE_WAYPOINT.
  all: step_double 8 "latitude" line_latlon_lat Hlat.
  all: step_double 9 "longitude" line_latlon_lon Hlon.
  all: step_first 4 "name" line_name Hb Tname.
  all: step_double 8 "altitude" line_altitude (proj2 Halt).
  all: step_double 8 "unixtime" line_timestamp (proj2 Htime).
  all: step_double 5 "speed" line_speed (proj2 Hspeed).
  all: step_double 6 "course" line_course (proj2 Hcourse).
  all: step_double 6 "magvar" line_magvar (proj2 Hmagvar).
  all: step_double 11 "geoidheight" line_geoidheight (proj2 Hgeoid).
  all: step_first 7 "comment" line_comment Hb Tcomment.
  all: step_first 11 "description" line_description Hb Tdescr.
  all: step_first 6 "source" line_source Hb Tsource.
  all: step_last 3 "url" line_url Hb Turl.
  all: step_last 8 "url_name" line_url_name Hb Turl_name.
  all: step_first 5 "xtype" line_xtype Hb Txtype.
  all: step_count 3 "fix" line_fix Hfix.
  all: step_count 3 "sat" line_sat Hsat.
  all: step_double 4 "hdop" line_hdop (proj2 Hhdop).
  all: step_double 4 "vdop" line_vdop (proj2 Hvdop).
  all: step_double 4 "pdop" line_pdop (proj2 Hpdop).
  all: step_double 13 "ageofdgpsdata" line_ageofdgpsdata (proj2 Hage).
  all: step_count 6 "dgpsid" line_dgpsid Hdgpsid.
  all: step_first 5 "image" line_image Hb Timage.
  all: step_double 15 "image_direction" line_image_direction Hdirtext.
  all: cbn [dispatch_joined];
    rewrite (dispatch_tag_int 19 "image_direction_ref" line_image_direction_ref false)
      by in_keys; cbv iota; rewrite atoi_fmt_d by (first [exact Href | reflexivity]).
  all: cbn [dispatch_joined];
    rewrite dispatch_tag_symbol
      by (destruct (quote_safe_parts _ Tsymbol) as [Hq _]; unfold no_nul;
          apply forallb_forall; intros c Hc;
          pose proof (proj1 (forallb_forall _ _) Hq c Hc) as Hqc;
          unfold quotable in Hqc; apply negb_true_iff in Hqc;
          apply orb_false_iff in Hqc; destruct Hqc as [Hqc _];
          apply orb_false_iff in Hqc; destruct Hqc as [Hqc _];
          apply orb_false_iff in Hqc; destruct Hqc as [Hqc _];
          now rewrite Hqc).
  2: cbn [dispatch_joined]; rewrite dispatch_tag_visible_n.
  all: cbn [dispatch_joined].
  all: eexists; split; [reflexivity|].
  all: rewrite (assemble_waypoint dirpath _ name); [|reflexivity|reflexivity|exact Hidle].
  all: cbn [with_line with_layer with_have_read_something line layer current_track
             waypoints tracks routes coord_mode modify_waypoint
             vik_trw_layer_filein_add_waypoint].
  all: repeat split; try apply reset_line_fresh.
  all: rewrite update_at_last; f_equal; f_equal.
  all: unfold waypoint_setters, waypoint_of_line, when_set.
  all: cbn [strs ints dbls flags set_i set_d set_s set_b
             ivar_beq dvar_beq svar_beq bvar_beq].
  all: rewrite Scomment, Sdescr, Ssource, Surl, Surl_name, Sxtype, Simage, Hdir, Ssymbol.
  all: rewrite latlon_eta, Hload; try rewrite Fb; cbn [negb].
  all: rewrite <- Esymbol, <- Eimage, <- Extype, <- Eurl_name, <- Eurl, <- Esource,
         <- Edescr, <- Ecomment, <- Ename, <- Evis.
  all: clear - Hhide Hwidth Hheight Hext.
  all: destruct wp; cbn in Hhide, Hwidth, Hheight, Hext; subst; reflexivity.
Qed.

End WaypointLineRead.

(** ** The loop over the lines *)

Lemma in_line_parts (c : ascii) :
  in_line c = true -> Ascii.eqb c NUL = false /\ Ascii.eqb c LF = false.
Proof.
  unfold in_line. intros H. apply negb_true_iff in H. now apply orb_false_iff in H.
Qed.

Lemma fgets_read_line : forall (l rest : list ascii) (n : nat),
  forallb in_line l = true -> (length l < n)%nat ->
  fgets_read n (l ++ LF :: rest) = (l ++ [LF], rest).
Proof.
  induction l as [|c l IH]; intros rest n Hl Hn.
  - destruct n as [|n]; [cbn in Hn; lia|]. reflexivity.
  - cbn [forallb] in Hl. apply andb_true_iff in Hl. destruct Hl as [Hc Hl].
    destruct (in_line_parts c Hc) as [_ Hlf].
    destruct n as [|n]; [cbn in Hn; lia|]. cbn [app fgets_read]. rewrite Hlf.
    rewrite (IH rest n Hl) by (cbn [length] in Hn; lia). reflexivity.
Qed.

Lemma fgets_line (l rest : list ascii) :
  forallb in_line l = true -> (length l <= 4094)%nat ->
  fgets (l ++ LF :: rest) = Some (l ++ [LF], rest).
Proof.
  intros Hl Hn. unfold fgets.
  destruct (l ++ LF :: rest) eqn:E0; [now destruct l|]. rewrite <- E0.
  f_equal. apply fgets_read_line; [exact Hl|]. unfold VIKING_LINE_SIZE. lia.
Qed.

Lemma c_str_line : forall (l : list ascii),
  forallb in_line l = true -> c_str (l ++ [LF]) = l ++ [LF].
Proof.
  induction l as [|c l IH]; intros Hl; [reflexivity|].
  cbn [forallb] in Hl. apply andb_true_iff in Hl. destruct Hl as [Hc Hl].
  destruct (in_line_parts c Hc) as [Hn _]. cbn [app c_str]. now rewrite Hn, IH.
Qed.

Lemma fgets_read_shorter : forall (n : nat) (f : list ascii),
  (length (snd (fgets_read n f)) <= length f)%nat.
Proof.
  induction n as [|n IH]; intros f; [cbn; lia|].
  destruct f as [|c f]; [cbn; lia|]. cbn [fgets_read].
  destruct (Ascii.eqb c LF); [cbn; lia|].
  specialize (IH f). destruct (fgets_read n f) as [l r]. cbn [snd length] in *. lia.
Qed.

Lemma fgets_shorter (f buf f' : list ascii) :
  fgets f = Some (buf, f') -> (length f' < length f)%nat.
Proof.
  unfold fgets. destruct f as [|c f]; [discriminate|].
  assert (Hstep : forall n, fgets_read (S n) (c :: f)
                 = if Ascii.eqb c LF then ([c], f)
                   else let '(l, r) := fgets_read n f in (c :: l, r)) by reflexivity.
  unfold VIKING_LINE_SIZE. change (4096 - 1)%nat with (S 4094). rewrite Hstep.
  clear Hstep. generalize 4094%nat. intros n.
  destruct (Ascii.eqb c LF).
  - intros H. inversion H; subst. cbn [length]. lia.
  - pose proof (fgets_read_shorter n f) as Hs.
    destruct (fgets_read n f) as [l r]. intros H. inversion H; subst.
    cbn [snd length] in *. lia.
Qed.

Lemma fits_line : forall (l rest : list ascii) (n cur : nat),
  forallb in_line l = true ->
  fits n (l ++ LF :: rest) cur = Nat.leb (S (cur + length l)) n && fits n rest O.
Proof.
  induction l as [|c l IH]; intros rest n cur Hl.
  - cbn [app fits length]. rewrite Ascii.eqb_refl, Nat.add_0_r. reflexivity.
  - cbn [forallb] in Hl. apply andb_true_iff in Hl. destruct Hl as [Hc Hl].
    destruct (in_line_parts c Hc) as [_ Hlf]. cbn [app fits length]. rewrite Hlf.
    rewrite (IH rest n (S cur) Hl). do 2 f_equal. lia.
Qed.

Section Loop.
Context {C : Collaborators} {E : EntityOps}.

Lemma read_lines_fuel (dirpath : gstr) : forall (fuel fuel' : nat) (f : list ascii)
    (r : Reader),
  (length f < fuel)%nat -> (length f < fuel')%nat ->
  read_lines fuel dirpath f r = read_lines fuel' dirpath f r.
Proof.
  induction fuel as [|fuel IH]; intros fuel' f r H1 H2; [lia|].
  destruct fuel' as [|fuel']; [lia|]. cbn [read_lines].
  destruct (fgets f) as [[buf f']|] eqn:Eg; [|reflexivity].
  pose proof (fgets_shorter f buf f' Eg) as Hs.
  destruct (c_str buf); [reflexivity|].
  destruct (is_end_layer_data _); [reflexivity|].
  destruct (process_line _ _ _); [|reflexivity].
  apply IH; lia.
Qed.

(** One line of the text: the loop goes on with the rest of the text. *)
Lemma run_line (dirpath : gstr) (l rest : list ascii) (r r' : Reader) :
  forallb in_line l = true -> (length l <= 4094)%nat ->
  is_end_layer_data l = false ->
  process_line dirpath l r = Some r' ->
  run dirpath (l ++ LF :: rest) r = run dirpath rest r'.
Proof.
  intros Hl Hn He Hp. unfold run at 1. cbn [read_lines].
  rewrite (fgets_line l rest Hl Hn), (c_str_line l Hl).
  destruct (l ++ [LF]) eqn:E0; [now destruct l|]. rewrite <- E0.
  rewrite removelast_last, He, Hp. unfold run.
  apply read_lines_fuel; rewrite ?length_app; cbn [length]; lia.
Qed.

Lemma run_end (dirpath : gstr) (r : Reader) : run dirpath [] r = Some r.
Proof. reflexivity. Qed.

End Loop.

(** The characters of a line made of well-formed tags. *)
Lemma plain_in_line (c : ascii) : plain c = true -> in_line c = true.
Proof.
  destruct c as [[] [] [] [] [] [] [] []]; vm_compute; intros H;
    first [reflexivity | discriminate H].
Qed.

Lemma forallb_plain_in_line (l : cstr) :
  forallb plain l = true -> forallb in_line l = true.
Proof.
  intros H. apply forallb_forall. intros c Hc. apply plain_in_line.
  exact (proj1 (forallb_forall _ _) H c Hc).
Qed.

Lemma quoted_body_in_line : forall (body : cstr) (b : bool),
  quoted_body body b = true -> forallb in_line body = true.
Proof.
  induction body as [|c body IH]; intros b H; [reflexivity|].
  cbn [quoted_body] in H. cbn [forallb]. unfold in_line at 1.
  destruct (Ascii.eqb c NUL || Ascii.eqb c LF); [discriminate|]. cbn [negb andb].
  destruct (Ascii.eqb c BSL && negb b); [now apply (IH true)|].
  destruct b; [now apply (IH false)|].
  destruct (Ascii.eqb c DQ); [discriminate|now apply (IH false)].
Qed.

Lemma tag_chars_in_line (t : tag_text) :
  tag_ok t = true -> forallb in_line (tag_chars t) = true.
Proof.
  destruct t as [key body|key value]; cbn [tag_ok tag_chars]; intros H.
  - apply andb_true_iff in H. destruct H as [H _].
    apply andb_true_iff in H. destruct H as [Hk Hb].
    assert (Hp : forallb plain (lit key) = true).
    { unfold key_ok in Hk. apply andb_true_iff in Hk. destruct Hk as [Hk _].
      apply andb_true_iff in Hk. destruct Hk as [Hk _].
      apply andb_true_iff in Hk. now destruct Hk. }
    rewrite forallb_app. rewrite (forallb_plain_in_line _ Hp). cbn [forallb andb].
    rewrite forallb_app, (quoted_body_in_line _ _ Hb). reflexivity.
  - apply andb_true_iff in H. destruct H as [H _].
    apply andb_true_iff in H. destruct H as [Hk Hv].
    assert (Hp : forallb plain (lit key) = true).
    { unfold key_ok in Hk. apply andb_true_iff in Hk. destruct Hk as [Hk _].
      apply andb_true_iff in Hk. destruct Hk as [Hk _].
      apply andb_true_iff in Hk. now destruct Hk. }
    rewrite forallb_app. rewrite (forallb_plain_in_line _ Hp). cbn [forallb andb].
    now rewrite (forallb_plain_in_line _ Hv).
Qed.

Lemma join_in_line : forall (ts : list tag_text),
  forallb tag_ok ts = true -> forallb in_line (join ts) = true.
Proof.
  induction ts as [|t ts IH]; [reflexivity|]. cbn [forallb]. intros H.
  apply andb_true_iff in H. destruct H as [Ht Hts].
  destruct ts as [|t' ts]; cbn [join]; [now apply tag_chars_in_line|].
  rewrite forallb_app, (tag_chars_in_line t Ht). cbn [forallb andb].
  change (in_line SP) with true. exact (IH Hts).
Qed.

Lemma type_line_goes_on (body : cstr) (ts : list tag_text) :
  is_end_layer_data (join (Quoted "type" body :: ts)) = false.
Proof.
  unfold is_end_layer_data.
  assert (H : strncmp_eq (join (Quoted "type" body :: ts)) (lit "~EndLayerData") 13
              = false).
  { destruct ts; reflexivity. }
  rewrite H. apply andb_false_r.
Qed.

Section TrackpointLine.
Context {C : Collaborators} {E : EntityOps}.

Lemma trackpoint_text (mode : VikCoordMode) (is_route : bool) (tp : VikTrackpoint) :
  trackpoint_ok mode tp ->
  file_text (a_gpspoint_write_trackpoint tp is_route)
  = join (trackpoint_tags is_route tp) ++ [LF].
Proof.
  intros (Hcoord & Hname & Halt & Htime & Hspeed & Hcourse & Hsat & Hfix
          & Hhdop & Hvdop & Hpdop).
  destruct Hname as (name & Ename & Tname & Sname).
  unfold a_gpspoint_write_trackpoint, trackpoint_tags, has_extended.
  rewrite Ename. rewrite (proj1 Hspeed). cbn [negb orb].
  rewrite !write_string_stored by assumption.
  rewrite !write_double_ok by (first [apply Halt | apply Htime | apply Hspeed
    | apply Hcourse | apply Hhdop | apply Hvdop | apply Hpdop]).
  rewrite !write_count_ok by (unfold count_ok in *; lia).
  unfold file_text, field, number, text_of. cbn [deref].
  destruct is_route; destruct (tp_newsegment tp);
    cbn [negb concat app join tag_chars]; unfold lit;
    cbn [list_ascii_of_string app]; repeat (rewrite <- app_assoc; cbn [app]);
    reflexivity.
Qed.

Lemma trackpoint_tags_ok (mode : VikCoordMode) (is_route : bool) (tp : VikTrackpoint) :
  trackpoint_ok mode tp -> forallb tag_ok (trackpoint_tags is_route tp) = true.
Proof.
  intros (Hcoord & Hname & Halt & Htime & Hspeed & Hcourse & Hsat & Hfix
          & Hhdop & Hvdop & Hpdop).
  destruct Hname as (name & Ename & Tname & Sname).
  destruct Hcoord as (Hlat & Hlon & _).
  unfold trackpoint_tags. rewrite Ename. unfold text_of, number, count. cbn [deref].
  destruct is_route; destruct (tp_newsegment tp); cbn [app forallb];
    rewrite !text_tag_ok by (first [reflexivity | assumption]);
    rewrite !count_tag_ok by reflexivity;
    rewrite !safe_tag_ok
      by (first [reflexivity | assumption | apply Hlat | apply Hlon | apply Halt
                | apply Htime | apply Hspeed | apply Hcourse
                | apply Hhdop | apply Hvdop | apply Hpdop]);
    reflexivity.
Qed.

Lemma modify_track_last (is_route : bool) (f : VikTrack -> VikTrack)
      (trw : VikTrwLayer) (ts : list VikTrack) (cur : VikTrack) :
  collection is_route trw = ts ++ [cur] ->
  collection is_route (modify_track (is_route, length ts) f trw) = ts ++ [f cur]
  /\ collection (negb is_route) (modify_track (is_route, length ts) f trw)
     = collection (negb is_route) trw
  /\ waypoints (modify_track (is_route, length ts) f trw) = waypoints trw
  /\ coord_mode (modify_track (is_route, length ts) f trw) = coord_mode trw.
Proof.
  intros H. unfold modify_track. cbn [fst snd].
  destruct is_route; cbn [collection negb] in *; cbn [routes tracks waypoints coord_mode];
    rewrite H, update_at_last; repeat split; reflexivity.
Qed.

Lemma assemble_trackpoint (dirpath : gstr) (r : Reader) (p : track_ref) :
  ints (line r) line_type = GPSPOINT_TYPE_TRACKPOINT
  \/ ints (line r) line_type = GPSPOINT_TYPE_ROUTEPOINT ->
  current_track r = Some p ->
  assemble dirpath r
  = with_layer
      (modify_track p
         (fun trk =>
            set_trk_trackpoints
              (trackpoint_of_line (coord_mode (layer r)) (line r) :: trk_trackpoints trk)
              trk)
         (layer r))
      (with_have_read_something true r).
Proof.
  intros Ht Hp. unfold assemble.
  destruct Ht as [Ht|Ht]; rewrite Ht; cbv zeta;
    match goal with
    | |- context [is_end_type ?t] => change (is_end_type t) with false
    end; cbv iota; rewrite Ht;
    cbn [Z.eqb Pos.eqb GPSPOINT_TYPE_WAYPOINT GPSPOINT_TYPE_TRACK GPSPOINT_TYPE_ROUTE
         GPSPOINT_TYPE_TRACKPOINT GPSPOINT_TYPE_ROUTEPOINT andb orb];
    rewrite Hp; cbn [with_have_read_something current_track]; rewrite Hp; reflexivity.
Qed.

End TrackpointLine.

Section TrackpointLineRead.
Context {C : Collaborators} {E : EntityOps}.

Lemma trackpoint_line (dirpath : gstr) (is_route kind : bool) (tp : VikTrackpoint)
      (r : Reader) (ts : list VikTrack) (cur : VikTrack) :
  trackpoint_ok (coord_mode (layer r)) tp -> fresh (line r) ->
  current_track r = Some (is_route, length ts) ->
  collection is_route (layer r) = ts ++ [cur] ->
  len_of (join (trackpoint_tags kind tp)) <= 4094 ->
  exists r', process_line dirpath (join (trackpoint_tags kind tp)) r = Some r'
    /\ collection is_route (layer r')
       = ts ++ [set_trk_trackpoints (tp :: trk_trackpoints cur) cur]
    /\ collection (negb is_route) (layer r') = collection (negb is_route) (layer r)
    /\ waypoints (layer r') = waypoints (layer r)
    /\ coord_mode (layer r') = coord_mode (layer r)
    /\ current_track r' = current_track r /\ fresh (line r').
Proof.
  intros Hok Hfresh Hcur Hcoll Hlen.
  pose proof (trackpoint_tags_ok _ kind _ Hok) as Htags.
  unfold process_line. rewrite (process_line_tags_joined _ _ Htags) by lia.
  assert (Hb : forall k b, In (Quoted k b) (trackpoint_tags kind tp) -> len_of b <= 65535).
  { intros k b Hin. pose proof (quoted_len k b _ Hin). lia. }
  clear Htags Hlen.
  destruct Hok as (Hcoord & Hname & Halt & Htime & Hspeed & Hcourse & Hsat & Hfix
          & Hhdop & Hvdop & Hpdop).
  destruct Hname as (name & Ename & Tname & Sname).
  destruct Hcoord as (Hlat & Hlon & Hload).
  destruct r as [ls ct trw hrs]. cbn [line layer current_track] in *.
  destruct ls as [fi fd fs fb].
  destruct Hfresh as (Fi & Fs & Fb & Fd). cbn [ints dbls strs flags] in Fi, Fs, Fb, Fd.
  revert Hb. unfold trackpoint_tags. rewrite Ename.
  unfold text_of, number. cbn [deref].
  destruct kind; destruct (tp_newsegment tp) eqn:Eseg; cbn [app]; intros Hb.
  1, 2: step_type "routepoint" GPSPOINT_TYPE_ROUTEPOINT.
  all: try step_type "trackpoint" GPSPOINT_TYPE_TRACKPOINT.
  all: step_double 8 "latitude" line_latlon_lat Hlat.
  all: step_double 9 "longitude" line_latlon_lon Hlon.
  all: step_first 4 "name" line_name Hb Tname.
  all: step_double 8 "altitude" line_altitude (proj2 Halt).
  all: step_double 8 "unixtime" line_timestamp (proj2 Htime).
  1, 3: cbn [dispatch_joined]; rewrite dispatch_tag_newsegment.
  all: cbn [dispatch_joined]; rewrite dispatch_tag_extended.
  all: step_double 5 "speed" line_speed (proj2 Hspeed).
  all: step_double 6 "course" line_course (proj2 Hcourse).
  all: step_count 3 "sat" line_sat Hsat.
  all: step_count 3 "fix" line_fix Hfix.
  all: step_double 4 "hdop" line_hdop (proj2 Hhdop).
  all: step_double 4 "vdop" line_vdop (proj2 Hvdop).
  all: step_double 4 "pdop" line_pdop (proj2 Hpdop).
  all: cbn [dispatch_joined].
  all: eexists; split; [reflexivity|].
  all: rewrite (assemble_trackpoint dirpath _ (is_route, length ts));
    [|first [left; reflexivity | right; reflexivity]|exact Hcur].
  all: cbn [with_line with_layer with_have_read_something line layer current_track].
  all: match goal with
       | |- context [modify_track _ ?f ?w] =>
           destruct (modify_track_last is_route f w ts cur Hcoll) as (M1 & M2 & M3 & M4)
       end.
  all: rewrite M1, M2, M3, M4.
  all: repeat split; try apply reset_line_fresh.
  all: do 3 f_equal.
  all: unfold trackpoint_of_line.
  all: cbn [strs ints dbls flags set_i set_d set_s set_b
             ivar_beq dvar_beq svar_beq bvar_beq].
  all: rewrite Sname, latlon_eta, Hload; try rewrite Fb.
  all: rewrite <- Ename; try rewrite <- Eseg.
  all: clear; destruct tp; reflexivity.
Qed.

End TrackpointLineRead.

Lemma hex_digit_plain (n : Z) : 0 <= n < 16 -> plain (hex_digit n) = true.
Proof.
  intros H.
  rewrite <- (Z2Nat.id n) by lia.
  assert (Hk : (Z.to_nat n < 16)%nat) by lia.
  revert Hk. generalize (Z.to_nat n). intros k Hk.
  do 16 (destruct k as [|k]; [reflexivity|]). lia.
Qed.

Lemma fmt_02x_plain (v : Z) : 0 <= v < 256 -> forallb plain (fmt_02x v) = true.
Proof.
  intros H. unfold fmt_02x. cbn [forallb].
  rewrite !hex_digit_plain; [reflexivity| |].
  - pose proof (Z.mod_pos_bound v 16 ltac:(lia)). lia.
  - split; [apply Z.div_pos; lia|]. apply Z.div_lt_upper_bound; lia.
Qed.

Lemma color_text_plain (c : GdkColor) :
  forallb plain (color_text c) = true /\ color_text c <> [].
Proof.
  assert (Hb : forall x, 0 <= u16 x / 256 < 256).
  { intros x. unfold u16. pose proof (Z.mod_pos_bound x 65536 ltac:(lia)).
    split; [apply Z.div_pos; lia|]. apply Z.div_lt_upper_bound; lia. }
  unfold color_text. split; [|discriminate].
  cbn [forallb]. rewrite !forallb_app, !fmt_02x_plain by apply Hb. reflexivity.
Qed.

Section TrackLine.
Context {C : Collaborators} {E : EntityOps}.

(** The line that opens a track and the line that closes it. *)
Lemma track_text (mode : VikCoordMode) (is_route : bool) (trk : VikTrack) :
  track_ok mode is_route trk ->
  file_text (a_gpspoint_write_track trk)
  = join (track_tags trk) ++ LF
      :: file_text (flat_map (fun tp => a_gpspoint_write_trackpoint tp is_route)
                      (trk_trackpoints trk))
      ++ join [Quoted "type" (lit (if is_route then "routeend" else "trackend"))]
      ++ [LF].
Proof.
  intros (Hroute & Hname & Hcomment & Hdescr & Hsource & Hnumber & Htype & Hcolor
          & Hmode & Hdist & Hpoints).
  destruct Hname as (name & Ename & Tname).
  open_stored Hcomment comment. open_stored Hdescr descr. open_stored Hsource source.
  open_stored Htype xtype.
  unfold a_gpspoint_write_track, track_tags.
  rewrite Ename, Ecomment, Edescr, Esource, Extype, Hroute.
  rewrite !write_string_stored by assumption.
  rewrite !write_count_ok by (unfold count_ok in *; lia).
  unfold file_text, field, text_of, color_field, color_text. cbn [deref].
  rewrite !concat_app.
  generalize (concat (flat_map (fun tp => a_gpspoint_write_trackpoint tp is_route)
                        (trk_trackpoints trk))).
  intros points.
  destruct is_route; destruct (trk_has_color trk); destruct (trk_visible trk);
    cbn [negb concat app join tag_chars]; unfold lit;
    cbn [list_ascii_of_string app]; repeat (rewrite <- app_assoc; cbn [app]);
    reflexivity.
Qed.

Lemma track_tags_ok (mode : VikCoordMode) (is_route : bool) (trk : VikTrack) :
  track_ok mode is_route trk -> forallb tag_ok (track_tags trk) = true.
Proof.
  intros (Hroute & Hname & Hcomment & Hdescr & Hsource & Hnumber & Htype & Hcolor
          & Hmode & Hdist & Hpoints).
  destruct Hname as (name & Ename & Tname).
  open_stored Hcomment comment. open_stored Hdescr descr. open_stored Hsource source.
  open_stored Htype xtype.
  unfold track_tags. rewrite Ename, Ecomment, Edescr, Esource, Extype.
  unfold text_of, count. cbn [deref].
  assert (Hc : tag_ok (Bare "color" (color_text (trk_color trk))) = true).
  { destruct (color_text_plain (trk_color trk)) as [Hp Hne]. cbn [tag_ok].
    rewrite Hp. destruct (color_text (trk_color trk)); [congruence|reflexivity]. }
  destruct (trk_is_route trk); destruct (trk_has_color trk); destruct (trk_visible trk);
    cbn [app forallb]; rewrite ?Hc;
    rewrite !text_tag_ok by (first [reflexivity | assumption]);
    rewrite !count_tag_ok by reflexivity;
    reflexivity.
Qed.

Lemma assemble_track (dirpath : gstr) (r : Reader) (name : cstr) :
  ints (line r) line_type = GPSPOINT_TYPE_TRACK
  \/ ints (line r) line_type = GPSPOINT_TYPE_ROUTE ->
  strs (line r) line_name = Some name -> idle r ->
  assemble dirpath r
  = with_current_track
      (Some (trk_is_route (track_of_line (line r)),
             length (collection (trk_is_route (track_of_line (line r))) (layer r))))
      (with_layer (vik_trw_layer_filein_add_track (layer r) name (track_of_line (line r)))
         (with_line (set_s line_name None (line r)) (with_have_read_something true r))).
Proof.
  intros Ht Hn Hidle. unfold assemble.
  destruct Ht as [Ht|Ht]; rewrite Ht; cbv zeta;
    match goal with
    | |- context [is_end_type ?t] => change (is_end_type t) with false
    end; cbv iota; rewrite Ht, Hn;
    cbn [Z.eqb Pos.eqb GPSPOINT_TYPE_WAYPOINT GPSPOINT_TYPE_TRACK GPSPOINT_TYPE_ROUTE
         andb orb not_null];
    rewrite (idle_trackpoints_end r Hidle); unfold collection;
    destruct (trk_is_route (track_of_line (line r))); reflexivity.
Qed.

Lemma add_track_last (is_route : bool) (trw : VikTrwLayer) (name : cstr)
      (trk : VikTrack) :
  trk_is_route trk = is_route ->
  collection is_route (vik_trw_layer_filein_add_track trw name trk)
  = collection is_route trw ++ [set_trk_name (Some name) trk]
  /\ collection (negb is_route) (vik_trw_layer_filein_add_track trw name trk)
     = collection (negb is_route) trw
  /\ waypoints (vik_trw_layer_filein_add_track trw name trk) = waypoints trw
  /\ coord_mode (vik_trw_layer_filein_add_track trw name trk) = coord_mode trw.
Proof.
  intros H. unfold vik_trw_layer_filein_add_track. rewrite H.
  destruct is_route; repeat split; reflexivity.
Qed.

End TrackLine.

Lemma label_read (v : Z) (rest : cstr) :
  0 < v < 2147483648 -> atoi (count v ++ DQ :: rest) = v.
Proof.
  intros H. unfold count. rewrite s32_small by lia.
  apply atoi_fmt_d; [lia|reflexivity].
Qed.

Ltac step_label n key v H :=
  cbn [dispatch_joined]; rewrite (dispatch_tag_int n key v false) by in_keys;
  cbv iota; rewrite (label_read _ _ H).

Section TrackLineRead.
Context {C : Collaborators} {E : EntityOps}.

Lemma is_route_set_name (name : gstr) (trk : VikTrack) :
  trk_is_route (set_trk_name name trk) = trk_is_route trk.
Proof. reflexivity. Qed.

Lemma is_route_set_trackpoints (l : list VikTrackpoint) (trk : VikTrack) :
  trk_is_route (set_trk_trackpoints l trk) = trk_is_route trk.
Proof. reflexivity. Qed.

Lemma track_ext (a b : VikTrack) :
  trk_trackpoints a = trk_trackpoints b -> trk_visible a = trk_visible b ->
  trk_is_route a = trk_is_route b -> trk_name a = trk_name b ->
  trk_comment a = trk_comment b -> trk_description a = trk_description b ->
  trk_source a = trk_source b -> trk_number a = trk_number b ->
  trk_type a = trk_type b -> trk_color a = trk_color b ->
  trk_has_color a = trk_has_color b ->
  trk_draw_name_mode a = trk_draw_name_mode b ->
  trk_max_number_dist_labels a = trk_max_number_dist_labels b -> a = b.
Proof.
  destruct a, b. cbn. intros. subst. reflexivity.
Qed.

Lemma track_line (dirpath : gstr) (is_route : bool) (trk : VikTrack) (r : Reader) :
  track_ok (coord_mode (layer r)) is_route trk -> fresh (line r) -> idle r ->
  len_of (join (track_tags trk)) <= 4094 ->
  exists r', process_line dirpath (join (track_tags trk)) r = Some r'
    /\ collection is_route (layer r')
       = collection is_route (layer r) ++ [set_trk_trackpoints [] trk]
    /\ collection (negb is_route) (layer r') = collection (negb is_route) (layer r)
    /\ waypoints (layer r') = waypoints (layer r)
    /\ coord_mode (layer r') = coord_mode (layer r)
    /\ current_track r' = Some (is_route, length (collection is_route (layer r)))
    /\ fresh (line r').
Proof.
  intros Hok Hfresh Hidle Hlen.
  pose proof (track_tags_ok _ _ _ Hok) as Htags.
  unfold process_line. rewrite (process_line_tags_joined _ _ Htags) by lia.
  assert (Hb : forall k b, In (Quoted k b) (track_tags trk) -> len_of b <= 65535).
  { intros k b Hin. pose proof (quoted_len k b _ Hin). lia. }
  assert (Hv : forall k b, In (Bare k b) (track_tags trk) -> len_of b <= 65535).
  { intros k b Hin. pose proof (bare_len k b _ Hin). lia. }
  clear Htags Hlen.
  destruct Hok as (Hroute & Hname & Hcomment & Hdescr & Hsource & Hnumber & Htype
          & Hcolor & Hmode & Hdist & _).
  destruct Hname as (name & Ename & Tname).
  open_stored Hcomment comment. open_stored Hdescr descr. open_stored Hsource source.
  open_stored Htype xtype.
  destruct (color_text_plain (trk_color trk)) as [Hplain Hne].
  destruct r as [ls ct trw hrs]. cbn [line layer current_track] in *.
  destruct ls as [fi fd fs fb].
  destruct Hfresh as (Fi & Fs & Fb & Fd). cbn [ints dbls strs flags] in Fi, Fs, Fb, Fd.
  revert Hb Hv. unfold track_tags, color_ok in *.
  rewrite Ename, Ecomment, Edescr, Esource, Extype.
  unfold text_of. cbn [deref]. rewrite Hroute.
  destruct is_route; destruct (trk_has_color trk) eqn:Ehas;
    destruct (trk_visible trk) eqn:Evis; cbn [app]; intros Hb Hv.
  1, 2, 3, 4: step_type "route" GPSPOINT_TYPE_ROUTE.
  5, 6, 7, 8: step_type "track" GPSPOINT_TYPE_TRACK.
  all: step_first 4 "name" line_name Hb Tname.
  all: step_first 7 "comment" line_comment Hb Tcomment.
  all: step_first 11 "description" line_description Hb Tdescr.
  all: step_first 6 "source" line_source Hb Tsource.
  all: step_count 6 "number" line_number Hnumber.
  all: step_first 5 "xtype" line_xtype Hb Txtype.
  1, 2, 5, 6: cbn [dispatch_joined];
    rewrite dispatch_tag_color
      by (first [exact Hplain | exact Hne | solve [apply (Hv "color"); in_list]
                | solve [cbn [strs set_i set_d set_s set_b svar_beq]; auto]]).
  all: step_label 14 "draw_name_mode" line_name_label Hmode.
  all: step_label 18 "number_dist_labels" line_dist_label Hdist.
  2, 4, 6, 8: cbn [dispatch_joined]; rewrite dispatch_tag_visible_n.
  all: cbn [dispatch_joined].
  all: eexists; split; [reflexivity|].
  all: rewrite (assemble_track dirpath _ name);
    [|first [left; reflexivity | right; reflexivity]|reflexivity|exact Hidle].
  all: cbn [with_line with_layer with_have_read_something with_current_track
             line layer current_track].
  all: match goal with
       | |- context [track_of_line ?st] => remember (track_of_line st) as tl eqn:Etl
       end.
  all: assert (Htl : set_trk_name (Some name) tl = set_trk_trackpoints [] trk);
    [ rewrite Etl; unfold track_of_line, when_set;
      cbn [strs ints dbls flags set_i set_d set_s set_b
           ivar_beq dvar_beq svar_beq bvar_beq];
      rewrite Scomment, Sdescr, Ssource, Sxtype;
      rewrite (proj2 (Z.eqb_neq (trk_number trk) 0))
        by (unfold count_ok in Hnumber; lia);
      rewrite ?Hcolor, ?Fs, ?Fb;
      apply track_ext;
      [ reflexivity | exact (eq_sym Evis) | exact (eq_sym Hroute)
      | exact (eq_sym Ename) | exact (eq_sym Ecomment) | exact (eq_sym Edescr)
      | exact (eq_sym Esource) | reflexivity | exact (eq_sym Extype)
      | match type of Hcolor with
        | _ /\ _ => exact (eq_sym (proj1 Hcolor))
        | _ => reflexivity
        end
      | match type of Hcolor with
        | _ /\ _ => exact (eq_trans (proj2 Hcolor) (eq_sym Ehas))
        | _ => exact (eq_sym Ehas)
        end
      | reflexivity | reflexivity ]
    | ].
  all: clear Etl.
  all: pose proof (f_equal trk_is_route Htl) as Hr;
    rewrite is_route_set_name, is_route_set_trackpoints, Hroute in Hr.
  all: rewrite Hr.
  all: match type of Hr with
       | _ = ?b => destruct (add_track_last b trw name tl Hr) as (A1 & A2 & A3 & A4)
       end.
  all: rewrite A1, A2, A3, A4, Htl.
  all: repeat split; apply reset_line_fresh.
Qed.

End TrackLineRead.

Section MarkerLines.
Context {C : Collaborators} {E : EntityOps}.

Lemma assemble_none (dirpath : gstr) (r : Reader) :
  ints (line r) line_type = GPSPOINT_TYPE_NONE -> assemble dirpath r = r.
Proof.
  intros Ht. unfold assemble. rewrite Ht.
  change (is_end_type GPSPOINT_TYPE_NONE) with false. cbv iota zeta. rewrite Ht.
  reflexivity.
Qed.

Lemma assemble_end (dirpath : gstr) (r : Reader) :
  ints (line r) line_type = GPSPOINT_TYPE_TRACK_END
  \/ ints (line r) line_type = GPSPOINT_TYPE_ROUTE_END ->
  assemble dirpath r = trackpoints_end r.
Proof.
  intros Ht. unfold assemble.
  assert (Hl : forall x, line (trackpoints_end x) = line x).
  { intros x. unfold trackpoints_end. destruct (current_track x); [|reflexivity].
    destruct (get_track _ _); [|reflexivity].
    destruct (trk_trackpoints _); reflexivity. }
  destruct Ht as [Ht|Ht]; rewrite Ht;
    match goal with
    | |- context [is_end_type ?t] => change (is_end_type t) with true
    end; cbv iota zeta; rewrite Hl, Ht; reflexivity.
Qed.

(** The two lines around the waypoints. *)
Lemma list_line (dirpath : gstr) (w : string) (r : Reader) :
  w = "waypointlist" \/ w = "waypointlistend" -> fresh (line r) ->
  exists r', process_line dirpath (join [Quoted "type" (lit w)]) r = Some r'
    /\ layer r' = layer r /\ current_track r' = current_track r /\ fresh (line r').
Proof.
  intros Hw Hfresh. unfold process_line.
  rewrite process_line_tags_joined;
    [| destruct Hw as [->| ->]; reflexivity
     | destruct Hw as [->| ->]; vm_compute; discriminate ].
  cbn [dispatch_joined]. rewrite dispatch_tag_type.
  rewrite (parse_type_word w GPSPOINT_TYPE_NONE)
    by (unfold type_words; destruct Hw as [->| ->]; in_list).
  rewrite assemble_none by reflexivity.
  eexists. split; [reflexivity|].
  split; [reflexivity|]. split; [reflexivity|]. apply reset_line_fresh.
Qed.

Lemma points_none_id (trk : VikTrack) :
  trk_trackpoints trk = [] -> set_trk_trackpoints [] trk = trk.
Proof. destruct trk. cbn. intros ->. reflexivity. Qed.

Lemma nth_error_last {A : Type} (l : list A) (x : A) :
  nth_error (l ++ [x]) (length l) = Some x.
Proof. rewrite nth_error_app2 by lia. now rewrite Nat.sub_diag. Qed.

Lemma trackpoints_end_with_line (ls : LineState) (r : Reader) :
  trackpoints_end (with_line ls r) = with_line ls (trackpoints_end r).
Proof.
  unfold trackpoints_end. cbn [with_line current_track layer].
  destruct (current_track r); [|reflexivity].
  destruct (get_track _ _); [|reflexivity].
  destruct (trk_trackpoints _); reflexivity.
Qed.

(** [trackpoints_end] on an open track puts its points in the order of the
    file. *)
Lemma trackpoints_end_open (is_route : bool) (r : Reader) (ts : list VikTrack)
      (cur : VikTrack) :
  current_track r = Some (is_route, length ts) ->
  collection is_route (layer r) = ts ++ [cur] ->
  collection is_route (layer (trackpoints_end r))
  = ts ++ [set_trk_trackpoints (rev (trk_trackpoints cur)) cur]
  /\ collection (negb is_route) (layer (trackpoints_end r))
     = collection (negb is_route) (layer r)
  /\ waypoints (layer (trackpoints_end r)) = waypoints (layer r)
  /\ coord_mode (layer (trackpoints_end r)) = coord_mode (layer r)
  /\ idle (trackpoints_end r).
Proof.
  intros Hcur Hcoll.
  assert (Hg : get_track (layer r) (is_route, length ts) = Some cur).
  { unfold get_track. cbn [fst snd]. unfold collection in Hcoll.
    destruct is_route; rewrite Hcoll; apply nth_error_last. }
  unfold trackpoints_end. rewrite Hcur, Hg.
  destruct (trk_trackpoints cur) as [|tp pts] eqn:Epts.
  - cbn [rev]. rewrite (points_none_id cur Epts).
    repeat split; try assumption.
    unfold idle. rewrite Hcur. exists cur. now split.
  - cbn [with_layer with_current_track layer current_track].
    destruct (modify_track_last is_route (set_trk_trackpoints (rev (tp :: pts)))
                (layer r) ts cur Hcoll) as (M1 & M2 & M3 & M4).
    rewrite M1, M2, M3, M4. repeat split.
Qed.

(** The line that closes a track. *)
Lemma end_line (dirpath : gstr) (is_route kind : bool) (r : Reader)
      (ts : list VikTrack) (cur : VikTrack) :
  fresh (line r) -> current_track r = Some (is_route, length ts) ->
  collection is_route (layer r) = ts ++ [cur] ->
  exists r',
    process_line dirpath (join [Quoted "type" (lit (if kind then "routeend" else "trackend"))])
      r = Some r'
    /\ collection is_route (layer r')
       = ts ++ [set_trk_trackpoints (rev (trk_trackpoints cur)) cur]
    /\ collection (negb is_route) (layer r') = collection (negb is_route) (layer r)
    /\ waypoints (layer r') = waypoints (layer r)
    /\ coord_mode (layer r') = coord_mode (layer r)
    /\ idle r' /\ fresh (line r').
Proof.
  intros Hfresh Hcur Hcoll. unfold process_line.
  rewrite process_line_tags_joined;
    [| destruct kind; reflexivity | destruct kind; vm_compute; discriminate ].
  cbn [dispatch_joined]. rewrite dispatch_tag_type.
  assert (Ht : parse_type
                 (Some (lit (if kind then "routeend" else "trackend") ++ DQ :: after_tag []))
                 (len_of (lit (if kind then "routeend" else "trackend")))
               = if kind then GPSPOINT_TYPE_ROUTE_END else GPSPOINT_TYPE_TRACK_END).
  { destruct kind; reflexivity. }
  rewrite Ht. clear Ht.
  rewrite assemble_end by (destruct kind; [right|left]; reflexivity).
  rewrite trackpoints_end_with_line.
  destruct (trackpoints_end_open is_route r ts cur Hcur Hcoll)
    as (H1 & H2 & H3 & H4 & H5).
  eexists. split; [reflexivity|]. cbn [with_line layer line].
  do 4 (split; [assumption|]). split; [exact H5|apply reset_line_fresh].
Qed.

(** A line of tags in front of the rest of the text. *)
Lemma fits_join (ts : list tag_text) (rest : list ascii) :
  forallb tag_ok ts = true -> fits 4095 (join ts ++ LF :: rest) O = true ->
  len_of (join ts) <= 4094 /\ fits 4095 rest O = true.
Proof.
  intros Hts Hf. rewrite (fits_line _ _ _ _ (join_in_line ts Hts)) in Hf.
  apply andb_true_iff in Hf. destruct Hf as [Hl Hr]. split; [|exact Hr].
  apply Nat.leb_le in Hl. unfold len_of. lia.
Qed.

Lemma run_tags (dirpath : gstr) (ts : list tag_text) (rest : list ascii)
      (r r' : Reader) :
  (exists body ts', ts = Quoted "type" body :: ts') ->
  forallb tag_ok ts = true -> len_of (join ts) <= 4094 ->
  process_line dirpath (join ts) r = Some r' ->
  run dirpath (join ts ++ LF :: rest) r = run dirpath rest r'.
Proof.
  intros (body & ts' & ->) Hts Hlen Hp. apply run_line.
  - now apply join_in_line.
  - unfold len_of in Hlen. lia.
  - apply type_line_goes_on.
  - exact Hp.
Qed.

Lemma idle_same (r r' : Reader) :
  current_track r' = current_track r -> tracks (layer r') = tracks (layer r) ->
  routes (layer r') = routes (layer r) -> idle r -> idle r'.
Proof.
  unfold idle, get_track. intros -> -> ->. exact (fun H => H).
Qed.

End MarkerLines.

(** ** The entities of a written file, read back *)

Section EntitiesRead.
Context {C : Collaborators} {E : EntityOps}.

Lemma file_text_cons (l : cstr) (pieces : list cstr) :
  file_text (l :: pieces) = l ++ file_text pieces.
Proof. reflexivity. Qed.

Lemma file_text_app (a b : list cstr) : file_text (a ++ b) = file_text a ++ file_text b.
Proof. unfold file_text. apply concat_app. Qed.

Lemma waypoint_run (dirpath : gstr) (wp : VikWaypoint) (r : Reader) (rest : list ascii) :
  waypoint_ok (coord_mode (layer r)) dirpath wp -> fresh (line r) -> idle r ->
  fits 4095 (file_text (a_gpspoint_write_waypoint wp dirpath) ++ rest) O = true ->
  exists r',
    run dirpath (file_text (a_gpspoint_write_waypoint wp dirpath) ++ rest) r
    = run dirpath rest r'
    /\ waypoints (layer r') = waypoints (layer r) ++ [wp]
    /\ tracks (layer r') = tracks (layer r) /\ routes (layer r') = routes (layer r)
    /\ coord_mode (layer r') = coord_mode (layer r)
    /\ idle r' /\ fresh (line r') /\ fits 4095 rest O = true.
Proof.
  intros Hok Hfresh Hidle Hfits.
  rewrite (waypoint_text _ _ _ Hok) in *. rewrite <- app_assoc in *. cbn [app] in *.
  pose proof (waypoint_tags_ok _ _ _ Hok) as Htags.
  destruct (fits_join _ _ Htags Hfits) as [Hlen Hrest].
  destruct (waypoint_line dirpath wp r Hok Hfresh Hidle Hlen)
    as (r' & Hp & Hw & Ht & Hr & Hm & Hc & Hf).
  exists r'. split.
  - apply run_tags; try assumption. eexists. eexists. reflexivity.
  - repeat (split; [assumption|]). split; [|split; assumption].
    now apply (idle_same r r').
Qed.

Lemma waypoints_run (dirpath : gstr) : forall (wps : list VikWaypoint) (r : Reader)
    (rest : list ascii),
  Forall (waypoint_ok (coord_mode (layer r)) dirpath) wps -> fresh (line r) -> idle r ->
  fits 4095
    (file_text (flat_map (fun wp => a_gpspoint_write_waypoint wp dirpath) wps) ++ rest) O
  = true ->
  exists r',
    run dirpath
      (file_text (flat_map (fun wp => a_gpspoint_write_waypoint wp dirpath) wps) ++ rest) r
    = run dirpath rest r'
    /\ waypoints (layer r') = waypoints (layer r) ++ wps
    /\ tracks (layer r') = tracks (layer r) /\ routes (layer r') = routes (layer r)
    /\ coord_mode (layer r') = coord_mode (layer r)
    /\ idle r' /\ fresh (line r') /\ fits 4095 rest O = true.
Proof.
  induction wps as [|wp wps IH]; intros r rest Hok Hfresh Hidle Hfits.
  - exists r. cbn [flat_map file_text concat app] in *. rewrite app_nil_r.
    repeat (split; [first [reflexivity | assumption]|]). assumption.
  - inversion Hok as [|? ? Hwp Hwps]; subst.
    cbn [flat_map] in *. rewrite file_text_app, <- app_assoc in *.
    destruct (waypoint_run dirpath wp r _ Hwp Hfresh Hidle Hfits)
      as (r1 & Hrun1 & Hw1 & Ht1 & Hr1 & Hm1 & Hi1 & Hf1 & Hfits1).
    rewrite <- Hm1 in Hwps.
    destruct (IH r1 rest Hwps Hf1 Hi1 Hfits1)
      as (r2 & Hrun2 & Hw2 & Ht2 & Hr2 & Hm2 & Hi2 & Hf2 & Hfits2).
    exists r2. rewrite Hrun1, Hrun2, Hw2, Hw1, Ht2, Ht1, Hr2, Hr1, Hm2, Hm1.
    rewrite <- app_assoc. repeat (split; [first [reflexivity | assumption]|]). assumption.
Qed.

End EntitiesRead.

Section TracksRead.
Context {C : Collaborators} {E : EntityOps}.

Lemma set_points_twice (l l' : list VikTrackpoint) (trk : VikTrack) :
  set_trk_trackpoints l (set_trk_trackpoints l' trk) = set_trk_trackpoints l trk.
Proof. reflexivity. Qed.

Lemma points_of_set (l : list VikTrackpoint) (trk : VikTrack) :
  trk_trackpoints (set_trk_trackpoints l trk) = l.
Proof. reflexivity. Qed.

Lemma set_points_id (trk : VikTrack) : set_trk_trackpoints (trk_trackpoints trk) trk = trk.
Proof. now destruct trk. Qed.

(** The lines of the points of an open track: the points are put in front
    of those already there. *)
Lemma points_run (dirpath : gstr) (is_route kind : bool) :
  forall (pts : list VikTrackpoint) (r : Reader) (ts : list VikTrack) (cur : VikTrack)
         (rest : list ascii),
  Forall (trackpoint_ok (coord_mode (layer r))) pts -> fresh (line r) ->
  current_track r = Some (is_route, length ts) ->
  collection is_route (layer r) = ts ++ [cur] ->
  fits 4095
    (file_text (flat_map (fun tp => a_gpspoint_write_trackpoint tp kind) pts) ++ rest) O
  = true ->
  exists r',
    run dirpath
      (file_text (flat_map (fun tp => a_gpspoint_write_trackpoint tp kind) pts) ++ rest) r
    = run dirpath rest r'
    /\ collection is_route (layer r')
       = ts ++ [set_trk_trackpoints (rev pts ++ trk_trackpoints cur) cur]
    /\ collection (negb is_route) (layer r') = collection (negb is_route) (layer r)
    /\ waypoints (layer r') = waypoints (layer r)
    /\ coord_mode (layer r') = coord_mode (layer r)
    /\ current_track r' = Some (is_route, length ts)
    /\ fresh (line r') /\ fits 4095 rest O = true.
Proof.
  induction pts as [|tp pts IH]; intros r ts cur rest Hok Hfresh Hcur Hcoll Hfits.
  - exists r. cbn [flat_map file_text concat app rev] in *. rewrite set_points_id.
    repeat (split; [first [reflexivity | assumption]|]). assumption.
  - inversion Hok as [|? ? Htp Hpts]; subst.
    cbn [flat_map] in *. rewrite file_text_app, <- app_assoc in *.
    rewrite (trackpoint_text _ kind _ Htp) in *. rewrite <- app_assoc in *.
    cbn [app] in *.
    pose proof (trackpoint_tags_ok _ kind _ Htp) as Htags.
    destruct (fits_join _ _ Htags Hfits) as [Hlen Hrest].
    destruct (trackpoint_line dirpath is_route kind tp r ts cur Htp Hfresh Hcur Hcoll Hlen)
      as (r1 & Hp & Hc1 & Hn1 & Hw1 & Hm1 & Hcur1 & Hf1).
    rewrite (run_tags dirpath _ _ r r1);
      [|eexists; eexists; reflexivity|exact Htags|exact Hlen|exact Hp].
    rewrite <- Hm1 in Hpts. rewrite Hcur in Hcur1.
    destruct (IH r1 ts _ rest Hpts Hf1 Hcur1 Hc1 Hrest)
      as (r2 & Hrun2 & Hc2 & Hn2 & Hw2 & Hm2 & Hcur2 & Hf2 & Hfits2).
    exists r2. rewrite Hrun2, Hc2, Hn2, Hn1, Hw2, Hw1, Hm2, Hm1.
    rewrite set_points_twice, points_of_set. cbn [rev]. rewrite <- app_assoc.
    cbn [app].
    repeat (split; [first [reflexivity | assumption]|]). assumption.
Qed.

(** The lines of a track: the track joins its collection as it was
    written. *)
Lemma track_run (dirpath : gstr) (is_route : bool) (trk : VikTrack) (r : Reader)
      (rest : list ascii) :
  track_ok (coord_mode (layer r)) is_route trk -> fresh (line r) -> idle r ->
  fits 4095 (file_text (a_gpspoint_write_track trk) ++ rest) O = true ->
  exists r',
    run dirpath (file_text (a_gpspoint_write_track trk) ++ rest) r = run dirpath rest r'
    /\ collection is_route (layer r') = collection is_route (layer r) ++ [trk]
    /\ collection (negb is_route) (layer r') = collection (negb is_route) (layer r)
    /\ waypoints (layer r') = waypoints (layer r)
    /\ coord_mode (layer r') = coord_mode (layer r)
    /\ idle r' /\ fresh (line r') /\ fits 4095 rest O = true.
Proof.
  intros Hok Hfresh Hidle Hfits.
  rewrite (track_text _ _ _ Hok) in *. rewrite <- app_assoc in *. cbn [app] in *.
  rewrite <- !app_assoc in *.
  pose proof (track_tags_ok _ _ _ Hok) as Htags.
  destruct (fits_join _ _ Htags Hfits) as [Hlen Hfits1].
  destruct (track_line dirpath is_route trk r Hok Hfresh Hidle Hlen)
    as (r1 & Hp1 & Hc1 & Hn1 & Hw1 & Hm1 & Hcur1 & Hf1).
  rewrite (run_tags dirpath _ _ r r1);
    [|eexists; eexists; reflexivity|exact Htags|exact Hlen|exact Hp1].
  assert (Hpts : Forall (trackpoint_ok (coord_mode (layer r1))) (trk_trackpoints trk)).
  { rewrite Hm1. apply Hok. }
  destruct (points_run dirpath is_route is_route (trk_trackpoints trk) r1
              (collection is_route (layer r)) (set_trk_trackpoints [] trk) _
              Hpts Hf1 Hcur1 Hc1 Hfits1)
    as (r2 & Hrun2 & Hc2 & Hn2 & Hw2 & Hm2 & Hcur2 & Hf2 & Hfits2).
  rewrite Hrun2.
  assert (Hend : forallb tag_ok
                   [Quoted "type" (lit (if is_route then "routeend" else "trackend"))]
                 = true) by (destruct is_route; reflexivity).
  cbn [app] in Hfits2.
  destruct (fits_join _ _ Hend Hfits2) as [Hlen3 Hfits3].
  destruct (end_line dirpath is_route is_route r2 _ _ Hf2 Hcur2 Hc2)
    as (r3 & Hp3 & Hc3 & Hn3 & Hw3 & Hm3 & Hi3 & Hf3).
  cbn [app].
  rewrite (run_tags dirpath _ _ r2 r3);
    [|eexists; eexists; reflexivity|exact Hend|exact Hlen3|exact Hp3].
  exists r3. rewrite Hc3, Hn3, Hn2, Hn1, Hw3, Hw2, Hw1, Hm3, Hm2, Hm1.
  rewrite !points_of_set, !set_points_twice, app_nil_r, rev_involutive, set_points_id.
  repeat (split; [first [reflexivity | assumption]|]). assumption.
Qed.

Lemma tracks_run (dirpath : gstr) (is_route : bool) :
  forall (trks : list VikTrack) (r : Reader) (rest : list ascii),
  Forall (track_ok (coord_mode (layer r)) is_route) trks -> fresh (line r) -> idle r ->
  fits 4095 (file_text (flat_map a_gpspoint_write_track trks) ++ rest) O = true ->
  exists r',
    run dirpath (file_text (flat_map a_gpspoint_write_track trks) ++ rest) r
    = run dirpath rest r'
    /\ collection is_route (layer r') = collection is_route (layer r) ++ trks
    /\ collection (negb is_route) (layer r') = collection (negb is_route) (layer r)
    /\ waypoints (layer r') = waypoints (layer r)
    /\ coord_mode (layer r') = coord_mode (layer r)
    /\ idle r' /\ fresh (line r') /\ fits 4095 rest O = true.
Proof.
  induction trks as [|trk trks IH]; intros r rest Hok Hfresh Hidle Hfits.
  - exists r. cbn [flat_map file_text concat app] in *. rewrite app_nil_r.
    repeat (split; [first [reflexivity | assumption]|]). assumption.
  - inversion Hok as [|? ? Htrk Htrks]; subst.
    cbn [flat_map] in *. rewrite file_text_app, <- app_assoc in *.
    destruct (track_run dirpath is_route trk r _ Htrk Hfresh Hidle Hfits)
      as (r1 & Hrun1 & Hc1 & Hn1 & Hw1 & Hm1 & Hi1 & Hf1 & Hfits1).
    rewrite <- Hm1 in Htrks.
    destruct (IH r1 rest Htrks Hf1 Hi1 Hfits1)
      as (r2 & Hrun2 & Hc2 & Hn2 & Hw2 & Hm2 & Hi2 & Hf2 & Hfits2).
    exists r2. rewrite Hrun1, Hrun2, Hc2, Hc1, Hn2, Hn1, Hw2, Hw1, Hm2, Hm1.
    rewrite <- app_assoc. repeat (split; [first [reflexivity | assumption]|]). assumption.
Qed.

End TracksRead.

Section FileRead.
Context {C : Collaborators} {E : EntityOps}.

Lemma fresh_start (globals : LineState) :
  fresh globals ->
  fresh (set_s line_symbol None
           (set_s line_image None
              (set_b line_newsegment false
                 (set_d line_timestamp NAN
                    (set_i line_type GPSPOINT_TYPE_NONE globals))))).
Proof.
  intros (Fi & Fs & Fb & Fd). unfold fresh.
  repeat split; intros v; destruct v; cbn; first [reflexivity | apply Fi | apply Fs
    | apply Fb | apply Fd].
Qed.

Lemma write_file_text (trw : VikTrwLayer) (dirpath : gstr) :
  file_text (a_gpspoint_write_file trw dirpath)
  = join [Quoted "type" (lit "waypointlist")] ++ LF
      :: file_text (flat_map (fun wp => a_gpspoint_write_waypoint wp dirpath)
                      (waypoints trw))
      ++ join [Quoted "type" (lit "waypointlistend")] ++ LF
      :: file_text (flat_map a_gpspoint_write_track (tracks trw))
      ++ file_text (flat_map a_gpspoint_write_track (routes trw)) ++ [].
Proof.
  unfold a_gpspoint_write_file, vu_sorted_list_from_hash_table.
  rewrite !file_text_app, app_nil_r. unfold file_text at 1 3. cbn [concat].
  rewrite !app_nil_r. cbn [join tag_chars]. unfold lit.
  cbn [list_ascii_of_string app]. reflexivity.
Qed.

Lemma layer_ext (a b : VikTrwLayer) :
  waypoints a = waypoints b -> tracks a = tracks b -> routes a = routes b ->
  coord_mode a = coord_mode b -> a = b.
Proof. destruct a, b. cbn. intros -> -> -> ->. reflexivity. Qed.

(** X1.  A layer is written and the text is read into an empty
    layer of the same coordinate mode.  Every field of every waypoint,
    track, route and trackpoint is present; the strings hold no terminator,
    line feed or carriage return; the numbers are those that the formatter
    writes as a text between quotes which the parser reads back; the counts
    are below 2^32 and the two label settings of a track below 2^31; the
    setters store the strings as they are; the image is written and resolved
    as it is; the symbol is in lower case; a colour comes back from its six
    digits; the fields that the file does not carry are those of a new
    entity; no line is longer than 4095 bytes; and the line variables are
    as a previous call leaves them.  Then the reader returns, and the layer
    it returns is the layer that was written. *)
Theorem written_file_reads_back (trw : VikTrwLayer) (dirpath : gstr)
        (globals : LineState) :
  Forall (waypoint_ok (coord_mode trw) dirpath) (waypoints trw) ->
  Forall (track_ok (coord_mode trw) false) (tracks trw) ->
  Forall (track_ok (coord_mode trw) true) (routes trw) ->
  fits 4095 (file_text (a_gpspoint_write_file trw dirpath)) O = true ->
  fresh globals ->
  exists r,
    a_gpspoint_read_file globals (empty_layer_of (coord_mode trw))
      (file_text (a_gpspoint_write_file trw dirpath)) dirpath = Some r
    /\ layer r = trw.
Proof.
  intros Hwps Htrks Hrtes Hfits Hfresh.
  unfold a_gpspoint_read_file.
  change (read_lines (S (length ?f)) dirpath ?f ?r) with (run dirpath f r).
  rewrite write_file_text in *.
  set (r0 := {| line := _; current_track := None;
                layer := empty_layer_of (coord_mode trw);
                have_read_something := false |}).
  assert (Hf0 : fresh (line r0)) by (apply fresh_start; exact Hfresh).
  assert (Hi0 : idle r0) by exact I.
  assert (Hl : forall w, w = "waypointlist" \/ w = "waypointlistend" ->
                 forallb tag_ok [Quoted "type" (lit w)] = true).
  { intros w [->| ->]; reflexivity. }
  (* the line that opens the waypoints *)
  destruct (fits_join _ _ (Hl _ (or_introl eq_refl)) Hfits) as [Hlen0 Hfits1].
  destruct (list_line dirpath "waypointlist" r0 (or_introl eq_refl) Hf0)
    as (r1 & Hp1 & Hlay1 & Hcur1 & Hf1).
  rewrite (run_tags dirpath _ _ r0 r1);
    [|eexists; eexists; reflexivity|exact (Hl _ (or_introl eq_refl))|exact Hlen0
     |exact Hp1].
  assert (Hi1 : idle r1).
  { apply (idle_same r0 r1); [exact Hcur1|now rewrite Hlay1|now rewrite Hlay1|exact Hi0]. }
  (* the waypoints *)
  assert (Hwps1 : Forall (waypoint_ok (coord_mode (layer r1)) dirpath) (waypoints trw))
    by (rewrite Hlay1; exact Hwps).
  destruct (waypoints_run dirpath (waypoints trw) r1 _ Hwps1 Hf1 Hi1 Hfits1)
    as (r2 & Hrun2 & Hw2 & Ht2 & Hr2 & Hm2 & Hi2 & Hf2 & Hfits2).
  rewrite Hrun2.
  (* the line that closes the waypoints *)
  destruct (fits_join _ _ (Hl _ (or_intror eq_refl)) Hfits2) as [Hlen2 Hfits3].
  destruct (list_line dirpath "waypointlistend" r2 (or_intror eq_refl) Hf2)
    as (r3 & Hp3 & Hlay3 & Hcur3 & Hf3).
  rewrite (run_tags dirpath _ _ r2 r3);
    [|eexists; eexists; reflexivity|exact (Hl _ (or_intror eq_refl))|exact Hlen2
     |exact Hp3].
  assert (Hi3 : idle r3).
  { apply (idle_same r2 r3); [exact Hcur3|now rewrite Hlay3|now rewrite Hlay3|exact Hi2]. }
  (* the tracks, then the routes *)
  assert (Hm3 : coord_mode (layer r3) = coord_mode trw).
  { rewrite Hlay3, Hm2, Hlay1. reflexivity. }
  assert (Htrks3 : Forall (track_ok (coord_mode (layer r3)) false) (tracks trw))
    by (rewrite Hm3; exact Htrks).
  destruct (tracks_run dirpath false (tracks trw) r3 _ Htrks3 Hf3 Hi3 Hfits3)
    as (r4 & Hrun4 & Hc4 & Hn4 & Hw4 & Hm4 & Hi4 & Hf4 & Hfits4).
  rewrite Hrun4.
  assert (Hrtes4 : Forall (track_ok (coord_mode (layer r4)) true) (routes trw))
    by (rewrite Hm4, Hm3; exact Hrtes).
  destruct (tracks_run dirpath true (routes trw) r4 _ Hrtes4 Hf4 Hi4 Hfits4)
    as (r5 & Hrun5 & Hc5 & Hn5 & Hw5 & Hm5 & Hi5 & Hf5 & _).
  rewrite Hrun5, run_end.
  exists (trackpoints_end r5). split; [reflexivity|].
  rewrite (idle_trackpoints_end r5 Hi5).
  cbn [collection negb] in Hc4, Hn4, Hc5, Hn5.
  apply layer_ext.
  - rewrite Hw5, Hw4, Hlay3, Hw2, Hlay1. reflexivity.
  - rewrite Hn5, Hc4, Hlay3, Ht2, Hlay1. reflexivity.
  - rewrite Hc5, Hn4, Hlay3, Hr2, Hlay1. reflexivity.
  - rewrite Hm5, Hm4, Hm3. reflexivity.
Qed.

End FileRead.

(** A comment that holds a line feed is not read back as it was written.
    Every field of the waypoint is present; [slashdup] writes a blank for
    the line feed, so the comment that is read back has a blank there, and
    the layer that is read back is not the layer that was written. *)
Lemma line_feed_is_not_read_back :
  layer_filled Samples.layer_two_lines = true
  /\ map wp_comment (waypoints Samples.layer_two_lines)
     = [Some ("a"%char :: LF :: lit "b")]
  /\ option_map (fun r => map wp_comment (waypoints (layer r)))
       (Samples.read_back Samples.layer_two_lines)
     = Some [Some (lit "a b")]
  /\ option_map layer (Samples.read_back Samples.layer_two_lines)
     <> Some Samples.layer_two_lines.
Proof.
  assert (H : option_map (fun r => map wp_comment (waypoints (layer r)))
                (Samples.read_back Samples.layer_two_lines)
              = Some [Some (lit "a b")]) by (vm_compute; reflexivity).
  split; [vm_compute; reflexivity|]. split; [reflexivity|]. split; [exact H|].
  intros Heq.
  destruct (Samples.read_back Samples.layer_two_lines) as [r|]; [|discriminate].
  cbn [option_map] in H, Heq. injection Heq as Heq. rewrite Heq in H.
  vm_compute in H. discriminate.
Qed.

(** Tactics that establish, by evaluation, the hypotheses of the round trip
    for entities of the reference collaborators. *)
Ltac plain_text v :=
  exists v; split; [reflexivity|]; split; [vm_compute; reflexivity|];
  intros x; reflexivity.

Ltac plain_number :=
  split; [vm_compute; reflexivity | intros rest; vm_compute; reflexivity].

Ltac plain_double := split; [reflexivity | plain_number].

Ltac plain_count := split; vm_compute; reflexivity.

Ltac plain_trackpoint :=
  unfold trackpoint_ok;
  split; [unfold coord_ok; split; [plain_number|]; split; [plain_number|reflexivity]|];
  split; [exists (lit "p"); split; [reflexivity|]; split; [vm_compute; reflexivity|];
          intros x; reflexivity|];
  do 4 (split; [plain_double|]);
  do 2 (split; [plain_count|]);
  split; [plain_double|]; split; plain_double.

Ltac plain_track :=
  split; [reflexivity|];
  split; [eexists; split; [reflexivity | vm_compute; reflexivity]|];
  split; [plain_text (lit "c")|];
  split; [plain_text (lit "d")|];
  split; [plain_text (lit "s")|];
  split; [plain_count|];
  split; [plain_text (lit "x")|].

(** The layer [chart], with a waypoint, a track of two points and a route
    without points, is read back as it was written. *)
Lemma written_file_reads_back_witness :
  exists r,
    a_gpspoint_read_file (C := Plain.collaborators) (E := Plain.entities) static_line
      (empty_layer_of (coord_mode Samples.chart))
      (file_text (a_gpspoint_write_file Samples.chart None)) None = Some r
    /\ layer r = Samples.chart.
Proof.
  apply (written_file_reads_back (C := Plain.collaborators) (E := Plain.entities)
           Samples.chart None static_line).
  - constructor; [|constructor].
    unfold waypoint_ok.
    split. { exists (lit "A"). split; [reflexivity | vm_compute; reflexivity]. }
    split. { unfold coord_ok. split; [plain_number|]. split; [plain_number|reflexivity]. }
    do 6 (split; [plain_double|]).
    split; [plain_text (lit "quay")|].
    split; [plain_text (lit "d")|].
    split; [plain_text (lit "s")|].
    split; [plain_text (lit "u")|].
    split; [plain_text (lit "n")|].
    split; [plain_text (lit "t")|].
    do 2 (split; [plain_count|]).
    do 4 (split; [plain_double|]).
    split; [plain_count|].
    split.
    { exists (lit "/i.jpg"). split; [reflexivity|]. split; [vm_compute; reflexivity|].
      split; [reflexivity|]. intros x. reflexivity. }
    split; [reflexivity|].
    split; [plain_number|].
    split; [split; [vm_compute; discriminate | vm_compute; reflexivity]|].
    split.
    { exists (lit "pin"). split; [reflexivity|]. split; [vm_compute; reflexivity|].
      split; [vm_compute; reflexivity|]. intros x. reflexivity. }
    repeat split.
  - constructor; [|constructor].
    unfold track_ok. plain_track.
    split; [vm_compute; reflexivity|].
    do 2 (split; [plain_count|]).
    constructor; [plain_trackpoint|]. constructor; [plain_trackpoint|]. constructor.
  - constructor; [|constructor].
    unfold track_ok. plain_track.
    split; [split; reflexivity|].
    do 2 (split; [plain_count|]).
    constructor.
  - vm_compute. reflexivity.
  - unfold fresh. repeat split; intros v; destruct v; reflexivity.
Defined.

(** ** The reader on arbitrary text *)

Lemma fgets_read_split : forall (n : nat) (f : list ascii),
  f = fst (fgets_read n f) ++ snd (fgets_read n f)
  /\ (length (fst (fgets_read n f)) <= n)%nat.
Proof.
  induction n as [|n IH]; intros f; [split; [reflexivity|cbn; lia]|].
  destruct f as [|c f]; [split; [reflexivity|cbn; lia]|]. cbn [fgets_read].
  destruct (Ascii.eqb c LF); [split; [reflexivity|cbn; lia]|].
  destruct (IH f) as [Hs Hl]. destruct (fgets_read n f) as [l r].
  cbn [fst snd app length] in *. split; [now rewrite <- Hs|lia].
Qed.

Lemma fgets_chunk (f buf f' : list ascii) :
  fgets f = Some (buf, f') ->
  f = buf ++ f' /\ buf <> [] /\ (length buf <= 4095)%nat.
Proof.
  unfold fgets. destruct f as [|c f]; [discriminate|].
  unfold VIKING_LINE_SIZE. change (4096 - 1)%nat with (S 4094).
  generalize 4094%nat. intros n H.
  destruct (fgets_read_split (S n) (c :: f)) as [Hs Hl].
  assert (Hb : fgets_read (S n) (c :: f) = (buf, f')).
  { apply (f_equal (fun o => match o with Some x => x | None => (buf, f') end)) in H.
    exact H. }
  rewrite Hb in Hs, Hl. cbn [fst snd] in Hs, Hl.
  split; [exact Hs|]. split; [|exact Hl].
  intros ->. cbn [fgets_read] in Hb. destruct (Ascii.eqb c LF); [discriminate|].
  destruct (fgets_read n f). discriminate.
Qed.

Lemma removelast_shorter {A : Type} (l : list A) : (length (removelast l) <= length l)%nat.
Proof.
  induction l as [|a l IH]; [cbn; lia|]. cbn [removelast].
  destruct l; [cbn; lia|]. cbn [length] in *. lia.
Qed.

Section ReaderTotal.
Context {C : Collaborators} {E : EntityOps}.

Lemma process_line_defined (dirpath : gstr) (line_buffer : cstr) (r : Reader) :
  len_of line_buffer <= 65534 -> exists r', process_line dirpath line_buffer r = Some r'.
Proof.
  intros Hlen. unfold process_line.
  destruct (process_line_tags_defined line_buffer (line r) Hlen) as [ls ->].
  eexists. reflexivity.
Qed.

Lemma read_lines_defined (dirpath : gstr) : forall (fuel : nat) (f : list ascii)
    (r : Reader),
  no_nul f = true -> (length f < fuel)%nat ->
  exists r', read_lines fuel dirpath f r = Some r'.
Proof.
  induction fuel as [|fuel IH]; intros f r Hn Hf; [lia|]. cbn [read_lines].
  destruct (fgets f) as [[buf f']|] eqn:Eg; [|eexists; reflexivity].
  destruct (fgets_chunk f buf f' Eg) as (Hs & Hne & Hl).
  pose proof (fgets_shorter f buf f' Eg) as Hsh.
  unfold no_nul in Hn. rewrite Hs, forallb_app in Hn.
  apply andb_true_iff in Hn. destruct Hn as [Hb Hf'].
  rewrite (proj2 (c_str_no_nul buf [] Hb)).
  destruct buf as [|c buf]; [congruence|].
  destruct (is_end_layer_data _); [eexists; reflexivity|].
  destruct (process_line_defined dirpath (removelast (c :: buf)) r) as [r1 ->].
  - pose proof (removelast_shorter (c :: buf)). unfold len_of. lia.
  - apply IH; [exact Hf'|lia].
Qed.

Lemma read_file_returns (globals : LineState) (trw : VikTrwLayer) (f : list ascii)
      (dirpath : gstr) :
  no_nul f = true -> exists r, a_gpspoint_read_file globals trw f dirpath = Some r.
Proof.
  intros Hn. unfold a_gpspoint_read_file.
  destruct (read_lines_defined dirpath (S (length f)) f
              {| line := set_s line_symbol None
                           (set_s line_image None
                              (set_b line_newsegment false
                                 (set_d line_timestamp NAN
                                    (set_i line_type GPSPOINT_TYPE_NONE globals))));
                 current_track := None; layer := trw; have_read_something := false |}
              Hn ltac:(lia)) as [r' ->].
  eexists. reflexivity.
Qed.

(** X3.  On a text that holds no NUL byte, [a_gpspoint_read_file] returns:
    the loop over the lines comes to its end, and neither the chopping of
    the last character of a line nor any call of [deslashndup] leaves the
    bounds of its buffer. *)
Theorem read_file_defined (globals : LineState) (trw : VikTrwLayer) (f : list ascii)
        (dirpath : gstr) :
  no_nul f = true -> exists r, a_gpspoint_read_file globals trw f dirpath = Some r.
Proof. exact (read_file_returns globals trw f dirpath). Qed.

End ReaderTotal.

(** ** Whole lines in front of a text *)

Lemma last_tail (c : ascii) (P : list ascii) :
  last (c :: P) LF = LF -> c <> LF -> P <> [] /\ last P LF = LF.
Proof.
  destruct P as [|c' P]; cbn [last]; intros H Hc; [congruence|].
  split; [discriminate|exact H].
Qed.

(** The buffer that [fgets] fills from a text that starts with whole lines
    lies inside these lines. *)
Lemma fgets_read_prefix : forall (n : nat) (P : list ascii),
  P <> [] -> last P LF = LF ->
  exists buf P',
    (forall X, fgets_read (S n) (P ++ X) = (buf, P' ++ X))
    /\ last P' LF = LF /\ (length P' < length P)%nat.
Proof.
  induction n as [|n IH]; intros P Hne Hlast; (destruct P as [|c P]; [congruence|]).
  - destruct (Ascii.eqb c LF) eqn:Ec.
    + exists [c], P. split; [intros X; cbn [app fgets_read]; now rewrite Ec|].
      split; [|cbn; lia]. apply Ascii.eqb_eq in Ec. subst c.
      destruct P; [reflexivity|exact Hlast].
    + assert (Hc : c <> LF) by (intros ->; rewrite Ascii.eqb_refl in Ec; discriminate).
      destruct (last_tail c P Hlast Hc) as [HP HlP].
      exists [c], P. split; [intros X; cbn [app fgets_read]; now rewrite Ec|].
      split; [exact HlP|cbn; lia].
  - destruct (Ascii.eqb c LF) eqn:Ec.
    + exists [c], P. split; [intros X; cbn [app fgets_read]; now rewrite Ec|].
      split; [|cbn; lia]. apply Ascii.eqb_eq in Ec. subst c.
      destruct P; [reflexivity|exact Hlast].
    + assert (Hc : c <> LF) by (intros ->; rewrite Ascii.eqb_refl in Ec; discriminate).
      destruct (last_tail c P Hlast Hc) as [HP HlP].
      destruct (IH P HP HlP) as (buf & P' & Hb & Hl & Hs).
      exists (c :: buf), P'. split.
      * intros X. change ((c :: P) ++ X) with (c :: (P ++ X)).
        assert (Hstep : forall m g, fgets_read (S m) (c :: g)
                          = if Ascii.eqb c LF then ([c], g)
                            else let '(l, r) := fgets_read m g in (c :: l, r))
          by reflexivity.
        rewrite Hstep, Ec, (Hb X). reflexivity.
      * split; [exact Hl|cbn [length]; lia].
Qed.

Lemma fgets_prefix (P : list ascii) :
  P <> [] -> last P LF = LF ->
  exists buf P',
    (forall X, fgets (P ++ X) = Some (buf, P' ++ X))
    /\ last P' LF = LF /\ (length P' < length P)%nat.
Proof.
  intros Hne Hlast. unfold fgets, VIKING_LINE_SIZE.
  change (4096 - 1)%nat with (S 4094).
  destruct (fgets_read_prefix 4094 P Hne Hlast) as (buf & P' & Hb & Hl & Hs).
  exists buf, P'. split; [|split; assumption].
  intros X. destruct (P ++ X) eqn:E0; [destruct P; [congruence|discriminate]|].
  rewrite <- E0. now rewrite Hb.
Qed.

Section Prefix.
Context {C : Collaborators} {E : EntityOps}.

(** What follows whole lines is read from the state that these lines
    leave: two texts that are read alike from every state are read alike
    behind the same whole lines. *)
Lemma run_prefix (dirpath : gstr) : forall (n : nat) (P X Y : list ascii) (r : Reader),
  (length P <= n)%nat -> last P LF = LF ->
  (forall r', run dirpath X r' = run dirpath Y r') ->
  run dirpath (P ++ X) r = run dirpath (P ++ Y) r.
Proof.
  induction n as [|n IH]; intros P X Y r Hn Hlast Hxy.
  - destruct P; [apply Hxy|cbn in Hn; lia].
  - destruct P as [|c P]; [apply Hxy|].
    destruct (fgets_prefix (c :: P) ltac:(discriminate) Hlast)
      as (buf & P' & Hb & Hl & Hs).
    unfold run. cbn [read_lines]. rewrite (Hb X), (Hb Y).
    destruct (c_str buf); [reflexivity|].
    destruct (is_end_layer_data _); [reflexivity|].
    destruct (process_line _ _ _) as [r1|]; [|reflexivity].
    pose proof (Hb X) as HX. pose proof (Hb Y) as HY.
    apply fgets_shorter in HX. apply fgets_shorter in HY.
    rewrite (read_lines_fuel dirpath _ (S (length (P' ++ X))) (P' ++ X) r1) by lia.
    rewrite (read_lines_fuel dirpath _ (S (length (P' ++ Y))) (P' ++ Y) r1) by lia.
    apply (IH P' X Y r1); [cbn [length] in *; lia|exact Hl|exact Hxy].
Qed.

Lemma read_file_prefix (globals : LineState) (trw : VikTrwLayer) (dirpath : gstr)
      (P X Y : list ascii) :
  last P LF = LF ->
  (forall r', run dirpath X r' = run dirpath Y r') ->
  a_gpspoint_read_file globals trw (P ++ X) dirpath
  = a_gpspoint_read_file globals trw (P ++ Y) dirpath.
Proof.
  intros Hlast Hxy. unfold a_gpspoint_read_file.
  change (read_lines (S (length ?f)) dirpath ?f ?r) with (run dirpath f r).
  now rewrite (run_prefix dirpath (length P) P X Y _ (le_n _) Hlast Hxy).
Qed.

End Prefix.

Lemma in_line_no_nul (l : list ascii) : forallb in_line l = true -> no_nul l = true.
Proof.
  intros H. unfold no_nul. apply forallb_forall. intros c Hc.
  destruct (in_line_parts c (proj1 (forallb_forall _ _) H c Hc)) as [-> _]. reflexivity.
Qed.

Lemma in_line_removelast : forall (l : list ascii),
  forallb in_line l = true -> forallb in_line (removelast l) = true.
Proof.
  induction l as [|c l IH]; [reflexivity|]. cbn [forallb removelast]. intros H.
  apply andb_true_iff in H. destruct H as [Hc Hl].
  destruct l as [|c' l]; [reflexivity|]. cbn [forallb]. rewrite Hc. exact (IH Hl).
Qed.

Lemma removelast_length {A : Type} (l : list A) :
  l <> [] -> length l = S (length (removelast l)).
Proof.
  intros Hne. destruct (exists_last Hne) as (l' & a & ->).
  rewrite removelast_last, length_app. cbn [length]. lia.
Qed.

(** A buffer filled to its last place before any line feed came. *)
Lemma fgets_read_full : forall (l X : list ascii),
  forallb in_line l = true -> fgets_read (length l) (l ++ X) = (l, X).
Proof.
  induction l as [|c l IH]; intros X Hl; [reflexivity|].
  cbn [forallb] in Hl. apply andb_true_iff in Hl. destruct Hl as [Hc Hl].
  destruct (in_line_parts c Hc) as [_ Hlf]. cbn [length app fgets_read].
  now rewrite Hlf, (IH X Hl).
Qed.

(** The end of the text reached before any line feed came. *)
Lemma fgets_read_eof : forall (l : list ascii) (n : nat),
  forallb in_line l = true -> (length l <= n)%nat -> fgets_read n l = (l, []).
Proof.
  induction l as [|c l IH]; intros n Hl Hn; [destruct n; reflexivity|].
  cbn [forallb] in Hl. apply andb_true_iff in Hl. destruct Hl as [Hc Hl].
  destruct (in_line_parts c Hc) as [_ Hlf].
  destruct n as [|n]; [cbn in Hn; lia|]. cbn [fgets_read].
  rewrite Hlf, (IH n Hl) by (cbn [length] in Hn; lia). reflexivity.
Qed.

Section Chunks.
Context {C : Collaborators} {E : EntityOps}.

(** The reader after it has taken the line [l] out of its buffer. *)
Lemma run_chunk (dirpath : gstr) (l X : list ascii) (r : Reader) :
  forallb in_line l = true -> l <> [] ->
  (length l = 4095)%nat \/ (X = [] /\ (length l <= 4095)%nat) ->
  run dirpath (l ++ X) r = run dirpath (removelast l ++ LF :: X) r.
Proof.
  intros Hl Hne Hcase.
  assert (Hg : fgets (l ++ X) = Some (l, X)).
  { unfold fgets. destruct (l ++ X) eqn:E0; [destruct l; [congruence|discriminate]|].
    rewrite <- E0. f_equal. unfold VIKING_LINE_SIZE. change (4096 - 1)%nat with 4095%nat.
    destruct Hcase as [Hlen|[-> Hlen]].
    - rewrite <- Hlen. now apply fgets_read_full.
    - rewrite app_nil_r. now apply fgets_read_eof. }
  pose proof (removelast_length l Hne) as Hlen.
  pose proof (in_line_removelast l Hl) as Hl'.
  assert (Hn : (length (removelast l) <= 4094)%nat) by (destruct Hcase; lia).
  unfold run. cbn [read_lines].
  rewrite Hg, (fgets_line (removelast l) X Hl' Hn), (c_str_line _ Hl').
  rewrite (proj2 (c_str_no_nul l [] (in_line_no_nul l Hl))).
  destruct l as [|c l]; [congruence|].
  destruct (removelast (c :: l) ++ [LF]) eqn:E0; [now destruct (removelast (c :: l))|].
  rewrite <- E0. rewrite removelast_last.
  replace (length (removelast (c :: l) ++ LF :: X)) with (length ((c :: l) ++ X));
    [reflexivity|].
  rewrite !length_app. cbn [length] in *. lia.
Qed.

(** X5.  [a_gpspoint_read_file] chops the last byte of every buffer that
    [fgets] delivers, line feed or not.  Behind whole lines, a buffer that
    [fgets] filled with 4095 bytes before a line feed came, and a last line
    that no line feed ends, are read as if their last byte were a line
    feed: that byte is lost, and what follows a full buffer is read as a
    new line. *)
Theorem last_byte_of_buffer_is_chopped (globals : LineState) (trw : VikTrwLayer)
        (dirpath : gstr) (P l X : list ascii) :
  last P LF = LF -> forallb in_line l = true -> l <> [] ->
  (length l = 4095)%nat \/ (X = [] /\ (length l <= 4095)%nat) ->
  a_gpspoint_read_file globals trw (P ++ l ++ X) dirpath
  = a_gpspoint_read_file globals trw (P ++ removelast l ++ LF :: X) dirpath.
Proof.
  intros Hlast Hl Hne Hcase. apply read_file_prefix; [exact Hlast|].
  intros r'. now apply run_chunk.
Qed.

(** What follows whole lines, for a property that the results of a stop at
    the end marker and of a line without a defined result have. *)
Lemma run_prefix_inv (dirpath : gstr) (Q : option Reader -> Prop) :
  Q None -> (forall r, Q (Some (with_have_read_something true r))) ->
  forall (n : nat) (P X : list ascii) (r : Reader),
  (length P <= n)%nat -> last P LF = LF ->
  (forall r', Q (run dirpath X r')) -> Q (run dirpath (P ++ X) r).
Proof.
  intros Qn Qs. induction n as [|n IH]; intros P X r Hn Hlast HX.
  - destruct P; [apply HX|cbn in Hn; lia].
  - destruct P as [|c P]; [apply HX|].
    destruct (fgets_prefix (c :: P) ltac:(discriminate) Hlast)
      as (buf & P' & Hb & Hl & Hs).
    unfold run. cbn [read_lines]. rewrite (Hb X).
    destruct (c_str buf); [exact Qn|].
    destruct (is_end_layer_data _); [apply Qs|].
    destruct (process_line _ _ _) as [r1|]; [|exact Qn].
    pose proof (Hb X) as Hsh. apply fgets_shorter in Hsh.
    rewrite (read_lines_fuel dirpath _ (S (length (P' ++ X))) (P' ++ X) r1) by lia.
    apply (IH P' X r1); [cbn [length] in *; lia|exact Hl|exact HX].
Qed.

Lemma run_marker (dirpath : gstr) (m rest : list ascii) (r : Reader) :
  forallb in_line m = true -> (length m <= 4094)%nat -> is_end_layer_data m = true ->
  run dirpath (m ++ LF :: rest) r = Some (with_have_read_something true r).
Proof.
  intros Hm Hn He. unfold run. cbn [read_lines].
  rewrite (fgets_line m rest Hm Hn), (c_str_line m Hm).
  destruct (m ++ [LF]) eqn:E0; [now destruct m|]. rewrite <- E0.
  now rewrite removelast_last, He.
Qed.

Lemma trackpoints_end_flag (r : Reader) :
  have_read_something (trackpoints_end r) = have_read_something r.
Proof.
  unfold trackpoints_end. destruct (current_track r); [|reflexivity].
  destruct (get_track _ _); [|reflexivity].
  destruct (trk_trackpoints _); reflexivity.
Qed.


End Chunks.

(** ** The value returned and the layer *)

Section ReturnedValue.
Context {C : Collaborators} {E : EntityOps}.

Lemma trackpoints_end_closed (r : Reader) : current_track r = None -> trackpoints_end r = r.
Proof. intros H. unfold trackpoints_end. now rewrite H. Qed.

Lemma assemble_untouched (dirpath : gstr) (trw : VikTrwLayer) (r : Reader) :
  untouched trw r -> untouched trw (assemble dirpath r).
Proof.
  intros Hr. destruct (have_read_something r) eqn:Eh.
  - (* something was read before: the flag is never cleared *)
    intros Hf. exfalso. revert Hf. unfold assemble. cbv zeta.
    assert (He : have_read_something
                   (if is_end_type (ints (line r) line_type) then trackpoints_end r else r)
                 = true).
    { destruct (is_end_type _); [now rewrite trackpoints_end_flag|exact Eh]. }
    assert (Hl : line (if is_end_type (ints (line r) line_type)
                       then trackpoints_end r else r) = line r).
    { destruct (is_end_type _); [|reflexivity].
      unfold trackpoints_end. destruct (current_track r); [|reflexivity].
      destruct (get_track _ _); [|reflexivity].
      destruct (trk_trackpoints _); reflexivity. }
    set (r0 := if is_end_type (ints (line r) line_type) then trackpoints_end r else r)
      in *.
    destruct ((ints (line r0) line_type =? GPSPOINT_TYPE_WAYPOINT)
              && not_null (strs (line r0) line_name)); [discriminate|].
    destruct (((ints (line r0) line_type =? GPSPOINT_TYPE_TRACK)
               || (ints (line r0) line_type =? GPSPOINT_TYPE_ROUTE))
              && not_null (strs (line r0) line_name)); [discriminate|].
    destruct (((ints (line r0) line_type =? GPSPOINT_TYPE_TRACKPOINT)
               || (ints (line r0) line_type =? GPSPOINT_TYPE_ROUTEPOINT))
              && match current_track r0 with Some _ => true | None => false end).
    + cbn [with_have_read_something current_track].
      destruct (current_track r0); [discriminate|]. cbn. discriminate.
    + rewrite He. discriminate.
  - destruct (Hr Eh) as [Hlay Hcur].
    unfold assemble. cbv zeta.
    assert (H0 : (if is_end_type (ints (line r) line_type) then trackpoints_end r else r)
                 = r).
    { destruct (is_end_type _); [now apply trackpoints_end_closed|reflexivity]. }
    rewrite H0.
    destruct ((ints (line r) line_type =? GPSPOINT_TYPE_WAYPOINT)
              && not_null (strs (line r) line_name)); [intros Hf; discriminate Hf|].
    destruct (((ints (line r) line_type =? GPSPOINT_TYPE_TRACK)
               || (ints (line r) line_type =? GPSPOINT_TYPE_ROUTE))
              && not_null (strs (line r) line_name)); [intros Hf; discriminate Hf|].
    rewrite Hcur, andb_false_r. exact Hr.
Qed.

Lemma process_line_untouched (dirpath : gstr) (trw : VikTrwLayer) (l : cstr)
      (r r' : Reader) :
  untouched trw r -> process_line dirpath l r = Some r' -> untouched trw r'.
Proof.
  intros Hr. unfold process_line.
  destruct (process_line_tags l (line r)) as [ls|]; [|discriminate].
  intros H. injection H as <-.
  exact (assemble_untouched dirpath trw (with_line ls r) Hr).
Qed.

Lemma read_lines_untouched (dirpath : gstr) (trw : VikTrwLayer) :
  forall (fuel : nat) (f : list ascii) (r r' : Reader),
  untouched trw r -> read_lines fuel dirpath f r = Some r' -> untouched trw r'.
Proof.
  induction fuel as [|fuel IH]; intros f r r' Hr; [discriminate|]. cbn [read_lines].
  destruct (fgets f) as [[buf f']|]; [|intros H; injection H as <-; exact Hr].
  destruct (c_str buf); [discriminate|].
  destruct (is_end_layer_data _); [intros H; injection H as <-; intros Hf; discriminate Hf|].
  destruct (process_line _ _ _) as [r1|] eqn:Ep; [|discriminate].
  apply IH. exact (process_line_untouched dirpath trw _ r r1 Hr Ep).
Qed.

(** X6.  When [a_gpspoint_read_file] returns [FALSE], the layer is as the
    caller gave it: every path that adds a waypoint, a track or a
    trackpoint, or that meets the end marker, sets the returned flag. *)
Theorem nothing_read_nothing_changed (globals : LineState) (trw : VikTrwLayer)
        (f : list ascii) (dirpath : gstr) (r : Reader) :
  a_gpspoint_read_file globals trw f dirpath = Some r ->
  have_read_something r = false -> layer r = trw.
Proof.
  unfold a_gpspoint_read_file.
  destruct (read_lines _ _ _ _) as [r'|] eqn:El; [|discriminate].
  intros H Hf. injection H as <-. rewrite trackpoints_end_flag in Hf.
  assert (Hu : untouched trw r').
  { refine (read_lines_untouched dirpath trw _ _ _ r' _ El).
    intros _. split; reflexivity. }
  destruct (Hu Hf) as [Hlay Hcur]. now rewrite (trackpoints_end_closed r' Hcur).
Qed.

End ReturnedValue.

(** ** Single fields, written and read *)

Section FieldsRead.
Context {C : Collaborators}.

Lemma process_line_tags_blank (l : cstr) (st : LineState) :
  process_line_tags (SP :: l) st = process_line_tags l st.
Proof.
  unfold process_line_tags.
  assert (H : forall fuel, process_tags (S fuel) (SP :: l) false false st
                           = process_tags (S fuel) l false false st) by reflexivity.
  rewrite H. apply process_tags_fuel; cbn [length]; lia.
Qed.

Lemma field_tag (key : string) (body : cstr) :
  file_text [field key body] = SP :: join [Quoted key body].
Proof.
  unfold file_text, field. cbn [concat join tag_chars]. now rewrite app_nil_r.
Qed.

Lemma string_key_ok (n : Z) (key : string) (v : svar) :
  In (n, key, v) first_wins \/ In (n, key, v) last_wins ->
  key_ok (lit key) = true /\ len_of (lit key) <= 11
  /\ forall rest, key_is (lit key ++ rest) (len_of (lit key)) n key = true.
Proof.
  unfold first_wins, last_wins. cbn [In].
  intros [H|H];
    repeat (destruct H as [H|H];
            [injection H as <- <- <-; split; [reflexivity|];
             split; [vm_compute; discriminate|intros rest; reflexivity]|]);
    contradiction.
Qed.

(** X7.  A string that [write_string] wrote is read back from its field
    with every line feed and carriage return replaced by a blank, whatever
    blanks, quotes and backslashes it holds; the variables that keep their
    first value take it when they are still [NULL]. *)
Theorem string_field_reads_back (n : Z) (key : string) (v : svar) (s : cstr)
        (st : LineState) :
  (In (n, key, v) first_wins /\ strs st v = None) \/ In (n, key, v) last_wins ->
  no_nul s = true -> s <> [] -> len_of (slashdup s) <= 65000 ->
  process_line_tags (file_text (write_string key (Some s))) st
  = Some (set_s v (Some (blank_eol s)) st).
Proof.
  intros Hin Hn Hne Hlen.
  assert (Hkey : In (n, key, v) first_wins \/ In (n, key, v) last_wins)
    by (destruct Hin as [[H _]|H]; [left|right]; exact H).
  destruct (string_key_ok n key v Hkey) as (Hk & Hkl & Hkis).
  assert (Hstr : (strlen s =? 0) = false).
  { unfold strlen. rewrite (proj2 (c_str_no_nul s [] Hn)). apply Z.eqb_neq.
    destruct s; [congruence|]. unfold len_of. cbn [length]. lia. }
  unfold write_string. rewrite Hstr. cbn [negb].
  rewrite field_tag, process_line_tags_blank.
  pose proof (slashdup_nonempty s Hne) as Hsne.
  rewrite process_line_tags_joined.
  - cbn [dispatch_joined]. unfold dispatch_tag. cbn [tag_chars].
    rewrite <- app_assoc.
    destruct Hin as [[Hf Hnone]|Hl].
    + rewrite (dispatch_first_wins n key v) by (first [exact Hf | apply Hkis]).
      rewrite Hnone, deslashndup_escaped by (first [exact Hne | lia]). reflexivity.
    + rewrite (dispatch_last_wins n key v) by (first [exact Hl | apply Hkis]).
      rewrite deslashndup_escaped by (first [exact Hne | lia]). reflexivity.
  - cbn [forallb tag_ok]. rewrite Hk, (quoted_body_slashdup s Hn).
    destruct (slashdup s); [congruence|reflexivity].
  - cbn [join]. rewrite len_of_tag_chars. lia.
Qed.

Lemma count_key_ok (n : Z) (key : string) (v : ivar) (u : bool) :
  In (n, key, v, u) int_keys ->
  key_ok (lit key) = true /\ len_of (lit key) <= 19.
Proof.
  unfold int_keys. cbn [In]. intros H.
  repeat (destruct H as [H|H];
          [injection H as <- <- <- <-; split; [reflexivity|vm_compute; discriminate]|]).
  contradiction.
Qed.

Lemma fmt_digits_length : forall (fuel : nat) (n : Z),
  (length (fmt_digits fuel n) <= fuel)%nat.
Proof.
  induction fuel as [|fuel IH]; intros n; [reflexivity|]. cbn [fmt_digits].
  destruct (n <? 10); [cbn; lia|]. rewrite length_app. cbn [length].
  specialize (IH (n / 10)). lia.
Qed.

Lemma fmt_d_length (z : Z) : -2147483648 <= z < 2147483648 -> len_of (fmt_d z) <= 40.
Proof.
  intros Hz.
  assert (Hu : forall n, 0 <= n <= 2147483648 -> len_of (fmt_unsigned n) <= 32).
  { intros n Hn. unfold fmt_unsigned, len_of.
    pose proof (fmt_digits_length (S (Z.to_nat (Z.log2 n))) n) as Hl.
    pose proof (Z.log2_le_mono n 2147483648 (proj2 Hn)) as Hm.
    change (Z.log2 2147483648) with 31 in Hm.
    pose proof (Z.log2_nonneg n). lia. }
  unfold fmt_d. destruct (z <? 0) eqn:E0.
  - apply Z.ltb_lt in E0. rewrite len_of_cons. specialize (Hu (- z) ltac:(lia)). lia.
  - apply Z.ltb_ge in E0. specialize (Hu z ltac:(lia)). lia.
Qed.

Lemma count_key_is (n : Z) (key : string) (v : ivar) (u : bool) (rest : cstr) :
  In (n, key, v, u) int_keys ->
  key_is (lit key ++ rest) (len_of (lit key)) n key = true.
Proof.
  unfold int_keys. cbn [In]. intros H.
  repeat (destruct H as [H|H]; [injection H as <- <- <- <-; reflexivity|]).
  contradiction.
Qed.

(** X8.  A count that [write_positive_uint] wrote is read back as it was:
    the conversion ["%d"] writes the counts from 2^31 on as negative
    numbers, and the assignment of [atoi]'s result to a [guint] brings them
    back. *)
Theorem count_field_reads_back (n : Z) (key : string) (v : ivar) (value : Z)
        (st : LineState) :
  In (n, key, v, true) int_keys -> 0 < value < 4294967296 ->
  process_line_tags (file_text (write_positive_uint key value)) st
  = Some (set_i v value st).
Proof.
  intros Hin Hv. destruct (count_key_ok n key v true Hin) as [Hk Hkl].
  unfold write_positive_uint.
  rewrite (proj2 (Z.eqb_neq value 0)) by lia. cbn [negb].
  rewrite field_tag, process_line_tags_blank.
  rewrite process_line_tags_joined.
  - cbn [dispatch_joined]. unfold dispatch_tag. cbn [tag_chars].
    rewrite <- app_assoc.
    rewrite (dispatch_int n key v true) by (first [exact Hin | apply (count_key_is n key v true), Hin]).
    cbv iota. cbn [app].
    rewrite atoi_fmt_d by (first [apply s32_range | reflexivity]).
    rewrite u32_s32 by lia. reflexivity.
  - cbn [forallb]. now rewrite (count_tag_ok key (s32 value) Hk).
  - cbn [join]. rewrite len_of_tag_chars.
    pose proof (fmt_d_length (s32 value) (s32_range value)). lia.
Qed.

End FieldsRead.

(** ** What the tokenizer leaves out *)

Lemma skip_blanks_app : forall (ws p : cstr),
  forallb blank ws = true -> skip_blanks (ws ++ p) = skip_blanks p.
Proof.
  induction ws as [|c ws IH]; intros p H; [reflexivity|].
  cbn [forallb] in H. apply andb_true_iff in H. destruct H as [Hc Hws].
  unfold blank in Hc. cbn [app skip_blanks]. rewrite Hc. now apply IH.
Qed.

Lemma find_key_end_none (tag : cstr) (len : Z) :
  (forall i, 1 <= i < len -> str_at tag i <> EQS) ->
  forall (fuel : nat) (k : Z),
  1 <= k <= len -> (Z.to_nat (len - k) <= fuel)%nat ->
  find_key_end fuel tag len k = len.
Proof.
  intros Hno. induction fuel as [|fuel IH]; intros k Hk Hf.
  - cbn [find_key_end]. lia.
  - cbn [find_key_end]. destruct (k <? len) eqn:E0.
    + apply Z.ltb_lt in E0.
      destruct (Ascii.eqb (str_at tag k) EQS) eqn:E1.
      * apply Ascii.eqb_eq in E1. exfalso. apply (Hno k); [lia|exact E1].
      * apply IH; lia.
    + apply Z.ltb_ge in E0. lia.
Qed.

Section LeftOut.
Context {C : Collaborators}.

(** X9.  A line of blanks, and a line whose first character after the
    blanks is [#], change no line variable: the rest of a comment line is
    not looked at. *)
Theorem comment_line_changes_nothing (ws rest : cstr) (st : LineState) :
  forallb blank ws = true ->
  process_line_tags ws st = Some st
  /\ process_line_tags (ws ++ HASH :: rest) st = Some st.
Proof.
  intros Hws. unfold process_line_tags. cbn [process_tags].
  rewrite (skip_blanks_app ws (HASH :: rest) Hws).
  pose proof (skip_blanks_app ws [] Hws) as H0. rewrite app_nil_r in H0. rewrite H0.
  split; reflexivity.
Qed.

(** X10.  A tag that holds no equal sign after its first character is
    dropped: [gpspoint_process_tag] returns before it calls the
    dispatcher, and no line variable changes. *)
Theorem tag_without_equal_sign_is_dropped (tag : cstr) (len : Z) (st : LineState) :
  0 <= len -> (forall i, 1 <= i < len -> str_at tag i <> EQS) ->
  gpspoint_process_tag tag len st = Some st.
Proof.
  intros Hlen Hno. unfold gpspoint_process_tag.
  destruct (Z.eq_dec len 0) as [->|Hpos].
  - reflexivity.
  - rewrite (find_key_end_none tag len Hno) by lia.
    now rewrite Z.eqb_refl.
Qed.

End LeftOut.

(** X11.  A string that [slashdup] escaped and that stands between quotes
    behind a key is one tag for the tokenizer, whatever blanks, quotes
    and backslashes the string holds: the scan ends right behind the
    closing quote, outside the quotes and with no backslash pending. *)
Theorem escaped_value_is_one_tag (key s rest : cstr) :
  key_ok key = true -> no_nul s = true -> tag_stop rest = true ->
  tag_scan (key ++ EQS :: DQ :: slashdup s ++ DQ :: rest) false false 0
  = (rest, len_of key + len_of (slashdup s) + 3, false, false).
Proof.
  intros Hk Hs Hr. apply tag_scan_quoted; [exact Hk| |exact Hr].
  now apply quoted_body_slashdup.
Qed.

(** ** Letter case of the keys *)

Lemma tolower_eqs (c : ascii) : tolower c = EQS -> c = EQS.
Proof.
  destruct c as [[] [] [] [] [] [] [] []]; vm_compute; intros H;
    first [reflexivity | discriminate H].
Qed.

Lemma tolower_same_eqs (c c' : ascii) :
  tolower c = tolower c' -> Ascii.eqb EQS c = Ascii.eqb EQS c'.
Proof.
  intros H. destruct (Ascii.eqb EQS c) eqn:E1; destruct (Ascii.eqb EQS c') eqn:E2;
    try reflexivity.
  - apply Ascii.eqb_eq in E1. subst c. symmetry in H. apply tolower_eqs in H.
    subst c'. now rewrite Ascii.eqb_refl in E2.
  - apply Ascii.eqb_eq in E2. subst c'. apply tolower_eqs in H.
    subst c. now rewrite Ascii.eqb_refl in E1.
Qed.

Lemma tolower_same_nul (c c' : ascii) :
  tolower c = tolower c' -> Ascii.eqb c NUL = Ascii.eqb c' NUL.
Proof.
  intros H. destruct (Ascii.eqb c NUL) eqn:E1; destruct (Ascii.eqb c' NUL) eqn:E2;
    try reflexivity.
  - apply Ascii.eqb_eq in E1. subst c. symmetry in H. apply tolower_nul in H.
    subst c'. discriminate.
  - apply Ascii.eqb_eq in E2. subst c'. apply tolower_nul in H.
    subst c. discriminate.
Qed.

Lemma lower_same_no_equal : forall (k k' : cstr),
  map tolower k = map tolower k' ->
  existsb (Ascii.eqb EQS) k = existsb (Ascii.eqb EQS) k'.
Proof.
  induction k as [|c k IH]; intros [|c' k'] H; try discriminate; [reflexivity|].
  cbn [map] in H. injection H as Hc Hk. cbn [existsb].
  now rewrite (tolower_same_eqs c c' Hc), (IH k' Hk).
Qed.

Lemma lower_same_is_key (key key' : cstr) :
  map tolower key = map tolower key' -> is_key key = is_key key'.
Proof.
  destruct key as [|c k]; destruct key' as [|c' k']; try discriminate; [reflexivity|].
  cbn [map]. intros H. injection H as _ Hk. unfold is_key.
  now rewrite (lower_same_no_equal k k' Hk).
Qed.

Lemma strncasecmp_eq_lower : forall (n : nat) (s1 s1' s2 : cstr),
  (forall i, (i < n)%nat -> tolower (nth i s1 NUL) = tolower (nth i s1' NUL)) ->
  strncasecmp_eq s1 s2 n = strncasecmp_eq s1' s2 n.
Proof.
  induction n as [|n IH]; intros s1 s1' s2 H; [reflexivity|]. cbn [strncasecmp_eq].
  assert (H0 : tolower (hd NUL s1) = tolower (hd NUL s1')).
  { specialize (H O ltac:(lia)). now destruct s1, s1'. }
  rewrite H0, (tolower_same_nul _ _ H0).
  rewrite (IH (tl s1) (tl s1') (tl s2)); [reflexivity|].
  intros i Hi. specialize (H (S i) ltac:(lia)).
  destruct s1, s1'; cbn [tl nth] in *; try exact H.
  - now destruct i.
  - now destruct i.
  - now destruct i.
Qed.

Section KeyCase.
Context {C : Collaborators}.

Lemma key_is_lower (tag tag' : cstr) (key_len n : Z) (name : string) :
  (forall i, (i < Z.to_nat key_len)%nat ->
     tolower (nth i tag NUL) = tolower (nth i tag' NUL)) ->
  key_is tag key_len n name = key_is tag' key_len n name.
Proof.
  intros H. unfold key_is. now rewrite (strncasecmp_eq_lower _ tag tag' _ H).
Qed.

Lemma dispatch_lower (tag tag' : cstr) (key_len : Z) (value : gstr) (value_len : Z)
      (st : LineState) :
  (forall i, (i < Z.to_nat key_len)%nat ->
     tolower (nth i tag NUL) = tolower (nth i tag' NUL)) ->
  gpspoint_process_key_and_value tag key_len value value_len st
  = gpspoint_process_key_and_value tag' key_len value value_len st.
Proof.
  intros H. unfold gpspoint_process_key_and_value. cbv zeta.
  assert (Hk : forall n name, key_is tag key_len n name = key_is tag' key_len n name)
    by (intros n name; now apply key_is_lower).
  rewrite !Hk. reflexivity.
Qed.

Lemma ptr_add_beyond (key key' rest : cstr) (a : Z) :
  length key = length key' -> len_of key <= a ->
  ptr_add (key ++ rest) a = ptr_add (key' ++ rest) a.
Proof.
  intros Hl Ha. unfold ptr_add, len_of in *.
  rewrite !skipn_app, <- Hl.
  rewrite (skipn_all2 key) by lia. rewrite (skipn_all2 key') by lia. reflexivity.
Qed.

Lemma str_at_beyond (key key' rest : cstr) (i : Z) :
  length key = length key' -> len_of key <= i ->
  str_at (key ++ rest) i = str_at (key' ++ rest) i.
Proof.
  intros Hl Hi.
  assert (Hl' : len_of key' = len_of key) by (unfold len_of; lia).
  replace i with (len_of key + (i - len_of key)) at 1 by lia.
  replace i with (len_of key' + (i - len_of key)) at 2 by lia.
  rewrite !str_at_app_r by lia. reflexivity.
Qed.

(** X12.  The letter case of a key does not matter: two tags that differ
    only in the case of the letters of their keys are processed alike. *)
Theorem key_case_does_not_matter (key key' rest : cstr) (len : Z) (st : LineState) :
  is_key key = true -> map tolower key = map tolower key' -> 0 <= len ->
  gpspoint_process_tag (key ++ EQS :: rest) len st
  = gpspoint_process_tag (key' ++ EQS :: rest) len st.
Proof.
  intros Hk Hlow Hlen.
  assert (Hk' : is_key key' = true) by (now rewrite <- (lower_same_is_key key key' Hlow)).
  assert (Hl : length key = length key').
  { apply (f_equal (@length ascii)) in Hlow. now rewrite !length_map in Hlow. }
  assert (Hl' : len_of key' = len_of key) by (unfold len_of; lia).
  destruct (Z.eq_dec len 0) as [->|Hpos]; [reflexivity|].
  destruct (Z_le_gt_dec len (len_of key)) as [Hshort|Hlong].
  - (* the tag ends inside the key *)
    unfold gpspoint_process_tag.
    rewrite !find_key_end_none; try lia.
    + now rewrite Z.eqb_refl.
    + intros i Hi. rewrite str_at_app_l by lia. apply (is_key_no_equal key' Hk'). lia.
    + intros i Hi. rewrite str_at_app_l by lia. apply (is_key_no_equal key Hk). lia.
  - unfold gpspoint_process_tag.
    rewrite (key_end_of_tag key rest len Hk) by lia.
    rewrite (key_end_of_tag key' rest len Hk') by lia.
    rewrite Hl'.
    pose proof (len_of_nonneg key) as Hnn.
    rewrite !(str_at_beyond key key' (EQS :: rest)) by (first [exact Hl | lia]).
    rewrite !(ptr_add_beyond key key' (EQS :: rest)) by (first [exact Hl | lia]).
    assert (Hd : forall value value_len,
      gpspoint_process_key_and_value (key ++ EQS :: rest) (u32 (len_of key))
        value value_len st
      = gpspoint_process_key_and_value (key' ++ EQS :: rest) (u32 (len_of key))
          value value_len st).
    { intros value value_len. apply dispatch_lower. intros i Hi.
      assert (Hu : 0 <= u32 (len_of key) <= len_of key).
      { unfold u32. pose proof (Z.mod_pos_bound (len_of key) 4294967296 ltac:(lia)).
        pose proof (Z.mod_le (len_of key) 4294967296 Hnn ltac:(lia)). lia. }
      assert (Hi' : (i < length key)%nat) by (unfold len_of in Hu, Hi; lia).
      rewrite !app_nth1 by lia.
      rewrite <- (map_nth tolower key NUL i), <- (map_nth tolower key' NUL i).
      now rewrite Hlow. }
    rewrite !Hd. reflexivity.
Qed.

End KeyCase.

(** ** Closing a track, and files without entities *)

Section Closing.
Context {C : Collaborators} {E : EntityOps}.

(** X13.  [trackpoints_end] does its work once: its calls at the end
    lines, in front of every waypoint and track, and at the end of the
    file never reverse the points of a track a second time. *)
Theorem trackpoints_end_twice (r : Reader) :
  trackpoints_end (trackpoints_end r) = trackpoints_end r.
Proof.
  unfold trackpoints_end at 2 3.
  destruct (current_track r) as [p|] eqn:Ecur.
  - destruct (get_track (layer r) p) as [trk|] eqn:Eget.
    + destruct (trk_trackpoints trk) as [|tp pts] eqn:Epts.
      * unfold trackpoints_end. now rewrite Ecur, Eget, Epts.
      * reflexivity.
    + unfold trackpoints_end. now rewrite Ecur, Eget.
  - unfold trackpoints_end. now rewrite Ecur.
Qed.

(** The two lines around the waypoints, from any state. *)
Lemma list_line_state (dirpath : gstr) (w : string) (r : Reader) :
  w = "waypointlist" \/ w = "waypointlistend" ->
  process_line dirpath (join [Quoted "type" (lit w)]) r
  = Some (with_line (reset_line (set_i line_type GPSPOINT_TYPE_NONE (line r))) r).
Proof.
  intros Hw. unfold process_line.
  rewrite process_line_tags_joined;
    [| destruct Hw as [->| ->]; reflexivity
     | destruct Hw as [->| ->]; vm_compute; discriminate ].
  cbn [dispatch_joined]. rewrite dispatch_tag_type.
  rewrite (parse_type_word w GPSPOINT_TYPE_NONE)
    by (unfold type_words; destruct Hw as [->| ->]; in_list).
  rewrite assemble_none by reflexivity. reflexivity.
Qed.

Lemma nameless_waypoints_unwritten (dirpath : gstr) : forall (wps : list VikWaypoint),
  Forall (fun wp => wp_name wp = None) wps ->
  flat_map (fun wp => a_gpspoint_write_waypoint wp dirpath) wps = [].
Proof.
  induction wps as [|wp wps IH]; intros H; [reflexivity|].
  inversion H as [|? ? Hwp Hwps]; subst. cbn [flat_map].
  unfold a_gpspoint_write_waypoint at 1. rewrite Hwp. exact (IH Hwps).
Qed.

Lemma nameless_tracks_unwritten : forall (trks : list VikTrack),
  Forall (fun trk => trk_name trk = None) trks ->
  flat_map a_gpspoint_write_track trks = [].
Proof.
  induction trks as [|trk trks IH]; intros H; [reflexivity|].
  inversion H as [|? ? Htrk Htrks]; subst. cbn [flat_map].
  unfold a_gpspoint_write_track at 1. rewrite Htrk. exact (IH Htrks).
Qed.

(** X14.  The file of a layer that holds no named waypoint, track or
    route, the empty layer among them, is read back with the value
    [FALSE]: the two lines around the waypoints do not count as something
    read, and the layer that receives the file is left as it was. *)
Theorem file_without_entities_returns_false (globals : LineState)
        (trw written : VikTrwLayer) (dirpath : gstr) :
  Forall (fun wp => wp_name wp = None) (waypoints written) ->
  Forall (fun trk => trk_name trk = None) (tracks written) ->
  Forall (fun trk => trk_name trk = None) (routes written) ->
  exists r,
    a_gpspoint_read_file globals trw (file_text (a_gpspoint_write_file written dirpath))
      dirpath = Some r
    /\ have_read_something r = false /\ layer r = trw.
Proof.
  intros Hw Ht Hr. unfold a_gpspoint_read_file.
  change (read_lines (S (length ?f)) dirpath ?f ?r) with (run dirpath f r).
  rewrite write_file_text.
  unfold vu_sorted_list_from_hash_table in *.
  rewrite (nameless_waypoints_unwritten dirpath _ Hw).
  rewrite !(nameless_tracks_unwritten _ Ht), !(nameless_tracks_unwritten _ Hr).
  change (file_text []) with (@nil ascii). cbn [app].
  assert (Hl : forall w, w = "waypointlist" \/ w = "waypointlistend" ->
                 forallb tag_ok [Quoted "type" (lit w)] = true
                 /\ len_of (join [Quoted "type" (lit w)]) <= 4094).
  { intros w [->| ->]; (split; [reflexivity|vm_compute; discriminate]). }
  destruct (Hl _ (or_introl eq_refl)) as [Ho1 Hn1].
  destruct (Hl _ (or_intror eq_refl)) as [Ho2 Hn2].
  rewrite (run_tags dirpath _ _ _ _ ltac:(eexists; eexists; reflexivity) Ho1 Hn1
             (list_line_state dirpath "waypointlist" _ (or_introl eq_refl))).
  rewrite (run_tags dirpath _ _ _ _ ltac:(eexists; eexists; reflexivity) Ho2 Hn2
             (list_line_state dirpath "waypointlistend" _ (or_intror eq_refl))).
  rewrite run_end. eexists. split; [reflexivity|]. split; reflexivity.
Qed.

End Closing.

(** ** Tags of a line *)

Section TagsOfLine.
Context {C : Collaborators}.

(** X2.  A line made of well-formed tags, one blank between two of them,
    is handed to the dispatcher tag by tag, in the order of the line: each
    call receives the tag for its key, the length of the key, the text
    behind the opening quote (or behind the equal sign) for its value, and
    the length of the value without its quotes.  Blanks, escaped quotes and
    escaped backslashes between the quotes do not split a tag. *)
Theorem line_of_tags_is_dispatched (ts : list tag_text) (st : LineState) :
  forallb tag_ok ts = true -> len_of (join ts) <= 65534 ->
  process_line_tags (join ts) st = dispatch_joined ts st.
Proof. exact (process_line_tags_joined ts st). Qed.

Lemma str_at_last (l : cstr) : l <> [] -> str_at l (len_of l - 1) = last l NUL.
Proof.
  intros Hne. destruct (exists_last Hne) as (l' & a & ->).
  rewrite last_last. unfold str_at, len_of. rewrite length_app. cbn [length].
  replace (Z.to_nat (Z.of_nat (length l' + 1) - 1)) with (length l') by lia.
  rewrite app_nth2 by lia. now rewrite Nat.sub_diag.
Qed.

(** X15.  A value that opens with a quote, is not the empty pair of quotes
    and does not end with a quote is dropped with its tag: the dispatcher
    is not called and no line variable changes. *)
Theorem unclosed_quote_drops_the_tag (key body rest : cstr) (st : LineState) :
  is_key key = true -> hd NUL (body ++ rest) <> DQ -> last body NUL <> DQ ->
  len_of key + len_of body <= 65534 ->
  gpspoint_process_tag (key ++ EQS :: DQ :: body ++ rest)
    (len_of key + 2 + len_of body) st
  = Some st.
Proof.
  intros Hk Hhd Hlast Hmax.
  pose proof (len_of_nonneg key) as Hkn. pose proof (len_of_nonneg body) as Hbn.
  unfold gpspoint_process_tag.
  rewrite (key_end_of_tag key _ _ Hk) by lia.
  rewrite (proj2 (Z.eqb_neq (len_of key) (len_of key + 2 + len_of body))) by lia.
  rewrite (u32_small (len_of key + 2 + len_of body + 1)) by lia.
  rewrite (proj2 (Z.eqb_neq (len_of key) (len_of key + 2 + len_of body + 1))) by lia.
  replace (len_of key + 1) with (len_of key + 1 + 0) at 1 by lia.
  replace (len_of key + 1 + 0) with (len_of key + (1 + 0)) by lia.
  rewrite (str_at_app_r key (EQS :: DQ :: body ++ rest) (1 + 0)) by lia.
  change (str_at (EQS :: DQ :: body ++ rest) (1 + 0)) with DQ.
  rewrite Ascii.eqb_refl.
  replace (len_of key + 1 + 1) with (len_of key + 2) by lia.
  rewrite (str_at_app_r key (EQS :: DQ :: body ++ rest) 2) by lia.
  assert (H2 : str_at (EQS :: DQ :: body ++ rest) 2 = hd NUL (body ++ rest)).
  { unfold str_at. change (Z.to_nat 2) with 2%nat. cbn [nth].
    now destruct (body ++ rest). }
  rewrite H2.
  destruct body as [|b0 body].
  - (* nothing behind the opening quote *)
    cbn [app] in *.
    destruct (Ascii.eqb (hd NUL rest) DQ) eqn:E0;
      [apply Ascii.eqb_eq in E0; congruence|].
    change (len_of []) with 0.
    replace (len_of key + 2 + 0 - 1) with (len_of key + 1) by lia.
    rewrite (str_at_app_r key (EQS :: DQ :: rest) 1) by lia.
    change (str_at (EQS :: DQ :: rest) 1) with DQ. rewrite Ascii.eqb_refl.
    replace (len_of key + 1 - (len_of key + 2) <? 0) with true
      by (symmetry; apply Z.ltb_lt; lia).
    reflexivity.
  - cbn [app hd] in *.
    assert (Hb0 : Ascii.eqb b0 DQ = false).
    { destruct (Ascii.eqb b0 DQ) eqn:E0; [|reflexivity].
      apply Ascii.eqb_eq in E0. congruence. }
    rewrite Hb0.
    pose proof (len_of_cons b0 body) as Hc. pose proof (len_of_nonneg body) as Hbn'.
    replace (len_of key + 2 + len_of (b0 :: body) - 1)
      with (len_of key + (2 + (len_of (b0 :: body) - 1))) by lia.
    rewrite (str_at_app_r key _ (2 + (len_of (b0 :: body) - 1))) by lia.
    assert (H3 : str_at (EQS :: DQ :: b0 :: body ++ rest) (2 + (len_of (b0 :: body) - 1))
                 = last (b0 :: body) NUL).
    { change (EQS :: DQ :: b0 :: body ++ rest) with ([EQS; DQ] ++ (b0 :: body) ++ rest).
      change 2 with (len_of [EQS; DQ]) at 1.
      rewrite str_at_app_r by lia.
      rewrite str_at_app_l by lia.
      apply str_at_last. discriminate. }
    rewrite H3.
    destruct (Ascii.eqb (last (b0 :: body) NUL) DQ) eqn:E1; [|reflexivity].
    apply Ascii.eqb_eq in E1. congruence.
Qed.

(** X16.  The blanks in front of the first tag of a line do not matter:
    the line is processed like the line without them. *)
Theorem leading_blanks_do_not_matter (ws l : cstr) (st : LineState) :
  forallb blank ws = true ->
  process_line_tags (ws ++ l) st = process_line_tags l st.
Proof.
  intros Hws. unfold process_line_tags.
  assert (H : forall fuel, process_tags (S fuel) (ws ++ l) false false st
                           = process_tags (S fuel) l false false st).
  { intros fuel. cbn [process_tags]. now rewrite (skip_blanks_app ws l Hws). }
  rewrite H. apply process_tags_fuel; rewrite ?length_app; lia.
Qed.

End TagsOfLine.

(** ** The theorems above on texts of the reference collaborators *)

Lemma line_of_tags_is_dispatched_witness :
  process_line_tags (C := Plain.collaborators)
    (join [Quoted "type" (lit "waypoint"); Quoted "name" (lit "A")]) static_line
  = dispatch_joined [Quoted "type" (lit "waypoint"); Quoted "name" (lit "A")] static_line.
Proof.
  apply (line_of_tags_is_dispatched (C := Plain.collaborators)).
  - vm_compute. reflexivity.
  - vm_compute. discriminate.
Defined.

Lemma read_file_defined_witness :
  exists r,
    a_gpspoint_read_file (C := Plain.collaborators) (E := Plain.entities) static_line
      Plain.empty_layer (lit "# no entity" ++ [LF]) None = Some r.
Proof.
  apply (read_file_defined (C := Plain.collaborators) (E := Plain.entities)).
  vm_compute. reflexivity.
Defined.


Lemma last_byte_of_buffer_is_chopped_witness :
  a_gpspoint_read_file (C := Plain.collaborators) (E := Plain.entities) static_line
    Plain.empty_layer ((lit "# layer" ++ [LF]) ++ lit "type=track" ++ []) None
  = a_gpspoint_read_file (C := Plain.collaborators) (E := Plain.entities) static_line
      Plain.empty_layer
      ((lit "# layer" ++ [LF]) ++ removelast (lit "type=track") ++ [LF]) None.
Proof.
  apply (last_byte_of_buffer_is_chopped (C := Plain.collaborators) (E := Plain.entities)).
  - reflexivity.
  - vm_compute. reflexivity.
  - discriminate.
  - right. split; [reflexivity|]. vm_compute. lia.
Defined.

Lemma nothing_read_nothing_changed_witness :
  exists r,
    a_gpspoint_read_file (C := Plain.collaborators) (E := Plain.entities) static_line
      Samples.chart (lit "# no entity" ++ [LF]) None = Some r
    /\ have_read_something r = false /\ layer r = Samples.chart.
Proof.
  destruct (read_file_returns (C := Plain.collaborators) (E := Plain.entities)
              static_line Samples.chart (lit "# no entity" ++ [LF]) None eq_refl)
    as [r Hr].
  assert (Hf : have_read_something r = false).
  { assert (H : option_map have_read_something
                  (a_gpspoint_read_file (C := Plain.collaborators) (E := Plain.entities)
                     static_line Samples.chart (lit "# no entity" ++ [LF]) None)
                = Some false) by (vm_compute; reflexivity).
    rewrite Hr in H. cbn [option_map] in H. now injection H. }
  exists r. split; [exact Hr|]. split; [exact Hf|].
  exact (nothing_read_nothing_changed (C := Plain.collaborators) (E := Plain.entities)
           static_line Samples.chart (lit "# no entity" ++ [LF]) None r Hr Hf).
Defined.

Lemma string_field_reads_back_witness :
  process_line_tags (C := Plain.collaborators)
    (file_text (write_string "comment" (Some ("a"%char :: LF :: DQ :: lit " b"))))
    static_line
  = Some (set_s line_comment (Some (blank_eol ("a"%char :: LF :: DQ :: lit " b")))
            static_line).
Proof.
  apply (string_field_reads_back (C := Plain.collaborators) 7 "comment" line_comment).
  - left. split; [in_keys|reflexivity].
  - vm_compute. reflexivity.
  - discriminate.
  - vm_compute. discriminate.
Defined.

Lemma count_field_reads_back_witness :
  process_line_tags (C := Plain.collaborators)
    (file_text (write_positive_uint "sat" 3000000000)) static_line
  = Some (set_i line_sat 3000000000 static_line).
Proof.
  apply (count_field_reads_back (C := Plain.collaborators) 3 "sat" line_sat).
  - in_keys.
  - lia.
Defined.

Lemma comment_line_changes_nothing_witness :
  process_line_tags (C := Plain.collaborators) [SP; SP] static_line = Some static_line
  /\ process_line_tags (C := Plain.collaborators) ([SP; SP] ++ HASH :: lit " name=A")
       static_line
     = Some static_line.
Proof.
  apply (comment_line_changes_nothing (C := Plain.collaborators)).
  vm_compute. reflexivity.
Defined.

Lemma tag_without_equal_sign_is_dropped_witness :
  gpspoint_process_tag (C := Plain.collaborators) (lit "name") 4 static_line
  = Some static_line.
Proof.
  apply (tag_without_equal_sign_is_dropped (C := Plain.collaborators)).
  - lia.
  - intros i Hi H.
    assert (Hc : i = 1 \/ i = 2 \/ i = 3) by lia.
    destruct Hc as [->|[->| ->]]; vm_compute in H; discriminate H.
Defined.

Lemma escaped_value_is_one_tag_witness :
  tag_scan (lit "name" ++ EQS :: DQ :: slashdup ("a"%char :: DQ :: lit " b") ++ DQ :: [SP])
    false false 0
  = ([SP], len_of (lit "name") + len_of (slashdup ("a"%char :: DQ :: lit " b")) + 3,
     false, false).
Proof.
  apply escaped_value_is_one_tag.
  - vm_compute. reflexivity.
  - vm_compute. reflexivity.
  - vm_compute. reflexivity.
Defined.

Lemma key_case_does_not_matter_witness :
  gpspoint_process_tag (C := Plain.collaborators)
    (lit "NAME" ++ EQS :: DQ :: lit "A" ++ [DQ]) 8 static_line
  = gpspoint_process_tag (C := Plain.collaborators)
      (lit "name" ++ EQS :: DQ :: lit "A" ++ [DQ]) 8 static_line.
Proof.
  apply (key_case_does_not_matter (C := Plain.collaborators)).
  - vm_compute. reflexivity.
  - vm_compute. reflexivity.
  - lia.
Defined.

Lemma file_without_entities_returns_false_witness :
  exists r,
    a_gpspoint_read_file (C := Plain.collaborators) (E := Plain.entities) static_line
      Samples.chart (file_text (a_gpspoint_write_file Plain.empty_layer None)) None
    = Some r
    /\ have_read_something r = false /\ layer r = Samples.chart.
Proof.
  apply (file_without_entities_returns_false (C := Plain.collaborators)
           (E := Plain.entities)).
  - constructor.
  - constructor.
  - constructor.
Defined.

Lemma unclosed_quote_drops_the_tag_witness :
  gpspoint_process_tag (C := Plain.collaborators)
    (lit "name" ++ EQS :: DQ :: lit "A" ++ []) (len_of (lit "name") + 2 + len_of (lit "A"))
    static_line
  = Some static_line.
Proof.
  apply (unclosed_quote_drops_the_tag (C := Plain.collaborators)).
  - vm_compute. reflexivity.
  - vm_compute. discriminate.
  - vm_compute. discriminate.
  - vm_compute. discriminate.
Defined.

Lemma leading_blanks_do_not_matter_witness :
  process_line_tags (C := Plain.collaborators) ([SP; SP] ++ lit "name=A") static_line
  = process_line_tags (C := Plain.collaborators) (lit "name=A") static_line.
Proof.
  apply (leading_blanks_do_not_matter (C := Plain.collaborators)).
  vm_compute. reflexivity.
Defined.
